(** * CS330 OpenGL 3D scene: the scene manager's transform and attribute
      pipeline, its texture and material registries, and the camera zoom keys.

    Sources embedded here:
    - [Source/SceneManager.h], [Source/SceneManager.cpp]
    - [Source/ShapeMeshWrappers.h]
    - [viewmanager.cpp] (the keys, the mouse callbacks and the frame of [ViewManager])

    The C++ [float] and [double] are IEEE-754 binary32 and binary64, modelled
    with the executable specification of the Standard Library
    ([SpecFloat]); [int] is [Z] (the [int]s that are incremented are
    [m_loadedTextures], after array writes that are undefined unless it is
    within the array, and loop indices that stay below it). glm, the image
    loader, the shader manager, the mesh library and the camera class are
    not among the sources: they are interfaces here. *)

From Stdlib Require Import ZArith Lia Bool.
From Stdlib Require Import Floats.SpecFloat.
From stdpp Require Import base list strings.

#[local] Open Scope Z_scope.

(** ** IEEE-754 numbers *)

Module Float.

(** [float]: binary32, 24 bits of precision, infinities at exponent 128. *)
Definition prec32 : Z := 24.
Definition emax32 : Z := 128.
(** [double]: binary64. *)
Definition prec64 : Z := 53.
Definition emax64 : Z := 1024.

Definition float : Type := spec_float.
Definition double : Type := spec_float.

Definition add32 : float -> float -> float := SFadd prec32 emax32.
Definition sub64 : double -> double -> double := SFsub prec64 emax64.
Definition add64 : double -> double -> double := SFadd prec64 emax64.

(** Conversion between the formats: rounding to nearest, ties to even. *)
Definition round_to (prec emax : Z) (x : spec_float) : spec_float :=
  match x with
  | S754_finite s m e => binary_round prec emax s m e
  | _ => x
  end.

Definition to_float : double -> float := round_to prec32 emax32.
Definition to_double : float -> double := round_to prec64 emax64.

(** An [int] converted to a floating-point format. *)
Definition of_int (prec emax : Z) (n : Z) : spec_float :=
  binary_normalize prec emax n 0 false.

(** A decimal literal [n / 10^k] (n an integer of at most 7 digits,
    k at most 10: both operands are then exact in either format, and the
    division rounds once, to the nearest value, as the compiler does). *)
Definition decimal (prec emax : Z) (n : Z) (k : nat) : spec_float :=
  match k with
  | O => of_int prec emax n
  | _ => SFdiv prec emax (of_int prec emax n) (of_int prec emax (10 ^ Z.of_nat k))
  end.

(** [lit_f n k] is the literal [n/10^k] with suffix [f]; [lit_d n k] is the
    unsuffixed (double) literal; [lit_df n k] is a double literal passed
    where a [float] is expected. *)
Definition lit_f (n : Z) (k : nat) : float := decimal prec32 emax32 n k.
Definition lit_d (n : Z) (k : nat) : double := decimal prec64 emax64 n k.
Definition lit_df (n : Z) (k : nat) : float := to_float (lit_d n k).

Definition geb32 (x y : float) : bool := SFleb y x.
Definition leb32 (x y : float) : bool := SFleb x y.
Definition ltb32 (x y : float) : bool := SFltb x y.

#[global] Instance spec_float_eq_dec : EqDecision spec_float.
Proof. solve_decision. Defined.

End Float.

Import Float.

(** ** glm vectors and the glm functions the scene manager calls *)

Record vec2 := Vec2 { vec2_x : float; vec2_y : float }.
Record vec3 := Vec3 { vec3_x : float; vec3_y : float; vec3_z : float }.
Record vec4 := Vec4 { vec4_x : float; vec4_y : float; vec4_z : float; vec4_w : float }.

#[global] Instance vec2_eq_dec : EqDecision vec2.
Proof. solve_decision. Defined.
#[global] Instance vec3_eq_dec : EqDecision vec3.
Proof. solve_decision. Defined.
#[global] Instance vec4_eq_dec : EqDecision vec4.
Proof. solve_decision. Defined.

(** glm is a library outside the repository. Its 4x4 matrices and the five
    functions [SetTransformations] uses are taken as an interface; every
    result below holds for any implementation of it. *)
Class GLM := {
  mat4 : Type;
  glm_scale : vec3 -> mat4;
  glm_rotate : float -> vec3 -> mat4;
  glm_translate : vec3 -> mat4;
  glm_radians : float -> float;
  mat4_mul : mat4 -> mat4 -> mat4;
}.

(** What [stbi_load] reports of an image it decoded. *)
Record Image := { img_width : Z; img_height : Z; img_channels : Z }.

(** ** Data of the scene manager (SceneManager.h) *)

Record TEXTURE_INFO := { tex_tag : string; tex_ID : Z }.

Record OBJECT_MATERIAL := {
  ambientStrength : float;
  ambientColor : vec3;
  diffuseColor : vec3;
  specularColor : vec3;
  shininess : float;
  mat_tag : string;
}.

#[global] Instance TEXTURE_INFO_eq_dec : EqDecision TEXTURE_INFO.
Proof. solve_decision. Defined.
#[global] Instance OBJECT_MATERIAL_eq_dec : EqDecision OBJECT_MATERIAL.
Proof. solve_decision. Defined.

(** The shader manager and the mesh library are objects the scene manager
    holds pointers to; their state lives in the graphics context
    (ShaderManager.h and ShapeMeshes.h are not among the sources). *)
Variant ShaderManager := shader_program (id : Z).
Variant ShapeMeshes := basic_meshes.

(** Modelled from the spec: the mesh library's draw operations, one per
    primitive kind (ShapeMeshes.h is not among the sources). A call is
    recorded with the arguments as passed; the default arguments of the
    declarations are unknown. *)
Inductive MeshCall :=
| DrawBoxMesh
| DrawConeMesh
| DrawCylinderMesh (args : list bool)
| DrawPlaneMesh
| DrawPrismMesh
| DrawPyramid3Mesh
| DrawPyramid4Mesh
| DrawSphereMesh
| DrawHalfSphereMesh
| DrawTaperedCylinderMesh
| DrawTorusMesh
| DrawHalfTorusMesh.

#[global] Instance MeshCall_eq_dec : EqDecision MeshCall.
Proof. solve_decision. Defined.

Variant GLenum :=
| GL_TEXTURE_2D | GL_TEXTURE_WRAP_S | GL_TEXTURE_WRAP_T | GL_REPEAT
| GL_TEXTURE_MIN_FILTER | GL_TEXTURE_MAG_FILTER | GL_LINEAR
| GL_RGB8 | GL_RGB | GL_RGBA8 | GL_RGBA | GL_UNSIGNED_BYTE.

Inductive GLCall :=
| glGenTextures (name : Z)
| glBindTexture (target : GLenum) (name : Z)
| glTexParameteri (target pname param : GLenum)
| glTexImage2D (target internalformat : GLenum) (width height : Z) (format type : GLenum)
| glGenerateMipmap (target : GLenum)
| glActiveTexture (unit : Z).

Inductive StbiCall :=
| stbi_set_flip_vertically_on_load (flag : bool)
| stbi_image_free.

Inductive Message :=
| LoadedImage (filename : string) (width height channels : Z)
| UnsupportedChannels (channels : Z)
| CouldNotLoad (filename : string).

(** What can go wrong in the C++ without an error being reported. *)
Inductive fault := NullPointer | OutOfBounds | OutOfFuel.

Inductive result (A : Type) :=
| Ok (a : A)
| Undefined (f : fault).
Arguments Ok {A} a.
Arguments Undefined {A} f.

(** Number of entries of [m_textureIDs]. *)
Definition TEXTURE_SLOTS : nat := 16.

Module Names.
(** The globals of the anonymous namespace of SceneManager.cpp. *)
Definition g_ModelName : string := "model".
Definition g_ColorValueName : string := "objectColor".
Definition g_TextureValueName : string := "objectTexture".
Definition g_UseTextureName : string := "bUseTexture".
Definition g_UseLightingName : string := "bUseLighting".
End Names.
Import Names.

(** [std::string::compare]: negative, zero or positive. *)
Definition std_compare (a b : string) : Z :=
  match String.compare a b with
  | Eq => 0
  | Lt => -1
  | Gt => 1
  end.

Section Scene.

Context {glm : GLM}.

(** A value uploaded to a shader uniform. *)
Inductive UniformValue :=
| UInt (n : Z)
| UFloat (f : float)
| UVec2 (v : vec2)
| UVec3 (v : vec3)
| UVec4 (v : vec4)
| UMat4 (m : mat4)
| USampler2D (slot : Z).

(** A call that leaves the scene manager: to the shader manager, to the
    mesh library, to OpenGL, to the image loader, or to the console. *)
Inductive Event :=
| Uniform (name : string) (value : UniformValue)
| Draw (call : MeshCall)
| GL (call : GLCall)
| Stbi (call : StbiCall)
| Cout (m : Message).

(** Outside the repository too: the image loader ([None]: the file did not
    decode), the texture name the driver hands out given the calls so far,
    and what the uninitialised local [OBJECT_MATERIAL material;] of
    [SetShaderMaterial] holds. *)
Class Platform := {
  stbi_load : string -> option Image;
  fresh_texture_name : list Event -> Z;
  indeterminate_material : OBJECT_MATERIAL;
}.

Context {platform : Platform}.

(** The members of the class, and [calls]: the calls issued so far, the
    latest first. *)
Record SceneManager := {
  m_pShaderManager : option ShaderManager;
  m_basicMeshes : ShapeMeshes;
  m_loadedTextures : Z;
  m_textureIDs : list TEXTURE_INFO;
  m_objectMaterials : list OBJECT_MATERIAL;
  calls : list Event;
}.

(** The calls in the order they were issued. *)
Definition history (s : SceneManager) : list Event := reverse (calls s).

(** *** Methods are state transformers that may hit undefined behaviour *)

Definition M (A : Type) : Type := SceneManager -> result (A * SceneManager).

#[global] Instance M_ret : MRet M := fun A a s => Ok (a, s).
#[global] Instance M_bind : MBind M := fun A B f m s =>
  match m s with
  | Ok (a, s') => f a s'
  | Undefined e => Undefined e
  end.

Definition undefined {A} (f : fault) : M A := fun _ => Undefined f.
Definition get {A} (field : SceneManager -> A) : M A := fun s => Ok (field s, s).

Definition emits (evs : list Event) (s : SceneManager) : SceneManager :=
  {| m_pShaderManager := m_pShaderManager s;
     m_basicMeshes := m_basicMeshes s;
     m_loadedTextures := m_loadedTextures s;
     m_textureIDs := m_textureIDs s;
     m_objectMaterials := m_objectMaterials s;
     calls := evs ++ calls s |}.

Definition emit (e : Event) : M unit := fun s => Ok (tt, emits [e] s).

(** [p->method(...)]: dereferencing a null pointer is undefined. *)
Definition deref {A B} (p : option A) (method : M B) : M B :=
  match p with
  | Some _ => method
  | None => undefined NullPointer
  end.

(** [if (NULL != p) { ... }] *)
Definition if_not_null {A} (p : option A) (body : M unit) : M unit :=
  match p with
  | Some _ => body
  | None => mret tt
  end.

(** Modelled from the spec: the shader manager's set-uniform operations,
    keyed by name and typed (ShaderManager.h is not among the sources). Each
    is called through [m_pShaderManager] and sets the named uniform. *)
Definition setIntValue (name : string) (v : Z) : M unit :=
  p ← get m_pShaderManager; deref p (emit (Uniform name (UInt v))).
Definition setBoolValue (name : string) (v : bool) : M unit :=
  p ← get m_pShaderManager; deref p (emit (Uniform name (UInt (if v then 1 else 0)))).
Definition setFloatValue (name : string) (v : float) : M unit :=
  p ← get m_pShaderManager; deref p (emit (Uniform name (UFloat v))).
Definition setVec2Value (name : string) (v : vec2) : M unit :=
  p ← get m_pShaderManager; deref p (emit (Uniform name (UVec2 v))).
Definition setVec3Value (name : string) (v : vec3) : M unit :=
  p ← get m_pShaderManager; deref p (emit (Uniform name (UVec3 v))).
Definition setVec4Value (name : string) (v : vec4) : M unit :=
  p ← get m_pShaderManager; deref p (emit (Uniform name (UVec4 v))).
Definition setMat4Value (name : string) (v : mat4) : M unit :=
  p ← get m_pShaderManager; deref p (emit (Uniform name (UMat4 v))).
Definition setSampler2DValue (name : string) (slot : Z) : M unit :=
  p ← get m_pShaderManager; deref p (emit (Uniform name (USampler2D slot))).

(** *** The constructor

    It sets the two pointers and nothing else: [m_loadedTextures] and the
    [ID]s of [m_textureIDs] start with whatever the memory holds
    ([loaded0], [ids0]); the tags are empty strings. *)
Definition new_SceneManager (pShaderManager : option ShaderManager)
    (loaded0 : Z) (ids0 : nat -> Z) (context : list Event) : SceneManager :=
  {| m_pShaderManager := pShaderManager;
     m_basicMeshes := basic_meshes;
     m_loadedTextures := loaded0;
     m_textureIDs := (fun i => {| tex_tag := ""; tex_ID := ids0 i |}) <$> seq 0 TEXTURE_SLOTS;
     m_objectMaterials := [];
     calls := context |}.

(** *** The texture registry *)

(** [m_textureIDs[index]], read. Outside the array: undefined. *)
Definition textureIDs_at (index : Z) : M TEXTURE_INFO := fun s =>
  if 0 <=? index then
    match m_textureIDs s !! Z.to_nat index with
    | Some e => Ok (e, s)
    | None => Undefined OutOfBounds
    end
  else Undefined OutOfBounds.

(** [m_textureIDs[index].field = ...], written. Outside the array: undefined. *)
Definition textureIDs_assign (index : Z) (f : TEXTURE_INFO -> TEXTURE_INFO) : M unit := fun s =>
  if 0 <=? index then
    match m_textureIDs s !! Z.to_nat index with
    | Some e =>
        Ok (tt, {| m_pShaderManager := m_pShaderManager s;
                   m_basicMeshes := m_basicMeshes s;
                   m_loadedTextures := m_loadedTextures s;
                   m_textureIDs := <[Z.to_nat index := f e]> (m_textureIDs s);
                   m_objectMaterials := m_objectMaterials s;
                   calls := calls s |})
    | None => Undefined OutOfBounds
    end
  else Undefined OutOfBounds.

Definition set_loadedTextures (n : Z) : M unit := fun s =>
  Ok (tt, {| m_pShaderManager := m_pShaderManager s;
             m_basicMeshes := m_basicMeshes s;
             m_loadedTextures := n;
             m_textureIDs := m_textureIDs s;
             m_objectMaterials := m_objectMaterials s;
             calls := calls s |}).

(** [glGenTextures(1, &textureID)] *)
Definition gen_texture : M Z := fun s =>
  let textureID := fresh_texture_name (calls s) in
  Ok (textureID, emits [GL (glGenTextures textureID)] s).

(** [m_loadedTextures++] cannot overflow: the two array writes before it
    are undefined unless the count is within the array. *)
Definition CreateGLTexture (filename : string) (tag : string) : M bool :=
  emit (Stbi (stbi_set_flip_vertically_on_load true));;
  (* stbi_load(filename, &width, &height, &colorChannels, 0) *)
  match stbi_load filename with
  | Some image =>
      let width := img_width image in
      let height := img_height image in
      let colorChannels := img_channels image in
      emit (Cout (LoadedImage filename width height colorChannels));;
      textureID ← gen_texture;
      emit (GL (glBindTexture GL_TEXTURE_2D textureID));;
      emit (GL (glTexParameteri GL_TEXTURE_2D GL_TEXTURE_WRAP_S GL_REPEAT));;
      emit (GL (glTexParameteri GL_TEXTURE_2D GL_TEXTURE_WRAP_T GL_REPEAT));;
      emit (GL (glTexParameteri GL_TEXTURE_2D GL_TEXTURE_MIN_FILTER GL_LINEAR));;
      emit (GL (glTexParameteri GL_TEXTURE_2D GL_TEXTURE_MAG_FILTER GL_LINEAR));;
      (* what follows the if / else if / else when it does not return *)
      let register : M bool :=
        emit (GL (glGenerateMipmap GL_TEXTURE_2D));;
        emit (Stbi stbi_image_free);;
        emit (GL (glBindTexture GL_TEXTURE_2D 0));;
        n ← get m_loadedTextures;
        textureIDs_assign n (fun e => {| tex_tag := tex_tag e; tex_ID := textureID |});;
        n ← get m_loadedTextures;
        textureIDs_assign n (fun e => {| tex_tag := tag; tex_ID := tex_ID e |});;
        n ← get m_loadedTextures;
        set_loadedTextures (n + 1);;
        mret true in
      if colorChannels =? 3 then
        emit (GL (glTexImage2D GL_TEXTURE_2D GL_RGB8 width height GL_RGB GL_UNSIGNED_BYTE));;
        register
      else if colorChannels =? 4 then
        emit (GL (glTexImage2D GL_TEXTURE_2D GL_RGBA8 width height GL_RGBA GL_UNSIGNED_BYTE));;
        register
      else
        emit (Cout (UnsupportedChannels colorChannels));;
        mret false
  | None =>
      emit (Cout (CouldNotLoad filename));;
      mret false
  end.

(** [for (int i = 0; i < m_loadedTextures; i++)]: at most
    [m_loadedTextures] rounds, which is the fuel [BindGLTextures] gives.
    [glActiveTexture i] stands for [glActiveTexture(GL_TEXTURE0 + i)]. *)
Fixpoint BindGLTextures_from (fuel : nat) (i : Z) : M unit :=
  n ← get m_loadedTextures;
  if i <? n then
    match fuel with
    | O => undefined OutOfFuel
    | S fuel' =>
        emit (GL (glActiveTexture i));;
        e ← textureIDs_at i;
        emit (GL (glBindTexture GL_TEXTURE_2D (tex_ID e)));;
        BindGLTextures_from fuel' (i + 1)
    end
  else mret tt.

Definition BindGLTextures : M unit :=
  n ← get m_loadedTextures;
  BindGLTextures_from (Z.to_nat n) 0.

(** [for (int i = 0; i < m_loadedTextures; i++) glGenTextures(1, &m_textureIDs[i].ID)]:
    the element is addressed, a name is generated and stored in it. *)
Fixpoint DestroyGLTextures_from (fuel : nat) (i : Z) : M unit :=
  n ← get m_loadedTextures;
  if i <? n then
    match fuel with
    | O => undefined OutOfFuel
    | S fuel' =>
        e ← textureIDs_at i;
        textureID ← gen_texture;
        textureIDs_assign i (fun e => {| tex_tag := tex_tag e; tex_ID := textureID |});;
        DestroyGLTextures_from fuel' (i + 1)
    end
  else mret tt.

Definition DestroyGLTextures : M unit :=
  n ← get m_loadedTextures;
  DestroyGLTextures_from (Z.to_nat n) 0.

(** The loop of [FindTextureSlot]: each round either finds the tag, and
    the next test ends the loop, or moves [index] up. *)
Fixpoint FindTextureSlot_loop (fuel : nat) (tag : string)
    (textureSlot index : Z) (bFound : bool) : M Z :=
  n ← get m_loadedTextures;
  if (index <? n) && negb bFound then
    match fuel with
    | O => undefined OutOfFuel
    | S fuel' =>
        e ← textureIDs_at index;
        if std_compare (tex_tag e) tag =? 0
        then FindTextureSlot_loop fuel' tag index index true
        else FindTextureSlot_loop fuel' tag textureSlot (index + 1) bFound
    end
  else mret textureSlot.

Definition FindTextureSlot (tag : string) : M Z :=
  n ← get m_loadedTextures;
  FindTextureSlot_loop (S (Z.to_nat n)) tag (-1) 0 false.

(** [int textureID = m_textureIDs[index].ID]: the [uint32_t] is read modulo
    2^32 and, as an [int], is negative from 2^31 on. *)
Definition uint32_to_int (id : Z) : Z :=
  let w := id mod 2 ^ 32 in
  if w <? 2 ^ 31 then w else w - 2 ^ 32.

Fixpoint FindTextureID_loop (fuel : nat) (tag : string)
    (textureID index : Z) (bFound : bool) : M Z :=
  n ← get m_loadedTextures;
  if (index <? n) && negb bFound then
    match fuel with
    | O => undefined OutOfFuel
    | S fuel' =>
        e ← textureIDs_at index;
        if std_compare (tex_tag e) tag =? 0
        then FindTextureID_loop fuel' tag (uint32_to_int (tex_ID e)) index true
        else FindTextureID_loop fuel' tag textureID (index + 1) bFound
    end
  else mret textureID.

Definition FindTextureID (tag : string) : M Z :=
  n ← get m_loadedTextures;
  FindTextureID_loop (S (Z.to_nat n)) tag (-1) 0 false.

(** *** The material registry *)

(** [m_objectMaterials[index]] *)
Definition objectMaterials_at (index : Z) : M OBJECT_MATERIAL := fun s =>
  if 0 <=? index then
    match m_objectMaterials s !! Z.to_nat index with
    | Some m => Ok (m, s)
    | None => Undefined OutOfBounds
    end
  else Undefined OutOfBounds.

(** [m_objectMaterials.push_back(material)] *)
Definition objectMaterials_push_back (material : OBJECT_MATERIAL) : M unit := fun s =>
  Ok (tt, {| m_pShaderManager := m_pShaderManager s;
             m_basicMeshes := m_basicMeshes s;
             m_loadedTextures := m_loadedTextures s;
             m_textureIDs := m_textureIDs s;
             m_objectMaterials := m_objectMaterials s ++ [material];
             calls := calls s |}).

(** The loop of [FindMaterial]; [material] is the caller's object, written
    through the reference. The five fields are copied, the tag is not. *)
Fixpoint FindMaterial_loop (fuel : nat) (tag : string)
    (index : Z) (bFound : bool) (material : OBJECT_MATERIAL) : M OBJECT_MATERIAL :=
  size ← get (fun s => Z.of_nat (length (m_objectMaterials s)));
  if (index <? size) && negb bFound then
    match fuel with
    | O => undefined OutOfFuel
    | S fuel' =>
        m ← objectMaterials_at index;
        if std_compare (mat_tag m) tag =? 0
        then FindMaterial_loop fuel' tag index true
               {| ambientStrength := ambientStrength m;
                  ambientColor := ambientColor m;
                  diffuseColor := diffuseColor m;
                  specularColor := specularColor m;
                  shininess := shininess m;
                  mat_tag := mat_tag material |}
        else FindMaterial_loop fuel' tag (index + 1) bFound material
    end
  else mret material.

(** Returns the flag and the caller's object. The last statement is
    [return(true)], whatever [bFound] holds. *)
Definition FindMaterial (tag : string) (material : OBJECT_MATERIAL) : M (bool * OBJECT_MATERIAL) :=
  size ← get (fun s => length (m_objectMaterials s));
  if decide (size = 0%nat) then mret (false, material)
  else
    material ← FindMaterial_loop (S size) tag 0 false material;
    mret (true, material).

(** *** Transformations and shader attributes *)

Definition SetTransformations (scaleXYZ : vec3)
    (XrotationDegrees YrotationDegrees ZrotationDegrees : float)
    (positionXYZ : vec3) : M unit :=
  let scale := glm_scale scaleXYZ in
  let rotationX := glm_rotate (glm_radians XrotationDegrees) (Vec3 (lit_f 10 1) (lit_f 0 1) (lit_f 0 1)) in
  let rotationY := glm_rotate (glm_radians YrotationDegrees) (Vec3 (lit_f 0 1) (lit_f 10 1) (lit_f 0 1)) in
  let rotationZ := glm_rotate (glm_radians ZrotationDegrees) (Vec3 (lit_f 0 1) (lit_f 0 1) (lit_f 10 1)) in
  let translation := glm_translate positionXYZ in
  let modelView :=
    mat4_mul (mat4_mul (mat4_mul (mat4_mul translation rotationX) rotationY) rotationZ) scale in
  p ← get m_pShaderManager;
  if_not_null p (setMat4Value g_ModelName modelView).

Definition SetShaderColor (redColorValue greenColorValue blueColorValue alphaValue : float) : M unit :=
  let currentColor := Vec4 redColorValue greenColorValue blueColorValue alphaValue in
  p ← get m_pShaderManager;
  if_not_null p (
    setIntValue g_UseTextureName 0;;
    setVec4Value g_ColorValueName currentColor).

Definition SetShaderTexture (textureTag : string) : M unit :=
  p ← get m_pShaderManager;
  if_not_null p (
    setIntValue g_UseTextureName 1;;
    textureID ← FindTextureSlot textureTag;
    setSampler2DValue g_TextureValueName textureID).

Definition SetTextureUVScale (u v : float) : M unit :=
  p ← get m_pShaderManager;
  if_not_null p (setVec2Value "UVscale" (Vec2 u v)).

(** [OBJECT_MATERIAL material;] is not initialised before [FindMaterial]
    is handed a reference to it. *)
Definition SetShaderMaterial (materialTag : string) : M unit :=
  size ← get (fun s => length (m_objectMaterials s));
  if decide (0 < size)%nat then
    let material := indeterminate_material in
    '(bReturn, material) ← FindMaterial materialTag material;
    if (bReturn : bool) then
      setVec3Value "material.ambientColor" (ambientColor material);;
      setFloatValue "material.ambientStrength" (ambientStrength material);;
      setVec3Value "material.diffuseColor" (diffuseColor material);;
      setVec3Value "material.specularColor" (specularColor material);;
      setFloatValue "material.shininess" (shininess material)
    else mret tt
  else mret tt.

Definition SetShaderAttributes (colorRGBA : vec4) (texture : string)
    (UVscale : vec2) (material : string) : M unit :=
  SetShaderColor (vec4_x colorRGBA) (vec4_y colorRGBA) (vec4_z colorRGBA) (vec4_w colorRGBA);;
  (if decide (texture = "none") then mret tt else SetShaderTexture texture);;
  SetTextureUVScale (vec2_x UVscale) (vec2_y UVscale);;
  (if decide (material = "none") then mret tt else SetShaderMaterial material).

(** The default arguments of the declaration in SceneManager.h. *)
Definition default_colorRGBA : vec4 := Vec4 (lit_f 10 1) (lit_f 10 1) (lit_f 10 1) (lit_f 10 1).
Definition default_texture : string := "none".
Definition default_UVscale : vec2 := Vec2 (lit_f 10 1) (lit_f 10 1).
Definition default_material : string := "none".

(** *** ShapeMeshWrappers.h *)

Definition MeshDrawFunction : Type := ShapeMeshes -> M unit.

Definition DrawBoxMeshWrapper : MeshDrawFunction := fun meshObject => emit (Draw DrawBoxMesh).
Definition DrawConeMeshWrapper : MeshDrawFunction := fun meshObject => emit (Draw DrawConeMesh).
Definition DrawCylinderMeshWrapper : MeshDrawFunction :=
  fun meshObject => emit (Draw (DrawCylinderMesh [])).
Definition DrawHollowCylinderMeshWrapper : MeshDrawFunction :=
  fun meshObject => emit (Draw (DrawCylinderMesh [false; false])).
Definition DrawNoSideCylinderMeshWrapper : MeshDrawFunction :=
  fun meshObject => emit (Draw (DrawCylinderMesh [true; true; false])).
Definition DrawPlaneMeshWrapper : MeshDrawFunction := fun meshObject => emit (Draw DrawPlaneMesh).
Definition DrawPrismMeshWrapper : MeshDrawFunction := fun meshObject => emit (Draw DrawPrismMesh).
Definition DrawPyramid3MeshWrapper : MeshDrawFunction := fun meshObject => emit (Draw DrawPyramid3Mesh).
Definition DrawPyramid4MeshWrapper : MeshDrawFunction := fun meshObject => emit (Draw DrawPyramid4Mesh).
Definition DrawSphereMeshWrapper : MeshDrawFunction := fun meshObject => emit (Draw DrawSphereMesh).
Definition DrawHalfSphereMeshWrapper : MeshDrawFunction := fun meshObject => emit (Draw DrawHalfSphereMesh).
Definition DrawTaperedCylinderMeshWrapper : MeshDrawFunction :=
  fun meshObject => emit (Draw DrawTaperedCylinderMesh).
Definition DrawTorusMeshWrapper : MeshDrawFunction := fun meshObject => emit (Draw DrawTorusMesh).
Definition DrawHalfTorusMeshWrapper : MeshDrawFunction := fun meshObject => emit (Draw DrawHalfTorusMesh).
Definition DrawNone : MeshDrawFunction := fun meshObject => mret tt.

Definition DrawMeshTransformation (scaleXYZ rotationDegreesXYZ positionXYZ : vec3)
    (meshObject : ShapeMeshes) (drawMeshFunction : MeshDrawFunction) : M unit :=
  SetTransformations scaleXYZ
    (vec3_x rotationDegreesXYZ) (vec3_y rotationDegreesXYZ) (vec3_z rotationDegreesXYZ)
    positionXYZ;;
  drawMeshFunction meshObject.

(** *** Scene set-up *)

Definition LoadSceneTextures : M unit :=
  bReturn ← CreateGLTexture "../../Utilities/textures/tile.jpg" "backdrop";
  bReturn ← CreateGLTexture "../../Utilities/textures/counter.jpg" "counter";
  bReturn ← CreateGLTexture "../../Utilities/textures/knife_handle.jpg" "wood";
  bReturn ← CreateGLTexture "../../Utilities/textures/metal.jpg" "metal";
  bReturn ← CreateGLTexture "../../Utilities/textures/marble.jpg" "marble";
  bReturn ← CreateGLTexture "../../Utilities/textures/drywall.jpg" "plastic";
  bReturn ← CreateGLTexture "../../Utilities/textures/cucumber_outer.jpeg" "cucumber_outer";
  bReturn ← CreateGLTexture "../../Utilities/textures/cucumber_inner.jpg" "cucumber_inner";
  bReturn ← CreateGLTexture "../../Utilities/textures/glass10.png" "glass10";
  bReturn ← CreateGLTexture "../../Utilities/textures/glass13.png" "glass13";
  BindGLTextures.

Definition DefineObjectMaterials : M unit :=
  let glassMaterial :=
    {| ambientColor := Vec3 (lit_f 4 1) (lit_f 4 1) (lit_f 4 1);
       ambientStrength := lit_f 15 2;
       diffuseColor := Vec3 (lit_f 32 2) (lit_f 32 2) (lit_f 3 1);
       specularColor := Vec3 (lit_f 6 1) (lit_f 6 1) (lit_f 6 1);
       shininess := lit_f 750 1;
       mat_tag := "glass" |} in
  objectMaterials_push_back glassMaterial;;
  let woodMaterial :=
    {| ambientColor := Vec3 (lit_f 25 2) (lit_f 22 2) (lit_f 2 1);
       ambientStrength := lit_f 2 1;
       diffuseColor := Vec3 (lit_f 25 2) (lit_f 2 1) (lit_f 15 2);
       specularColor := Vec3 (lit_f 2 1) (lit_f 2 1) (lit_f 2 1);
       shininess := lit_f 50 1;
       mat_tag := "wood" |} in
  objectMaterials_push_back woodMaterial;;
  let plasticMaterial :=
    {| ambientColor := Vec3 (lit_f 2 1) (lit_f 2 1) (lit_f 23 2);
       ambientStrength := lit_f 15 2;
       diffuseColor := Vec3 (lit_f 25 2) (lit_f 255 3) (lit_f 28 2);
       specularColor := Vec3 (lit_f 32 2) (lit_f 32 2) (lit_f 3 1);
       shininess := lit_f 70 1;
       mat_tag := "plastic" |} in
  objectMaterials_push_back plasticMaterial;;
  let stoneMaterial :=
    {| ambientColor := Vec3 (lit_f 39 2) (lit_f 37 2) (lit_f 35 2);
       ambientStrength := lit_f 25 2;
       diffuseColor := Vec3 (lit_f 4 1) (lit_f 37 2) (lit_f 35 2);
       specularColor := Vec3 (lit_f 27 2) (lit_f 3 1) (lit_f 33 2);
       shininess := lit_f 20 1;
       mat_tag := "stone" |} in
  objectMaterials_push_back stoneMaterial;;
  let metalMaterial :=
    {| ambientColor := Vec3 (lit_f 23 2) (lit_f 23 2) (lit_f 21 2);
       ambientStrength := lit_f 4 1;
       diffuseColor := Vec3 (lit_f 3 1) (lit_f 3 1) (lit_f 25 2);
       specularColor := Vec3 (lit_f 45 2) (lit_f 45 2) (lit_f 45 2);
       shininess := lit_f 250 1;
       mat_tag := "metal" |} in
  objectMaterials_push_back metalMaterial;;
  let organicMaterial :=
    {| ambientColor := Vec3 (lit_f 25 2) (lit_f 28 2) (lit_f 25 2);
       ambientStrength := lit_f 15 2;
       diffuseColor := Vec3 (lit_f 3 1) (lit_f 34 2) (lit_f 3 1);
       specularColor := Vec3 (lit_f 35 2) (lit_f 35 2) (lit_f 3 1);
       shininess := lit_f 120 1;
       mat_tag := "organic" |} in
  objectMaterials_push_back organicMaterial.

(** *** The jar *)

Definition DrawJar (x_pos y_pos z_pos : float) : M unit :=
  let jarX_pos := x_pos in
  let jarY_pos := y_pos in
  let jarZ_pos := z_pos in
  let baseShaderColorRGBA := Vec4 (lit_df 7 1) (lit_df 7 1) (lit_df 9 1) (lit_df 8 1) in
  let baseTexture : string := "glass13" in
  let lidTexture : string := "glass10" in
  let baseUVscale := Vec2 (lit_f 10 1) (lit_f 35 2) in
  let baseMaterial : string := "glass" in
  meshes ← get m_basicMeshes;
  SetShaderAttributes baseShaderColorRGBA baseTexture baseUVscale baseMaterial;;
  (* rounded base bottom sphere *)
  DrawMeshTransformation
    (Vec3 (lit_f 20 1) (lit_f 3 1) (lit_f 20 1))
    (Vec3 (lit_f 0 1) (lit_f 0 1) (lit_f 0 1))
    (Vec3 (add32 jarX_pos (lit_f 0 1)) (add32 jarY_pos (lit_f 15 2)) (add32 jarZ_pos (lit_f 0 1)))
    meshes DrawSphereMeshWrapper;;
  (* cylinder base *)
  DrawMeshTransformation
    (Vec3 (lit_f 20 1) (lit_f 405 2) (lit_f 20 1))
    (Vec3 (lit_f 0 1) (lit_f 0 1) (lit_f 0 1))
    (Vec3 (add32 jarX_pos (lit_f 0 1)) (add32 jarY_pos (lit_f 15 2)) (add32 jarZ_pos (lit_f 0 1)))
    meshes DrawCylinderMeshWrapper;;
  (* rounded base top sphere *)
  SetTextureUVScale (lit_df 10 1) (lit_df 25 2);;
  DrawMeshTransformation
    (Vec3 (lit_f 202 2) (lit_f 7 1) (lit_f 202 2))
    (Vec3 (lit_f 0 1) (lit_f (-100) 1) (lit_f 0 1))
    (Vec3 (add32 jarX_pos (lit_f 0 1)) (add32 jarY_pos (lit_f 42 1)) (add32 jarZ_pos (lit_f 0 1)))
    meshes DrawSphereMeshWrapper;;
  (* rounded neck cylinder *)
  SetTextureUVScale (lit_f 8 1) (lit_f 1 1);;
  DrawMeshTransformation
    (Vec3 (lit_f 16 1) (lit_f 80 2) (lit_f 16 1))
    (Vec3 (lit_f 0 1) (lit_f 80 1) (lit_f 0 1))
    (Vec3 (add32 jarX_pos (lit_f 0 1)) (add32 jarY_pos (lit_f 44 1)) (add32 jarZ_pos (lit_f 0 1)))
    meshes DrawCylinderMeshWrapper;;
  (* neck torus large *)
  SetTextureUVScale (lit_f 15 1) (lit_f 3 1);;
  DrawMeshTransformation
    (Vec3 (lit_f 148 2) (lit_f 148 2) (lit_f 65 2))
    (Vec3 (lit_f 900 1) (lit_f 0 1) (lit_f 0 1))
    (Vec3 (add32 jarX_pos (lit_f 0 1)) (add32 jarY_pos (lit_f 510 2)) (add32 jarZ_pos (lit_f 0 1)))
    meshes DrawTorusMeshWrapper;;
  SetShaderTexture lidTexture;;
  SetTextureUVScale (lit_f 20 1) (lit_f 10 1);;
  (* lid torus large *)
  DrawMeshTransformation
    (Vec3 (lit_f 15 1) (lit_f 15 1) (lit_f 5 1))
    (Vec3 (lit_f 900 1) (lit_f 0 1) (lit_f 0 1))
    (Vec3 (add32 jarX_pos (lit_f 0 1)) (add32 jarY_pos (lit_f 525 2)) (add32 jarZ_pos (lit_f 0 1)))
    meshes DrawTorusMeshWrapper;;
  (* lid sphere large *)
  DrawMeshTransformation
    (Vec3 (lit_f 16 1) (lit_f 16 2) (lit_f 16 1))
    (Vec3 (lit_f 0 1) (lit_f 0 1) (lit_f 0 1))
    (Vec3 (add32 jarX_pos (lit_f 0 1)) (add32 jarY_pos (lit_f 525 2)) (add32 jarZ_pos (lit_f 0 1)))
    meshes DrawSphereMeshWrapper;;
  (* lid cylinder *)
  SetTextureUVScale (lit_f 20 1) (lit_f 10 1);;
  DrawMeshTransformation
    (Vec3 (lit_f 9 1) (lit_f 5 1) (lit_f 9 1))
    (Vec3 (lit_f 0 1) (lit_f 0 1) (lit_f 0 1))
    (Vec3 (add32 jarX_pos (lit_f 0 1)) (add32 jarY_pos (lit_f 52 1)) (add32 jarZ_pos (lit_f 0 1)))
    meshes DrawCylinderMeshWrapper;;
  SetTextureUVScale (lit_f 15 1) (lit_f 10 1);;
  (* lid torus small *)
  DrawMeshTransformation
    (Vec3 (lit_f 11 1) (lit_f 11 1) (lit_f 5 1))
    (Vec3 (lit_f 900 1) (lit_f 0 1) (lit_f 0 1))
    (Vec3 (add32 jarX_pos (lit_f 0 1)) (add32 jarY_pos (lit_f 57 1)) (add32 jarZ_pos (lit_f 0 1)))
    meshes DrawTorusMeshWrapper;;
  (* lid sphere top *)
  DrawMeshTransformation
    (Vec3 (lit_f 11 1) (lit_f 2 1) (lit_f 11 1))
    (Vec3 (lit_f 0 1) (lit_f 0 1) (lit_f 0 1))
    (Vec3 (add32 jarX_pos (lit_f 0 1)) (add32 jarY_pos (lit_f 565 2)) (add32 jarZ_pos (lit_f 0 1)))
    meshes DrawSphereMeshWrapper.

(** *** The lights *)

(** No test of [m_pShaderManager] precedes these calls. The overload of
    [setVec3Value] taking three [float]s is recorded as the vector of them. *)
Definition SetupSceneLights : M unit :=
  setBoolValue "bUseLighting" true;;
  setVec3Value "lightSources[0].position" (Vec3 (lit_f (-67) 1) (lit_f 55 1) (lit_f 10 1));;
  setVec3Value "lightSources[0].ambientColor" (Vec3 (lit_f 3 2) (lit_f 1 2) (lit_f 1 2));;
  setVec3Value "lightSources[0].diffuseColor" (Vec3 (lit_f 32 2) (lit_f 32 2) (lit_f 3 1));;
  setVec3Value "lightSources[0].specularColor" (Vec3 (lit_f 4 1) (lit_f 4 1) (lit_f 39 2));;
  setFloatValue "lightSources[0].focalStrength" (lit_f 450 1);;
  setFloatValue "lightSources[0].specularIntensity" (lit_f 5 2);;
  setVec3Value "lightSources[1].position" (Vec3 (lit_f 80 1) (lit_f 65 1) (lit_f 5 1));;
  setVec3Value "lightSources[1].ambientColor" (Vec3 (lit_f 3 2) (lit_f 2 2) (lit_f 1 2));;
  setVec3Value "lightSources[1].diffuseColor" (Vec3 (lit_f 3 1) (lit_f 3 1) (lit_f 3 1));;
  setVec3Value "lightSources[1].specularColor" (Vec3 (lit_f 4 1) (lit_f 4 1) (lit_f 4 1));;
  setFloatValue "lightSources[1].focalStrength" (lit_f 700 1);;
  setFloatValue "lightSources[1].specularIntensity" (lit_f 20 2);;
  setVec3Value "lightSources[2].position" (Vec3 (lit_f 0 1) (lit_f 150 1) (lit_f 0 1));;
  setVec3Value "lightSources[2].ambientColor" (Vec3 (lit_f 3 1) (lit_f 25 2) (lit_f 25 2));;
  setVec3Value "lightSources[2].diffuseColor" (Vec3 (lit_f 0 1) (lit_f 0 1) (lit_f 0 1));;
  setVec3Value "lightSources[2].specularColor" (Vec3 (lit_f 0 1) (lit_f 0 1) (lit_f 0 1));;
  setFloatValue "lightSources[2].focalStrength" (lit_f 1 2);;
  setFloatValue "lightSources[2].specularIntensity" (lit_f 1 2).

(** *** The cup, the cucumber and the knife *)

Definition DrawCup (x_pos y_pos z_pos : float) : M unit :=
  let cupX_pos := x_pos in
  let cupY_pos := y_pos in
  let cupZ_pos := z_pos in
  let baseShaderColorRGBA := Vec4 (lit_df 6 1) (lit_df 1 1) (lit_df 1 1) (lit_df 10 1) in
  let baseTexture : string := "none" in
  let metalTexture : string := "metal" in
  let baseUVscale := Vec2 (lit_f 30 1) (lit_f 8 1) in
  let baseMaterial : string := "plastic" in
  let metalMaterial : string := "metal" in
  meshes ← get m_basicMeshes;
  SetShaderAttributes baseShaderColorRGBA baseTexture baseUVscale baseMaterial;;
  (* base tapered cylinder *)
  DrawMeshTransformation
    (Vec3 (lit_f 15 1) (lit_f 649 2) (lit_f 15 1))
    (Vec3 (lit_f 0 1) (lit_f 0 1) (lit_f 1800 1))
    (Vec3 (add32 cupX_pos (lit_f 0 1)) (add32 cupY_pos (lit_f 45 1)) (add32 cupZ_pos (lit_f 0 1)))
    meshes DrawTaperedCylinderMeshWrapper;;
  (* top metallic lip *)
  SetShaderAttributes baseShaderColorRGBA metalTexture baseUVscale metalMaterial;;
  DrawMeshTransformation
    (Vec3 (lit_f 15 1) (lit_f 10 1) (lit_f 15 1))
    (Vec3 (lit_f 0 1) (lit_f 0 1) (lit_f 0 1))
    (Vec3 (add32 cupX_pos (lit_f 0 1)) (add32 cupY_pos (lit_f 45 1)) (add32 cupZ_pos (lit_f 0 1)))
    meshes DrawHollowCylinderMeshWrapper;;
  (* metallic straw *)
  SetTextureUVScale (lit_f 10 1) (lit_f 50 1);;
  DrawMeshTransformation
    (Vec3 (lit_f 2 1) (lit_f 75 1) (lit_f 2 1))
    (Vec3 (lit_f 146 1) (lit_f 0 1) (lit_f 105 1))
    (Vec3 (add32 cupX_pos (lit_f 35 2)) (add32 cupY_pos (lit_f 0 1)) (add32 cupZ_pos (lit_f (-35) 2)))
    meshes DrawHollowCylinderMeshWrapper.

(** Between a hollow cylinder and the next sub-part the mesh library is
    called directly, [m_basicMeshes->DrawCylinderMesh(...)], with no
    transformation set in between. *)
Definition DrawCucumber (x_pos y_pos z_pos : float) : M unit :=
  let xPos := x_pos in
  let yPos := y_pos in
  let zPos := z_pos in
  let baseShaderColorRGBA := Vec4 (lit_df 2 1) (lit_df 5 1) (lit_df 2 1) (lit_df 10 1) in
  let outerTexture : string := "cucumber_outer" in
  let innerTexture : string := "cucumber_inner" in
  let baseUVscale := Vec2 (lit_f 10 1) (lit_f 10 1) in
  let baseMaterial : string := "organic" in
  meshes ← get m_basicMeshes;
  SetShaderAttributes baseShaderColorRGBA outerTexture baseUVscale baseMaterial;;
  (* long cucumber slice *)
  DrawMeshTransformation
    (Vec3 (lit_f 7 1) (lit_f 28 1) (lit_f 7 1))
    (Vec3 (lit_f 0 1) (lit_f (-250) 1) (lit_f 900 1))
    (Vec3 (add32 xPos (lit_f 0 1)) (add32 yPos (lit_f 7 1)) (add32 zPos (lit_f 0 1)))
    meshes DrawHollowCylinderMeshWrapper;;
  SetShaderTexture innerTexture;;
  emit (Draw (DrawCylinderMesh [false; true; false]));;
  SetShaderTexture outerTexture;;
  (* sphere end *)
  DrawMeshTransformation
    (Vec3 (lit_f 10 1) (lit_f 7 1) (lit_f 7 1))
    (Vec3 (lit_f 0 1) (lit_f (-250) 1) (lit_f 0 1))
    (Vec3 (add32 xPos (lit_f (-2538) 3)) (add32 yPos (lit_f 7 1)) (add32 zPos (lit_f (-1183) 3)))
    meshes DrawSphereMeshWrapper;;
  (* five small cucumber slices *)
  DrawMeshTransformation
    (Vec3 (lit_f 7 1) (lit_f 15 2) (lit_f 7 1))
    (Vec3 (lit_f 0 1) (lit_f 0 1) (lit_f 0 1))
    (Vec3 (add32 xPos (lit_f 9 1)) (add32 yPos (lit_f 0 1)) (add32 zPos (lit_f 2 1)))
    meshes DrawHollowCylinderMeshWrapper;;
  SetShaderTexture innerTexture;;
  emit (Draw (DrawCylinderMesh [true; true; false]));;
  SetShaderTexture outerTexture;;
  DrawMeshTransformation
    (Vec3 (lit_f 7 1) (lit_f 15 2) (lit_f 7 1))
    (Vec3 (lit_f (-35) 1) (lit_f 0 1) (lit_f 0 1))
    (Vec3 (add32 xPos (lit_f 135 2)) (add32 yPos (lit_f 2 2)) (add32 zPos (lit_f 20 1)))
    meshes DrawHollowCylinderMeshWrapper;;
  SetShaderTexture innerTexture;;
  emit (Draw (DrawCylinderMesh [true; true; false]));;
  SetShaderTexture outerTexture;;
  DrawMeshTransformation
    (Vec3 (lit_f 75 2) (lit_f 17 2) (lit_f 7 1))
    (Vec3 (lit_f 0 1) (lit_f (-50) 1) (lit_f 0 1))
    (Vec3 (add32 xPos (lit_f 13 1)) (add32 yPos (lit_f 15 2)) (add32 zPos (lit_f 9 1)))
    meshes DrawHollowCylinderMeshWrapper;;
  SetShaderTexture innerTexture;;
  emit (Draw (DrawCylinderMesh [true; true; false]));;
  SetShaderTexture outerTexture;;
  DrawMeshTransformation
    (Vec3 (lit_f 7 1) (lit_f 13 2) (lit_f 65 2))
    (Vec3 (lit_f 0 1) (lit_f (-10) 1) (lit_f (-15) 1))
    (Vec3 (add32 xPos (lit_f 12 1)) (add32 yPos (lit_f 3 1)) (add32 zPos (lit_f 7 1)))
    meshes DrawHollowCylinderMeshWrapper;;
  SetShaderTexture innerTexture;;
  emit (Draw (DrawCylinderMesh [true; true; false]));;
  SetShaderTexture outerTexture;;
  DrawMeshTransformation
    (Vec3 (lit_f 7 1) (lit_f 2 1) (lit_f 65 2))
    (Vec3 (lit_f 0 1) (lit_f (-10) 1) (lit_f (-30) 1))
    (Vec3 (add32 xPos (lit_f 7 1)) (add32 yPos (lit_f 45 2)) (add32 zPos (lit_f 4 1)))
    meshes DrawHollowCylinderMeshWrapper;;
  SetShaderTexture innerTexture;;
  emit (Draw (DrawCylinderMesh [true; true; false])).

Definition DrawKnife (x_pos y_pos z_pos : float) : M unit :=
  let xPos := x_pos in
  let yPos := y_pos in
  let zPos := z_pos in
  let baseShaderColorRGBA := Vec4 (lit_df 3 1) (lit_df 3 1) (lit_df 2 1) (lit_df 10 1) in
  let handleTexture : string := "wood" in
  let bladeTexture : string := "metal" in
  let baseUVscale := Vec2 (lit_f 10 1) (lit_f 10 1) in
  let handleMaterial : string := "wood" in
  let bladeMaterial : string := "metal" in
  meshes ← get m_basicMeshes;
  SetShaderAttributes baseShaderColorRGBA bladeTexture baseUVscale bladeMaterial;;
  (* handle base, wood tapered cylinder *)
  SetShaderAttributes baseShaderColorRGBA handleTexture baseUVscale handleMaterial;;
  DrawMeshTransformation
    (Vec3 (lit_f 45 2) (lit_f 29 1) (lit_f 35 2))
    (Vec3 (lit_f 900 1) (lit_f 1780 1) (lit_f 800 1))
    (Vec3 (add32 xPos (lit_f (-30) 1)) (add32 yPos (lit_f 35 2)) (add32 zPos (lit_f 0 1)))
    meshes DrawTaperedCylinderMeshWrapper;;
  (* handle end, metal cylinder *)
  SetShaderAttributes baseShaderColorRGBA bladeTexture baseUVscale bladeMaterial;;
  DrawMeshTransformation
    (Vec3 (lit_f 451 3) (lit_f 1 1) (lit_f 351 3))
    (Vec3 (lit_f 900 1) (lit_f 1780 1) (lit_f 800 1))
    (Vec3 (add32 xPos (lit_f (-301) 2)) (add32 yPos (lit_f 35 2)) (add32 zPos (lit_f 0 1)))
    meshes DrawCylinderMeshWrapper;;
  (* blade beginning, metal cylinder *)
  DrawMeshTransformation
    (Vec3 (lit_f 27 2) (lit_f 35 2) (lit_f 2 1))
    (Vec3 (lit_f 900 1) (lit_f 1780 1) (lit_f 800 1))
    (Vec3 (add32 xPos (lit_f (-4) 1)) (add32 yPos (lit_f 27 2)) (add32 zPos (lit_f 45 2)))
    meshes DrawCylinderMeshWrapper;;
  (* blade base, metal rectangle *)
  DrawMeshTransformation
    (Vec3 (lit_f 65 2) (lit_f 45 1) (lit_f 2 2))
    (Vec3 (lit_f 880 1) (lit_f 1780 1) (lit_f 800 1))
    (Vec3 (add32 xPos (lit_f (-5) 2)) (add32 yPos (lit_f 27 2)) (add32 zPos (lit_f 1 1)))
    meshes DrawCylinderMeshWrapper;;
  (* blade tip, metal pyramid *)
  SetTextureUVScale (lit_f 3 1) (lit_f 3 1);;
  DrawMeshTransformation
    (Vec3 (lit_f 143 2) (lit_f 125 2) (lit_f 2 2))
    (Vec3 (lit_f 880 1) (lit_f 1780 1) (lit_f 1050 1))
    (Vec3 (add32 xPos (lit_f 465 2)) (add32 yPos (lit_f 125 3)) (add32 zPos (lit_f 675 3)))
    meshes DrawPyramid4MeshWrapper.

(** *** The frame *)

(** In [glm::vec4(.3, .3, .3, 1)] the last component is the [int] 1. *)
Definition RenderScene : M unit :=
  meshes ← get m_basicMeshes;
  (* background plane *)
  SetShaderAttributes
    (Vec4 (lit_df 3 1) (lit_df 3 1) (lit_df 3 1) (of_int prec32 emax32 1))
    "backdrop" (Vec2 (lit_df 30 1) (lit_f 7 1)) "stone";;
  DrawMeshTransformation
    (Vec3 (lit_f 225 1) (lit_f 10 1) (lit_f 35 1))
    (Vec3 (lit_f 900 1) (lit_f 0 1) (lit_f 0 1))
    (Vec3 (lit_f 0 1) (lit_f 35 1) (lit_f (-100) 1))
    meshes DrawPlaneMeshWrapper;;
  (* background ledge *)
  SetShaderAttributes
    (Vec4 (lit_df 3 1) (lit_df 3 1) (lit_df 3 1) (of_int prec32 emax32 1))
    "wood" (Vec2 (lit_df 60 1) (lit_f 4 1)) "wood";;
  DrawMeshTransformation
    (Vec3 (lit_f 450 1) (lit_f 10 1) (lit_f 35 1))
    (Vec3 (lit_f 0 1) (lit_f 0 1) (lit_f 0 1))
    (Vec3 (lit_f 0 1) (lit_f 70 1) (lit_f (-95) 1))
    meshes DrawBoxMeshWrapper;;
  (* countertop *)
  SetShaderAttributes
    (Vec4 (lit_df 3 1) (lit_df 3 1) (lit_df 3 1) (of_int prec32 emax32 1))
    "counter" (Vec2 (lit_df 40 1) (lit_f 20 1)) "stone";;
  DrawMeshTransformation
    (Vec3 (lit_f 450 1) (lit_f 20 1) (lit_f 130 1))
    (Vec3 (lit_f 0 1) (lit_f 0 1) (lit_f 0 1))
    (Vec3 (lit_f 0 1) (lit_f (-10) 1) (lit_f (-35) 1))
    meshes DrawBoxMeshWrapper;;
  (* glass jar *)
  DrawJar (lit_f 60 1) (lit_f 0 1) (lit_f (-62) 1);;
  (* cup with straw *)
  DrawCup (lit_f (-30) 1) (lit_f 0 1) (lit_f (-42) 1);;
  (* marble coaster under cup *)
  SetShaderAttributes
    (Vec4 (lit_df 8 1) (lit_df 8 1) (lit_df 8 1) (of_int prec32 emax32 1))
    "marble" (Vec2 (lit_f 20 1) (lit_f 5 1)) "stone";;
  DrawMeshTransformation
    (Vec3 (lit_f 16 1) (lit_f 3 1) (lit_f 16 1))
    (Vec3 (lit_f 0 1) (lit_f 0 1) (lit_f 0 1))
    (Vec3 (lit_f (-30) 1) (lit_f 0 1) (lit_f (-40) 1))
    meshes DrawCylinderMeshWrapper;;
  (* cutting board *)
  SetShaderAttributes
    (Vec4 (lit_df 8 1) (lit_df 8 1) (lit_df 8 1) (of_int prec32 emax32 1))
    "plastic" (Vec2 (lit_f 40 1) (lit_f 20 1)) "plastic";;
  DrawMeshTransformation
    (Vec3 (lit_f 80 1) (lit_f 3 1) (lit_f 55 1))
    (Vec3 (lit_f 0 1) (lit_f (-200) 1) (lit_f 0 1))
    (Vec3 (lit_f 30 1) (lit_f 15 2) (lit_f (-15) 1))
    meshes DrawBoxMeshWrapper;;
  (* cucumber *)
  DrawCucumber (lit_f 38 1) (lit_f 3 1) (lit_f (-30) 1);;
  (* knife *)
  DrawKnife (lit_f 6 1) (lit_f 25 2) (lit_f (-7) 1).

(** *** Preparing the scene *)

(** The meshes [PrepareScene] asks the mesh library to load. *)
Inductive MeshLoad :=
| LoadPlaneMesh | LoadCylinderMesh | LoadSphereMesh | LoadTorusMesh
| LoadTaperedCylinderMesh | LoadBoxMesh | LoadPyramid3Mesh | LoadPyramid4Mesh
| LoadConeMesh | LoadPrismMesh.

Section Meshes.

(** [m_basicMeshes->Load...Mesh()], from ShapeMeshes.h. *)
Variable load : MeshLoad -> ShapeMeshes -> M unit.

Definition PrepareScene : M unit :=
  LoadSceneTextures;;
  DefineObjectMaterials;;
  SetupSceneLights;;
  meshes ← get m_basicMeshes;
  load LoadPlaneMesh meshes;;
  load LoadCylinderMesh meshes;;
  load LoadSphereMesh meshes;;
  load LoadTorusMesh meshes;;
  load LoadTaperedCylinderMesh meshes;;
  load LoadBoxMesh meshes;;
  load LoadPyramid3Mesh meshes;;
  load LoadPyramid4Mesh meshes;;
  load LoadConeMesh meshes;;
  load LoadPlaneMesh meshes;;
  load LoadPrismMesh meshes.

End Meshes.

(** *** What the graphics context holds after a list of calls *)

(** The value a uniform has after the calls [cs] (latest first). *)
Fixpoint uniform (name : string) (cs : list Event) : option UniformValue :=
  match cs with
  | [] => None
  | Uniform n v :: cs' => if decide (n = name) then Some v else uniform name cs'
  | _ :: cs' => uniform name cs'
  end.

Definition material_names : list string :=
  [ "material.ambientColor"; "material.ambientStrength"; "material.diffuseColor";
    "material.specularColor"; "material.shininess" ].

(** A mesh draw together with the uniforms in force when it is issued. *)
Record Drawn := {
  drawn_shape : MeshCall;
  drawn_model : option UniformValue;
  drawn_color : option UniformValue;
  drawn_useTexture : option UniformValue;
  drawn_texture : option UniformValue;
  drawn_UVscale : option UniformValue;
  drawn_material : list (option UniformValue);
}.

Definition snapshot (c : MeshCall) (context : list Event) : Drawn :=
  {| drawn_shape := c;
     drawn_model := uniform g_ModelName context;
     drawn_color := uniform g_ColorValueName context;
     drawn_useTexture := uniform g_UseTextureName context;
     drawn_texture := uniform g_TextureValueName context;
     drawn_UVscale := uniform "UVscale" context;
     drawn_material := (fun n => uniform n context) <$> material_names |}.

(** The draws among the calls [evs] (in the order issued), which follow
    the calls [context] (latest first). *)
Fixpoint draws_from (context : list Event) (evs : list Event) : list Drawn :=
  match evs with
  | [] => []
  | Draw c :: evs' => snapshot c context :: draws_from (Draw c :: context) evs'
  | e :: evs' => draws_from (e :: context) evs'
  end.

(** The state a method leaves, and the calls it issues, in order. *)
Definition state_after {A} (m : M A) (s : SceneManager) : SceneManager :=
  match m s with
  | Ok (_, s') => s'
  | Undefined _ => s
  end.

Definition issued {A} (m : M A) (s : SceneManager) : list Event :=
  let s' := state_after m s in
  reverse (take (length (calls s') - length (calls s)) (calls s')).

End Scene.

(** ** The camera keys (viewmanager.cpp) *)

Module View.

Inductive Key :=
| GLFW_KEY_ESCAPE | GLFW_KEY_W | GLFW_KEY_S | GLFW_KEY_A | GLFW_KEY_D
| GLFW_KEY_Q | GLFW_KEY_E | GLFW_KEY_UP | GLFW_KEY_DOWN | GLFW_KEY_O | GLFW_KEY_P.

#[global] Instance Key_eq_dec : EqDecision Key.
Proof. solve_decision. Defined.

Inductive Camera_Movement := FORWARD | BACKWARD | LEFT | RIGHT | UP | DOWN.

(** Modelled from the spec: the camera state (position, front vector, up
    vector, zoom); camera.h is not among the sources. These are the members
    viewmanager.cpp touches; [Zoom] is a [float]. *)
Record Camera := {
  Position : vec3;
  Front : vec3;
  Up : vec3;
  Zoom : float;
}.

(** The globals of the anonymous namespace and the window's close flag. *)
Record ViewState := {
  g_pCamera : option Camera;
  gDeltaTime : float;
  bOrthographicProjection : bool;
  windowShouldClose : bool;
}.

Definition int_to_float (n : Z) : float := of_int prec32 emax32 n.

(** [Zoom -= 0.01]: the subtraction is done in [double], the result is
    stored back into the [float]. *)
Definition minus_equals (zoom : float) (d : double) : float :=
  to_float (sub64 (to_double zoom) d).
Definition plus_equals (zoom : float) (d : double) : float :=
  to_float (add64 (to_double zoom) d).

Definition set_Zoom (c : Camera) (zoom : float) : Camera :=
  {| Position := Position c; Front := Front c; Up := Up c; Zoom := zoom |}.

Section Keys.

(** [Camera::ProcessKeyboard], from camera.h. *)
Variable ProcessKeyboard : Camera_Movement -> float -> Camera -> Camera.

(** The constructor: default view parameters, [Zoom = 60]. *)
Definition new_ViewManager : ViewState :=
  {| g_pCamera :=
       Some {| Position := Vec3 (lit_f 20 1) (lit_f 55 1) (lit_f 90 1);
               Front := Vec3 (lit_f 0 1) (lit_f (-9) 1) (lit_f (-40) 1);
               Up := Vec3 (lit_f 0 1) (lit_f 10 1) (lit_f 0 1);
               Zoom := int_to_float 60 |};
     gDeltaTime := lit_f 0 1;
     bOrthographicProjection := false;
     windowShouldClose := false |}.

(** One statement [if (glfwGetKey(...) == GLFW_PRESS) { camera = f(camera) }]. *)
Definition on_key (pressed : bool) (f : Camera -> Camera) (c : Camera) : Camera :=
  if pressed then f c else c.

Definition ProcessKeyboardEvents (glfwGetKey : Key -> bool) (v : ViewState) : ViewState :=
  let close := if glfwGetKey GLFW_KEY_ESCAPE then true else windowShouldClose v in
  match g_pCamera v with
  | None =>
      {| g_pCamera := None; gDeltaTime := gDeltaTime v;
         bOrthographicProjection := bOrthographicProjection v;
         windowShouldClose := close |}
  | Some c =>
      let c := on_key (glfwGetKey GLFW_KEY_W) (ProcessKeyboard FORWARD (gDeltaTime v)) c in
      let c := on_key (glfwGetKey GLFW_KEY_S) (ProcessKeyboard BACKWARD (gDeltaTime v)) c in
      let c := on_key (glfwGetKey GLFW_KEY_A) (ProcessKeyboard LEFT (gDeltaTime v)) c in
      let c := on_key (glfwGetKey GLFW_KEY_D) (ProcessKeyboard RIGHT (gDeltaTime v)) c in
      let c := on_key (glfwGetKey GLFW_KEY_Q) (ProcessKeyboard UP (gDeltaTime v)) c in
      let c := on_key (glfwGetKey GLFW_KEY_E) (ProcessKeyboard DOWN (gDeltaTime v)) c in
      (* zoom in *)
      let c := on_key (glfwGetKey GLFW_KEY_UP)
                 (fun c => if geb32 (Zoom c) (int_to_float 10)
                           then set_Zoom c (minus_equals (Zoom c) (lit_d 1 2))
                           else c) c in
      (* zoom out *)
      let c := on_key (glfwGetKey GLFW_KEY_DOWN)
                 (fun c => if leb32 (Zoom c) (int_to_float 160)
                           then set_Zoom c (plus_equals (Zoom c) (lit_d 1 2))
                           else c) c in
      (* orthographic view *)
      let ortho := if glfwGetKey GLFW_KEY_O then true else bOrthographicProjection v in
      let c := on_key (glfwGetKey GLFW_KEY_O)
                 (fun c => {| Position := Vec3 (lit_f 0 1) (lit_f 20 1) (lit_f 100 1);
                              Front := Vec3 (lit_f 0 1) (lit_f 0 1) (lit_f (-10) 1);
                              Up := Vec3 (lit_f 0 1) (lit_f 50 1) (lit_f 0 1);
                              Zoom := Zoom c |}) c in
      (* perspective view *)
      let ortho := if glfwGetKey GLFW_KEY_P then false else ortho in
      {| g_pCamera := Some c; gDeltaTime := gDeltaTime v;
         bOrthographicProjection := ortho;
         windowShouldClose := close |}
  end.

(** The frames of a session: the keys held in each frame, in turn. *)
Fixpoint frames (keys : list (Key -> bool)) (v : ViewState) : ViewState :=
  match keys with
  | [] => v
  | k :: keys' => frames keys' (ProcessKeyboardEvents k v)
  end.

Definition zoom_of (v : ViewState) : option float := Zoom <$> g_pCamera v.

End Keys.

(** Only the given key is held. *)
Definition only (k : Key) : Key -> bool := fun k' => bool_decide (k' = k).

(** *** The mouse callbacks and the frame (viewmanager.cpp) *)

Definition mul32 : float -> float -> float := SFmul prec32 emax32.
Definition div32 : float -> float -> float := SFdiv prec32 emax32.
Definition sub32 : float -> float -> float := SFsub prec32 emax32.

Definition WINDOW_WIDTH : Z := 1000.
Definition WINDOW_HEIGHT : Z := 800.

(** The globals of the anonymous namespace that the mouse and the frame
    clock use. *)
Record Pointer := {
  gLastX : float;
  gLastY : float;
  gFirstMouse : bool;
}.

(** [WINDOW_WIDTH / 2.0f]: the [int] is converted, the division is in [float]. *)
Definition new_Pointer : Pointer :=
  {| gLastX := div32 (int_to_float WINDOW_WIDTH) (lit_f 20 1);
     gLastY := div32 (int_to_float WINDOW_HEIGHT) (lit_f 20 1);
     gFirstMouse := true |}.

Definition set_camera (v : ViewState) (c : Camera) : ViewState :=
  {| g_pCamera := Some c; gDeltaTime := gDeltaTime v;
     bOrthographicProjection := bOrthographicProjection v;
     windowShouldClose := windowShouldClose v |}.

(** A [double] that is finite and that a [float] holds exactly. *)
Definition float_exact (x : double) : bool :=
  match x with
  | S754_nan | S754_infinity _ => false
  | _ => bool_decide (to_double (to_float x) = x)
  end.

Section Mouse.

(** [Camera::ProcessMouseMovement] and [Camera::ProcessMouseScroll], from
    camera.h, with the arguments as passed. *)
Variable ProcessMouseMovement : float -> float -> Camera -> Camera.
Variable ProcessMouseScroll : float -> Camera -> Camera.

(** [gLastX = xMousePos] stores the [double] into a [float];
    [xMousePos - gLastX] is computed in [double] and stored into a
    [float]. The camera pointer is not tested. *)
Definition Mouse_Position_Callback (xMousePos yMousePos : double)
    (p : Pointer) (v : ViewState) : result (Pointer * ViewState) :=
  let mouseSensitivity := lit_f 250 2 in
  let p :=
    if gFirstMouse p
    then {| gLastX := to_float xMousePos; gLastY := to_float yMousePos; gFirstMouse := false |}
    else p in
  let xOffset := to_float (sub64 xMousePos (to_double (gLastX p))) in
  let yOffset := to_float (sub64 (to_double (gLastY p)) yMousePos) in
  let p := {| gLastX := to_float xMousePos; gLastY := to_float yMousePos;
              gFirstMouse := gFirstMouse p |} in
  match g_pCamera v with
  | Some c =>
      Ok (p, set_camera v (ProcessMouseMovement (mul32 xOffset mouseSensitivity)
                             (mul32 yOffset mouseSensitivity) c))
  | None => Undefined NullPointer
  end.

(** [g_pCamera->ProcessMouseScroll(-yOffset)]: the [double] is negated and
    passed where a [float] is expected. *)
Definition Mouse_Scroll_Wheel_Callback (xOffset yOffset : double)
    (v : ViewState) : result ViewState :=
  match g_pCamera v with
  | Some c => Ok (set_camera v (ProcessMouseScroll (to_float (SFopp yOffset)) c))
  | None => Undefined NullPointer
  end.

End Mouse.

(** The view manager: its shader manager, the globals the keys use, and
    the time of the last frame. *)
Record ViewManager := {
  view_pShaderManager : option ShaderManager;
  globals : ViewState;
  gLastFrame : float;
}.

Section Frame.

Context {glm : GLM}.

Variable ProcessKeyboard : Camera_Movement -> float -> Camera -> Camera.

(** [Camera::GetViewMatrix], [glm::ortho] and [glm::perspective]. *)
Variable GetViewMatrix : Camera -> mat4.
Variable glm_ortho : float -> float -> float -> float -> float -> float -> mat4.
Variable glm_perspective : float -> float -> float -> float -> mat4.

(** One frame: the clock is read, the keys are processed, and the view,
    the projection and the camera position are uploaded. The result is the
    new state and the uploads, in order. [g_pCamera] is dereferenced
    without a test after [ProcessKeyboardEvents] returns. *)
Definition PrepareSceneView (glfwGetTime : double) (glfwGetKey : Key -> bool)
    (vm : ViewManager) : result (ViewManager * list Event) :=
  let currentFrame := to_float glfwGetTime in
  let v := {| g_pCamera := g_pCamera (globals vm);
              gDeltaTime := sub32 currentFrame (gLastFrame vm);
              bOrthographicProjection := bOrthographicProjection (globals vm);
              windowShouldClose := windowShouldClose (globals vm) |} in
  let v := ProcessKeyboardEvents ProcessKeyboard glfwGetKey v in
  match g_pCamera v with
  | None => Undefined NullPointer
  | Some c =>
      let view := GetViewMatrix c in
      let projection :=
        if bOrthographicProjection v
        then glm_ortho (lit_f (-90) 1) (lit_f 90 1) (lit_f (-70) 1) (lit_f 70 1)
               (lit_f (-10) 1) (lit_f 300 1)
        else glm_perspective (glm_radians (Zoom c))
               (div32 (int_to_float WINDOW_WIDTH) (int_to_float WINDOW_HEIGHT))
               (lit_f 1 1) (lit_f 1000 1) in
      Ok ({| view_pShaderManager := view_pShaderManager vm;
             globals := v;
             gLastFrame := currentFrame |},
          match view_pShaderManager vm with
          | Some _ =>
              [ Uniform "view" (UMat4 view);
                Uniform "projection" (UMat4 projection);
                Uniform "viewPosition" (UVec3 (Position c)) ]
          | None => []
          end)
  end.

End Frame.

End View.

(** ** An implementation of the collaborators, to run the code on *)

Module Demo.

(** Matrices kept as the expressions that build them. *)
Inductive matrix :=
| Scale (v : vec3)
| Rotate (angle : float) (axis : vec3)
| Translate (v : vec3)
| Mul (a b : matrix).

#[global] Instance matrix_eq_dec : EqDecision matrix.
Proof. solve_decision. Defined.

(** [glm::radians]: the angle times pi/180 rounded to [float]. *)
Definition radians (degrees : float) : float :=
  SFmul prec32 emax32 degrees (S754_finite false 9370165 (-29)).

Definition glm : GLM :=
  {| mat4 := matrix;
     glm_scale := Scale;
     glm_rotate := Rotate;
     glm_translate := Translate;
     glm_radians := radians;
     mat4_mul := Mul |}.

#[local] Existing Instance glm.

Definition zero3 : vec3 := Vec3 (lit_f 0 1) (lit_f 0 1) (lit_f 0 1).

(** Texture names are handed out in sequence, from 1. *)
Fixpoint generated (cs : list Event) : Z :=
  match cs with
  | [] => 0
  | GL (glGenTextures _) :: cs' => 1 + generated cs'
  | _ :: cs' => generated cs'
  end.

(** Every file decodes to a 64x64 RGB image, except those named in
    [missing] (no such file) and in [grey] (one channel). *)
Definition platform_with (missing grey : list string) : Platform :=
  {| stbi_load := fun filename =>
       if decide (filename ∈ missing) then None
       else if decide (filename ∈ grey)
            then Some {| img_width := 64; img_height := 64; img_channels := 1 |}
            else Some {| img_width := 64; img_height := 64; img_channels := 3 |};
     fresh_texture_name := fun cs => 1 + generated cs;
     indeterminate_material :=
       {| ambientStrength := lit_f 0 1; ambientColor := zero3; diffuseColor := zero3;
          specularColor := zero3; shininess := lit_f 0 1; mat_tag := "" |} |}.

Definition platform : Platform := platform_with [] [].

#[local] Existing Instance platform.

(** A scene manager as the constructor leaves it when the memory it is
    built in is zeroed. *)
Definition fresh : SceneManager :=
  new_SceneManager (Some (shader_program 1)) 0 (fun _ => 0) [].

(** The scene after [LoadSceneTextures] and [DefineObjectMaterials]. *)
Definition prepared : SceneManager :=
  state_after DefineObjectMaterials (state_after LoadSceneTextures fresh).

(** The position a model matrix built by [SetTransformations] translates to. *)
Definition position_of (d : Drawn) : option vec3 :=
  match drawn_model d with
  | Some (UMat4 (Mul (Mul (Mul (Mul (Translate p) _) _) _) _)) => Some p
  | _ => None
  end.

End Demo.

(** ** The specification's vocabulary

    Definitions that follow the words of the specification rather than the
    source: what the registries hold, what a method says to the graphics
    context, the jar as a table. The lemmas below relate them to the code. *)

Section Specification.

Context {glm : GLM} {platform : Platform}.

(** The entries in use: the first [m_loadedTextures] of the array. *)
Definition loaded (s : SceneManager) : list TEXTURE_INFO :=
  take (Z.to_nat (m_loadedTextures s)) (m_textureIDs s).

(** The tags of the textures loaded, by slot. *)
Definition registry (s : SceneManager) : list string := tex_tag <$> loaded s.

(** The count does not run past the array. *)
Definition registry_ok (s : SceneManager) : Prop :=
  m_loadedTextures s <= Z.of_nat (length (m_textureIDs s)).

(** Position of the first occurrence of [tag], counted from [index];
    -1 when there is none. *)
Fixpoint slot_from (tags : list string) (tag : string) (index : Z) : Z :=
  match tags with
  | [] => -1
  | t :: tags' => if decide (t = tag) then index else slot_from tags' tag (index + 1)
  end.

Definition slot_of (s : SceneManager) (tag : string) : Z := slot_from (registry s) tag 0.

(** What [FindMaterial] leaves in the caller's object: the five fields of
    the first material with the tag, or the object as it was. *)
Definition copy_fields (m material : OBJECT_MATERIAL) : OBJECT_MATERIAL :=
  {| ambientStrength := ambientStrength m;
     ambientColor := ambientColor m;
     diffuseColor := diffuseColor m;
     specularColor := specularColor m;
     shininess := shininess m;
     mat_tag := mat_tag material |}.

Fixpoint material_from (mats : list OBJECT_MATERIAL) (tag : string)
    (material : OBJECT_MATERIAL) : OBJECT_MATERIAL :=
  match mats with
  | [] => material
  | m :: mats' =>
      if decide (mat_tag m = tag) then copy_fields m material
      else material_from mats' tag material
  end.

(** [says m s a evs]: from [s], the method returns [a] after issuing the
    calls [evs], in that order, and changes no member. *)
Definition says {A} (m : M A) (s : SceneManager) (a : A) (evs : list Event) : Prop :=
  m s = Ok (a, emits (reverse evs) s).

(** The shader manager is there and the texture count is within the array. *)
Definition ready (s : SceneManager) : Prop :=
  is_Some (m_pShaderManager s) /\ registry_ok s.

(** [Translate(position) * RotateX(x) * RotateY(y) * RotateZ(z) * Scale(scale)],
    the rotations taking radians and the angles given in degrees. *)
Definition RotateX (degrees : float) : mat4 :=
  glm_rotate (glm_radians degrees) (Vec3 (lit_f 10 1) (lit_f 0 1) (lit_f 0 1)).
Definition RotateY (degrees : float) : mat4 :=
  glm_rotate (glm_radians degrees) (Vec3 (lit_f 0 1) (lit_f 10 1) (lit_f 0 1)).
Definition RotateZ (degrees : float) : mat4 :=
  glm_rotate (glm_radians degrees) (Vec3 (lit_f 0 1) (lit_f 0 1) (lit_f 10 1)).

Definition model_matrix (scale rotationDegreesXYZ position : vec3) : mat4 :=
  mat4_mul
    (mat4_mul
       (mat4_mul
          (mat4_mul (glm_translate position) (RotateX (vec3_x rotationDegreesXYZ)))
          (RotateY (vec3_y rotationDegreesXYZ)))
       (RotateZ (vec3_z rotationDegreesXYZ)))
    (glm_scale scale).

(** The writes of each attribute, in the order issued. *)
Definition color_writes (c : vec4) : list Event :=
  [ Uniform g_UseTextureName (UInt 0); Uniform g_ColorValueName (UVec4 c) ].

Definition texture_writes (s : SceneManager) (tag : string) : list Event :=
  [ Uniform g_UseTextureName (UInt 1);
    Uniform g_TextureValueName (USampler2D (slot_of s tag)) ].

Definition uv_writes (uv : vec2) : list Event := [ Uniform "UVscale" (UVec2 uv) ].

Definition material_uniforms (m : OBJECT_MATERIAL) : list Event :=
  [ Uniform "material.ambientColor" (UVec3 (ambientColor m));
    Uniform "material.ambientStrength" (UFloat (ambientStrength m));
    Uniform "material.diffuseColor" (UVec3 (diffuseColor m));
    Uniform "material.specularColor" (UVec3 (specularColor m));
    Uniform "material.shininess" (UFloat (shininess m)) ].

(** With an empty registry nothing is written; otherwise the five
    uniforms get what [FindMaterial] left in the local object. *)
Definition material_writes (s : SceneManager) (tag : string) : list Event :=
  match m_objectMaterials s with
  | [] => []
  | _ => material_uniforms (material_from (m_objectMaterials s) tag indeterminate_material)
  end.

Definition model_write (scale rotationDegreesXYZ position : vec3) : list Event :=
  [ Uniform g_ModelName (UMat4 (model_matrix scale rotationDegreesXYZ position)) ].

(** The four steps of [SetShaderAttributes], in their fixed order. *)
Definition attribute_writes (s : SceneManager) (colorRGBA : vec4) (texture : string)
    (UVscale : vec2) (material : string) : list Event :=
  color_writes colorRGBA
  ++ (if decide (texture = "none") then [] else texture_writes s texture)
  ++ uv_writes UVscale
  ++ (if decide (material = "none") then [] else material_writes s material).

(** One sub-part: the attribute changes made just before it, its scale and
    rotation, its offset from the origin of the object, and the draw. *)
Record SubPart := {
  part_texture : option string;
  part_UVscale : option vec2;
  part_scale : vec3;
  part_rotation : vec3;
  part_offset : vec3;
  part_shape : MeshCall;
}.

Definition f3 (x y z : float) : vec3 := Vec3 x y z.

Definition jar_color : vec4 := Vec4 (lit_df 7 1) (lit_df 7 1) (lit_df 9 1) (lit_df 8 1).
Definition jar_UVscale : vec2 := Vec2 (lit_f 10 1) (lit_f 35 2).
Definition no_rotation : vec3 := f3 (lit_f 0 1) (lit_f 0 1) (lit_f 0 1).
Definition up (dy : float) : vec3 := f3 (lit_f 0 1) dy (lit_f 0 1).

Definition jar_table : list SubPart :=
  [ {| part_texture := None; part_UVscale := None;
       part_scale := f3 (lit_f 20 1) (lit_f 3 1) (lit_f 20 1);
       part_rotation := no_rotation;
       part_offset := up (lit_f 15 2);
       part_shape := DrawSphereMesh |};
    {| part_texture := None; part_UVscale := None;
       part_scale := f3 (lit_f 20 1) (lit_f 405 2) (lit_f 20 1);
       part_rotation := no_rotation;
       part_offset := up (lit_f 15 2);
       part_shape := DrawCylinderMesh [] |};
    {| part_texture := None;
       part_UVscale := Some (Vec2 (lit_df 10 1) (lit_df 25 2));
       part_scale := f3 (lit_f 202 2) (lit_f 7 1) (lit_f 202 2);
       part_rotation := f3 (lit_f 0 1) (lit_f (-100) 1) (lit_f 0 1);
       part_offset := up (lit_f 42 1);
       part_shape := DrawSphereMesh |};
    {| part_texture := None;
       part_UVscale := Some (Vec2 (lit_f 8 1) (lit_f 1 1));
       part_scale := f3 (lit_f 16 1) (lit_f 80 2) (lit_f 16 1);
       part_rotation := f3 (lit_f 0 1) (lit_f 80 1) (lit_f 0 1);
       part_offset := up (lit_f 44 1);
       part_shape := DrawCylinderMesh [] |};
    {| part_texture := None;
       part_UVscale := Some (Vec2 (lit_f 15 1) (lit_f 3 1));
       part_scale := f3 (lit_f 148 2) (lit_f 148 2) (lit_f 65 2);
       part_rotation := f3 (lit_f 900 1) (lit_f 0 1) (lit_f 0 1);
       part_offset := up (lit_f 510 2);
       part_shape := DrawTorusMesh |};
    {| part_texture := Some "glass10";
       part_UVscale := Some (Vec2 (lit_f 20 1) (lit_f 10 1));
       part_scale := f3 (lit_f 15 1) (lit_f 15 1) (lit_f 5 1);
       part_rotation := f3 (lit_f 900 1) (lit_f 0 1) (lit_f 0 1);
       part_offset := up (lit_f 525 2);
       part_shape := DrawTorusMesh |};
    {| part_texture := None; part_UVscale := None;
       part_scale := f3 (lit_f 16 1) (lit_f 16 2) (lit_f 16 1);
       part_rotation := no_rotation;
       part_offset := up (lit_f 525 2);
       part_shape := DrawSphereMesh |};
    {| part_texture := None;
       part_UVscale := Some (Vec2 (lit_f 20 1) (lit_f 10 1));
       part_scale := f3 (lit_f 9 1) (lit_f 5 1) (lit_f 9 1);
       part_rotation := no_rotation;
       part_offset := up (lit_f 52 1);
       part_shape := DrawCylinderMesh [] |};
    {| part_texture := None;
       part_UVscale := Some (Vec2 (lit_f 15 1) (lit_f 10 1));
       part_scale := f3 (lit_f 11 1) (lit_f 11 1) (lit_f 5 1);
       part_rotation := f3 (lit_f 900 1) (lit_f 0 1) (lit_f 0 1);
       part_offset := up (lit_f 57 1);
       part_shape := DrawTorusMesh |};
    {| part_texture := None; part_UVscale := None;
       part_scale := f3 (lit_f 11 1) (lit_f 2 1) (lit_f 11 1);
       part_rotation := no_rotation;
       part_offset := up (lit_f 565 2);
       part_shape := DrawSphereMesh |} ].

(** [origin + offset], component by component, in [float]. *)
Definition place (origin offset : vec3) : vec3 :=
  Vec3 (add32 (vec3_x origin) (vec3_x offset))
       (add32 (vec3_y origin) (vec3_y offset))
       (add32 (vec3_z origin) (vec3_z offset)).

Definition part_writes (s : SceneManager) (origin : vec3) (p : SubPart) : list Event :=
  match part_texture p with Some t => texture_writes s t | None => [] end
  ++ match part_UVscale p with Some uv => uv_writes uv | None => [] end
  ++ model_write (part_scale p) (part_rotation p) (place origin (part_offset p))
  ++ [Draw (part_shape p)].

Definition jar_writes (s : SceneManager) (origin : vec3) : list Event :=
  attribute_writes s jar_color "glass13" jar_UVscale "glass"
  ++ concat (part_writes s origin <$> jar_table).

(** The file decodes and has three or four channels. *)
Definition loadable (filename : string) : bool :=
  match stbi_load filename with
  | Some image => (img_channels image =? 3) || (img_channels image =? 4)
  | None => false
  end.

(** A caller that loads the given (file, tag) pairs in order, as
    [LoadSceneTextures] does for its ten. *)
Fixpoint load_in_order (loads : list (string * string)) : M unit :=
  match loads with
  | [] => mret tt
  | (filename, tag) :: loads' =>
      bReturn ← CreateGLTexture filename tag;
      load_in_order loads'
  end.

Definition scene_textures : list (string * string) :=
  [ ("../../Utilities/textures/tile.jpg", "backdrop");
    ("../../Utilities/textures/counter.jpg", "counter");
    ("../../Utilities/textures/knife_handle.jpg", "wood");
    ("../../Utilities/textures/metal.jpg", "metal");
    ("../../Utilities/textures/marble.jpg", "marble");
    ("../../Utilities/textures/drywall.jpg", "plastic");
    ("../../Utilities/textures/cucumber_outer.jpeg", "cucumber_outer");
    ("../../Utilities/textures/cucumber_inner.jpg", "cucumber_inner");
    ("../../Utilities/textures/glass10.png", "glass10");
    ("../../Utilities/textures/glass13.png", "glass13") ].

(** The uniforms of a draw other than the model matrix. *)
Definition without_model (d : Drawn) : Drawn :=
  {| drawn_shape := drawn_shape d;
     drawn_model := None;
     drawn_color := drawn_color d;
     drawn_useTexture := drawn_useTexture d;
     drawn_texture := drawn_texture d;
     drawn_UVscale := drawn_UVscale d;
     drawn_material := drawn_material d |}.

(** The model matrix the table gives a sub-part placed at [position]. *)
Definition part_model (position : vec3 -> vec3) (p : SubPart) : option UniformValue :=
  Some (UMat4 (model_matrix (part_scale p) (part_rotation p) (position (part_offset p)))).

Definition red : vec4 := Vec4 (lit_f 10 1) (lit_f 0 1) (lit_f 0 1) (lit_f 10 1).
Definition ones : vec2 := Vec2 (lit_f 10 1) (lit_f 10 1).

(** The [ID] that [FindTextureID] reads for a tag: that of the first entry
    with the tag, as an [int]; -1 when there is none. *)
Fixpoint id_from (entries : list TEXTURE_INFO) (tag : string) : Z :=
  match entries with
  | [] => -1
  | e :: entries' =>
      if decide (tex_tag e = tag) then uint32_to_int (tex_ID e) else id_from entries' tag
  end.

(** The texture bound to the 2D target of [unit] after the calls [evs] (in
    the order issued), when [active] was the active unit and [bound] the
    binding before them. *)
Fixpoint bound_to (unit active : Z) (bound : option Z) (evs : list Event) : option Z :=
  match evs with
  | [] => bound
  | GL (glActiveTexture u) :: evs' => bound_to unit u bound evs'
  | GL (glBindTexture GL_TEXTURE_2D name) :: evs' =>
      bound_to unit active (if active =? unit then Some name else bound) evs'
  | _ :: evs' => bound_to unit active bound evs'
  end.

(** The calls [BindGLTextures] issues for the entries in use, from unit [i] on. *)
Fixpoint bind_calls (i : Z) (entries : list TEXTURE_INFO) : list Event :=
  match entries with
  | [] => []
  | e :: entries' =>
      GL (glActiveTexture i) :: GL (glBindTexture GL_TEXTURE_2D (tex_ID e))
      :: bind_calls (i + 1) entries'
  end.

(** A draw taken right after the draw [hull] with only the sampler set
    anew: the mesh library's [DrawCylinderMesh(top, true, false)] under the
    uniforms of [hull], with the texture of slot [inner]. *)
Definition cap_on (hull : Drawn) (inner : Z) (top : bool) : Drawn :=
  {| drawn_shape := DrawCylinderMesh [top; true; false];
     drawn_model := drawn_model hull;
     drawn_color := drawn_color hull;
     drawn_useTexture := Some (UInt 1);
     drawn_texture := Some (USampler2D inner);
     drawn_UVscale := drawn_UVscale hull;
     drawn_material := drawn_material hull |}.

(** The draws among [evs] when the uniforms before them are given as a
    function: the same as [draws_from], with the earlier calls summed up by
    the values they left. *)
Definition snapshot_under (c : MeshCall) (u : string -> option UniformValue) : Drawn :=
  {| drawn_shape := c;
     drawn_model := u g_ModelName;
     drawn_color := u g_ColorValueName;
     drawn_useTexture := u g_UseTextureName;
     drawn_texture := u g_TextureValueName;
     drawn_UVscale := u "UVscale";
     drawn_material := u <$> material_names |}.

Fixpoint draws_under (u : string -> option UniformValue) (evs : list Event) : list Drawn :=
  match evs with
  | [] => []
  | Draw c :: evs' => snapshot_under c u :: draws_under u evs'
  | Uniform n v :: evs' =>
      draws_under (fun name => if decide (n = name) then Some v else u name) evs'
  | _ :: evs' => draws_under u evs'
  end.

(** The five material uniforms holding the values of [m], in the order of
    [material_names]. *)
Definition material_values (m : OBJECT_MATERIAL) : list (option UniformValue) :=
  [ Some (UVec3 (ambientColor m)); Some (UFloat (ambientStrength m));
    Some (UVec3 (diffuseColor m)); Some (UVec3 (specularColor m));
    Some (UFloat (shininess m)) ].

End Specification.

(** ** Scenarios on the demonstration scene *)

Section Scenarios.

Import View.

#[local] Existing Instance Demo.glm.
#[local] Existing Instance Demo.platform.

(** A view whose camera has the given zoom. *)
Definition zoomed (zoom : float) : ViewState :=
  {| g_pCamera := Some {| Position := Demo.zero3; Front := Demo.zero3;
                          Up := Demo.zero3; Zoom := zoom |};
     gDeltaTime := lit_f 0 1;
     bOrthographicProjection := false;
     windowShouldClose := false |}.

Definition hold (k : Key) (n : Z) : list (Key -> bool) := replicate (Z.to_nat n) (only k).

(** The draws of the jar of the scene, at origin (6.0, 0.0, -6.2). *)
Definition scene_jar : list Drawn :=
  draws_from (calls Demo.prepared)
    (issued (DrawJar (lit_f 60 1) (lit_f 0 1) (lit_f (-62) 1)) Demo.prepared).

(** The positions the jar's sub-parts are drawn at, read off the model
    matrices. *)
Definition jar_positions (origin : vec3) : list (option vec3) :=
  Demo.position_of <$>
    draws_from (calls Demo.prepared)
      (issued (DrawJar (vec3_x origin) (vec3_y origin) (vec3_z origin)) Demo.prepared).

Definition moved (delta : vec3) (positions : list (option vec3)) : list (option vec3) :=
  option_map (fun p => place p delta) <$> positions.

(** A scene manager built without a shader manager, before and after the
    materials are defined. *)
Definition headless : SceneManager := new_SceneManager None 0 (fun _ => 0) [].

Definition headless_with_materials : SceneManager :=
  state_after DefineObjectMaterials headless.

(** A mesh library whose loads issue no call that is recorded. *)
Definition silent_loads : MeshLoad -> ShapeMeshes -> M unit := fun _ _ => mret tt.

(** A camera that stays where it is under the movement keys, pans with the
    mouse and zooms with the wheel; its view matrix, and the projections,
    are kept as expressions. *)
Definition stay : Camera_Movement -> float -> Camera -> Camera := fun _ _ c => c.

Definition pan (xoffset yoffset : float) (c : Camera) : Camera :=
  {| Position := Vec3 (add32 (vec3_x (Position c)) xoffset)
                      (add32 (vec3_y (Position c)) yoffset)
                      (vec3_z (Position c));
     Front := Front c; Up := Up c; Zoom := Zoom c |}.

Definition wheel (yoffset : float) (c : Camera) : Camera :=
  set_Zoom c (add32 (Zoom c) yoffset).

Definition view_of (c : Camera) : mat4 := Demo.Translate (Position c).

Definition ortho (left right bottom top zNear zFar : float) : mat4 :=
  Demo.Mul (Demo.Scale (Vec3 right top zFar)) (Demo.Translate (Vec3 left bottom zNear)).

Definition perspective (fovy aspect zNear zFar : float) : mat4 :=
  Demo.Mul (Demo.Scale (Vec3 fovy aspect zFar)) (Demo.Translate (Vec3 fovy aspect zNear)).

(** The view manager as constructed, and one that lost its camera. *)
Definition first_view : ViewManager :=
  {| view_pShaderManager := Some (shader_program 1);
     globals := new_ViewManager;
     gLastFrame := lit_f 0 1 |}.

Definition view_without_camera : ViewManager :=
  {| view_pShaderManager := Some (shader_program 1);
     globals := {| g_pCamera := None; gDeltaTime := lit_f 0 1;
                   bOrthographicProjection := false; windowShouldClose := false |};
     gLastFrame := lit_f 0 1 |}.

End Scenarios.

(** ** Properties of the code *)

Lemma string_compare_refl (a : string) : String.compare a a = Eq.
Proof.
  pose proof (String.compare_antisym a a) as H.
  destruct (String.compare a a); simpl in H; congruence.
Qed.

Lemma std_compare_eq (a b : string) : std_compare a b = 0 <-> a = b.
Proof.
  unfold std_compare. split.
  - destruct (String.compare a b) eqn:E; try discriminate.
    intros _. now apply String.compare_eq_iff.
  - intros ->. now rewrite string_compare_refl.
Qed.

Section Properties.

Context {glm : GLM} {platform : Platform}.

Lemma slot_from_absent tags tag index : tag ∉ tags -> slot_from tags tag index = -1.
Proof.
  revert index. induction tags as [|t tags IH]; intros index Hnot; [reflexivity|].
  simpl. apply not_elem_of_cons in Hnot as [Hne Hnot].
  destruct (decide (t = tag)); [congruence|]. now apply IH.
Qed.

Lemma slot_from_lookup tags tag index (i : nat) :
  NoDup tags -> tags !! i = Some tag -> slot_from tags tag index = index + Z.of_nat i.
Proof.
  revert index i. induction tags as [|t tags IH]; intros index i Hnd Hi; [discriminate|].
  apply NoDup_cons in Hnd as [Hnotin Hnd]. simpl.
  destruct i as [|i]; simpl in Hi.
  - injection Hi as ->. rewrite decide_True by reflexivity. lia.
  - destruct (decide (t = tag)) as [->|Hne].
    + exfalso. apply Hnotin. eapply list_elem_of_lookup_2. exact Hi.
    + rewrite (IH (index + 1) i Hnd Hi). lia.
Qed.

Lemma length_registry s :
  registry_ok s -> length (registry s) = Z.to_nat (m_loadedTextures s).
Proof.
  unfold registry, loaded, registry_ok. intros H.
  rewrite length_fmap, length_take. lia.
Qed.

Lemma registry_lookup s (i : nat) :
  (Z.of_nat i < m_loadedTextures s) ->
  registry s !! i = tex_tag <$> (m_textureIDs s !! i).
Proof.
  intros H. unfold registry, loaded.
  rewrite list_lookup_fmap, lookup_take_lt by lia. reflexivity.
Qed.

Ltac run := unfold mbind, M_bind, mret, M_ret, get, undefined, emit; cbn.

Lemma FindTextureSlot_loop_found fuel tag slot index s :
  FindTextureSlot_loop fuel tag slot index true s = Ok (slot, s).
Proof.
  destruct fuel; cbn; run; rewrite andb_false_r; reflexivity.
Qed.

Lemma FindTextureSlot_loop_spec fuel tag : forall index s,
  0 <= index -> registry_ok s ->
  (Z.to_nat (m_loadedTextures s - index) < fuel)%nat ->
  FindTextureSlot_loop fuel tag (-1) index false s
  = Ok (slot_from (drop (Z.to_nat index) (registry s)) tag index, s).
Proof.
  induction fuel as [|fuel IH]; intros index s Hidx Hok Hfuel; [lia|].
  cbn; run. rewrite andb_true_r.
  destruct (index <? m_loadedTextures s) eqn:Hlt.
  - apply Z.ltb_lt in Hlt.
    unfold textureIDs_at. rewrite (proj2 (Z.leb_le 0 index) Hidx).
    destruct (m_textureIDs s !! Z.to_nat index) as [e|] eqn:He.
    2:{ apply lookup_ge_None_1 in He. unfold registry_ok in Hok. lia. }
    assert (Hreg : registry s !! Z.to_nat index = Some (tex_tag e)).
    { rewrite registry_lookup by lia. now rewrite He. }
    rewrite (drop_S _ _ _ Hreg). simpl.
    destruct (std_compare (tex_tag e) tag =? 0) eqn:Hcmp.
    + apply Z.eqb_eq, std_compare_eq in Hcmp.
      rewrite decide_True by assumption.
      apply FindTextureSlot_loop_found.
    + apply Z.eqb_neq in Hcmp.
      rewrite decide_False by (intros E; apply Hcmp, std_compare_eq, E).
      rewrite IH by (assumption || lia).
      replace (Z.to_nat (index + 1)) with (S (Z.to_nat index)) by lia.
      reflexivity.
  - apply Z.ltb_ge in Hlt.
    rewrite drop_ge; [reflexivity|].
    rewrite length_registry by assumption. lia.
Qed.

(** [FindTextureSlot] returns, changes nothing, and yields the slot of the
    first entry with the tag, or -1. *)
Lemma FindTextureSlot_spec tag s :
  registry_ok s -> FindTextureSlot tag s = Ok (slot_of s tag, s).
Proof.
  intros Hok. unfold FindTextureSlot, mbind, M_bind, get. cbv beta iota.
  rewrite FindTextureSlot_loop_spec by (assumption || lia).
  reflexivity.
Qed.

Lemma material_from_absent mats tag material :
  tag ∉ mat_tag <$> mats -> material_from mats tag material = material.
Proof.
  induction mats as [|m mats IH]; intros Hnot; [reflexivity|].
  simpl in *. apply not_elem_of_cons in Hnot as [Hne Hnot].
  destruct (decide (mat_tag m = tag)); [congruence|]. now apply IH.
Qed.

Lemma FindMaterial_loop_found fuel tag index material s :
  FindMaterial_loop fuel tag index true material s = Ok (material, s).
Proof.
  destruct fuel; cbn; run; rewrite andb_false_r; reflexivity.
Qed.

Lemma FindMaterial_loop_spec fuel tag : forall index material s,
  0 <= index ->
  (length (m_objectMaterials s) - Z.to_nat index < fuel)%nat ->
  FindMaterial_loop fuel tag index false material s
  = Ok (material_from (drop (Z.to_nat index) (m_objectMaterials s)) tag material, s).
Proof.
  induction fuel as [|fuel IH]; intros index material s Hidx Hfuel; [lia|].
  cbn; run. rewrite andb_true_r.
  destruct (index <? Z.of_nat (length (m_objectMaterials s))) eqn:Hlt.
  - apply Z.ltb_lt in Hlt.
    unfold objectMaterials_at. rewrite (proj2 (Z.leb_le 0 index) Hidx).
    destruct (m_objectMaterials s !! Z.to_nat index) as [m|] eqn:Hm.
    2:{ apply lookup_ge_None_1 in Hm. lia. }
    rewrite (drop_S _ _ _ Hm). simpl.
    destruct (std_compare (mat_tag m) tag =? 0) eqn:Hcmp.
    + apply Z.eqb_eq, std_compare_eq in Hcmp.
      rewrite decide_True by assumption.
      apply FindMaterial_loop_found.
    + apply Z.eqb_neq in Hcmp.
      rewrite decide_False by (intros E; apply Hcmp, std_compare_eq, E).
      rewrite IH by lia.
      replace (Z.to_nat (index + 1)) with (S (Z.to_nat index)) by lia.
      reflexivity.
  - apply Z.ltb_ge in Hlt.
    rewrite drop_ge by lia. reflexivity.
Qed.

(** [FindMaterial] answers [false] only for an empty registry. *)
Lemma FindMaterial_spec tag material s :
  FindMaterial tag material s
  = Ok ((bool_decide (m_objectMaterials s <> []),
         material_from (m_objectMaterials s) tag material), s).
Proof.
  unfold FindMaterial, mbind, M_bind, get. cbv beta iota.
  destruct (m_objectMaterials s) as [|m mats] eqn:Hmats; [reflexivity|].
  rewrite decide_False by discriminate.
  rewrite FindMaterial_loop_spec by (rewrite ?Hmats; simpl; lia).
  rewrite Hmats. reflexivity.
Qed.

Lemma emits_emits a b s : emits a (emits b s) = emits (a ++ b) s.
Proof. unfold emits. cbn. now rewrite app_assoc. Qed.

Lemma emits_nil s : emits [] s = s.
Proof. now destruct s. Qed.

Lemma history_emits evs s : history (emits evs s) = history s ++ reverse evs.
Proof. unfold history. cbn. apply reverse_app. Qed.

Lemma registry_emits evs s : registry (emits evs s) = registry s.
Proof. reflexivity. Qed.

Lemma slot_of_emits evs s tag : slot_of (emits evs s) tag = slot_of s tag.
Proof. reflexivity. Qed.

Lemma ready_emits evs s : ready s -> ready (emits evs s).
Proof. exact id. Qed.

Lemma says_silent {A} (m : M A) s a : m s = Ok (a, s) -> says m s a [].
Proof. unfold says. intros ->. now rewrite reverse_nil, emits_nil. Qed.

Lemma says_ret {A} (a : A) s : says (mret a) s a [].
Proof. now apply says_silent. Qed.

Lemma says_bind {A B} (m : M A) (f : A -> M B) s a e1 b e2 :
  says m s a e1 ->
  says (f a) (emits (reverse e1) s) b e2 ->
  says (m ≫= f) s b (e1 ++ e2).
Proof.
  unfold says, mbind, M_bind. intros -> ->.
  now rewrite emits_emits, reverse_app.
Qed.

(** A step that issues no call. *)
Lemma says_bind_silent {A B} (m : M A) (f : A -> M B) s a b evs :
  says m s a [] ->
  says (f a) s b evs ->
  says (m ≫= f) s b evs.
Proof.
  intros Hm Hf. apply (says_bind m f s a [] b evs); [assumption|].
  now rewrite reverse_nil, emits_nil.
Qed.

Lemma says_get {A} (field : SceneManager -> A) s : says (get field) s (field s) [].
Proof. now apply says_silent. Qed.

Lemma says_emit e s : says (emit e) s tt [e].
Proof. reflexivity. Qed.

(** A call through [m_pShaderManager], which is not null. *)
Lemma says_setter (e : Event) s :
  is_Some (m_pShaderManager s) ->
  says (p ← get m_pShaderManager; deref p (emit e)) s tt [e].
Proof.
  intros [sh Hsh]. unfold says, mbind, M_bind, get. cbv beta iota.
  rewrite Hsh. reflexivity.
Qed.

Lemma says_if_not_null (body : M unit) s evs :
  is_Some (m_pShaderManager s) ->
  says body s tt evs ->
  says (p ← get m_pShaderManager; if_not_null p body) s tt evs.
Proof.
  intros [sh Hsh] Hbody. unfold says, mbind, M_bind, get in *. cbv beta iota.
  rewrite Hsh. exact Hbody.
Qed.

Lemma SetTransformations_says scale rx ry rz position s :
  is_Some (m_pShaderManager s) ->
  says (SetTransformations scale rx ry rz position) s tt
       (model_write scale (Vec3 rx ry rz) position).
Proof.
  intros H. unfold SetTransformations. cbv zeta.
  apply says_if_not_null; [assumption|].
  now apply says_setter.
Qed.

Lemma SetShaderColor_says r g b a s :
  is_Some (m_pShaderManager s) ->
  says (SetShaderColor r g b a) s tt (color_writes (Vec4 r g b a)).
Proof.
  intros H. unfold SetShaderColor. cbv zeta.
  apply says_if_not_null; [assumption|].
  apply (says_bind _ _ _ tt [_] tt [_]); now apply says_setter.
Qed.

Lemma FindTextureSlot_says tag s :
  registry_ok s -> says (FindTextureSlot tag) s (slot_of s tag) [].
Proof.
  intros H. apply says_silent. now apply FindTextureSlot_spec.
Qed.

Lemma SetShaderTexture_says tag s :
  ready s -> says (SetShaderTexture tag) s tt (texture_writes s tag).
Proof.
  intros [Hsh Hok]. unfold SetShaderTexture.
  apply says_if_not_null; [assumption|].
  apply (says_bind _ _ _ tt [_] tt [_]); [now apply says_setter|].
  eapply says_bind_silent.
  - apply FindTextureSlot_says. exact Hok.
  - now apply says_setter.
Qed.

Lemma SetTextureUVScale_says u v s :
  is_Some (m_pShaderManager s) ->
  says (SetTextureUVScale u v) s tt (uv_writes (Vec2 u v)).
Proof.
  intros H. unfold SetTextureUVScale.
  apply says_if_not_null; [assumption|]. now apply says_setter.
Qed.

Lemma FindMaterial_says tag material s :
  says (FindMaterial tag material) s
       (bool_decide (m_objectMaterials s <> []),
        material_from (m_objectMaterials s) tag material) [].
Proof. apply says_silent, FindMaterial_spec. Qed.

Lemma SetShaderMaterial_says tag s :
  is_Some (m_pShaderManager s) ->
  says (SetShaderMaterial tag) s tt (material_writes s tag).
Proof.
  intros H. unfold SetShaderMaterial, material_writes.
  eapply says_bind_silent; [apply says_get|]. cbv beta.
  destruct (m_objectMaterials s) as [|m0 mats] eqn:Hmats.
  - rewrite decide_False by (simpl; lia). apply says_ret.
  - rewrite decide_True by (simpl; lia). cbv zeta.
    eapply says_bind_silent; [apply FindMaterial_says|].
    rewrite Hmats. cbv beta iota.
    rewrite bool_decide_true by discriminate.
    unfold material_uniforms.
    apply (says_bind _ _ _ tt [_] tt [_; _; _; _]); [now apply says_setter|].
    apply (says_bind _ _ _ tt [_] tt [_; _; _]); [now apply says_setter|].
    apply (says_bind _ _ _ tt [_] tt [_; _]); [now apply says_setter|].
    apply (says_bind _ _ _ tt [_] tt [_]); now apply says_setter.
Qed.

Lemma SetShaderAttributes_says colorRGBA texture UVscale material s :
  ready s ->
  says (SetShaderAttributes colorRGBA texture UVscale material) s tt
       (attribute_writes s colorRGBA texture UVscale material).
Proof.
  intros Hr. pose proof Hr as [Hsh Hok].
  unfold SetShaderAttributes, attribute_writes.
  destruct colorRGBA as [r g b a], UVscale as [u v]. cbn [vec4_x vec4_y vec4_z vec4_w vec2_x vec2_y].
  eapply says_bind; [now apply SetShaderColor_says|].
  eapply says_bind.
  { destruct (decide (texture = "none")); [apply says_ret|].
    apply (SetShaderTexture_says texture (emits _ s)). exact Hr. }
  eapply says_bind; [now apply SetTextureUVScale_says|].
  destruct (decide (material = "none")); [apply says_ret|].
  apply (SetShaderMaterial_says material (emits _ (emits _ (emits _ s)))). exact Hsh.
Qed.

Lemma DrawMeshTransformation_says scale rotation position meshObject
    (drawMeshFunction : MeshDrawFunction) s evs :
  is_Some (m_pShaderManager s) ->
  (forall s', says (drawMeshFunction meshObject) s' tt evs) ->
  says (DrawMeshTransformation scale rotation position meshObject drawMeshFunction) s tt
       (model_write scale rotation position ++ evs).
Proof.
  intros H Hdraw. unfold DrawMeshTransformation. destruct rotation as [rx ry rz].
  eapply says_bind; [now apply SetTransformations_says|]. apply Hdraw.
Qed.

Lemma says_eq {A} (m : M A) s a evs evs' :
  says m s a evs -> evs = evs' -> says m s a evs'.
Proof. now intros H <-. Qed.

Ltac leaf Hr :=
  first
    [ apply SetShaderAttributes_says; exact Hr
    | apply SetTextureUVScale_says; exact (proj1 Hr)
    | apply SetShaderTexture_says; exact Hr
    | apply DrawMeshTransformation_says; [exact (proj1 Hr) | intros; apply says_emit] ].

Ltac chain Hr := first [ leaf Hr | eapply says_bind; [leaf Hr | chain Hr] ].

(** [DrawJar] issues the calls of the table, placed at the origin, from
    any state that is ready; it changes no member. *)
Lemma DrawJar_says x_pos y_pos z_pos s :
  ready s ->
  says (DrawJar x_pos y_pos z_pos) s tt (jar_writes s (Vec3 x_pos y_pos z_pos)).
Proof.
  intros Hr. unfold DrawJar. cbv zeta.
  eapply says_bind_silent; [apply says_get|]. cbv beta.
  eapply says_eq; [chain Hr|].
  reflexivity.
Qed.

Lemma CreateGLTexture_not_loadable filename tag s :
  loadable filename = false ->
  exists s',
    CreateGLTexture filename tag s = Ok (false, s')
    /\ m_loadedTextures s' = m_loadedTextures s
    /\ m_textureIDs s' = m_textureIDs s
    /\ m_pShaderManager s' = m_pShaderManager s
    /\ m_objectMaterials s' = m_objectMaterials s.
Proof.
  unfold loadable, CreateGLTexture. intros Hl.
  destruct (stbi_load filename) as [image|].
  - apply orb_false_elim in Hl as [H3 H4]. rewrite H3, H4. run.
    eexists. split; [reflexivity|]. cbn. auto.
  - run. eexists. split; [reflexivity|]. cbn. auto.
Qed.

Lemma CreateGLTexture_loadable filename tag s :
  loadable filename = true ->
  0 <= m_loadedTextures s < Z.of_nat (length (m_textureIDs s)) ->
  exists textureID s',
    CreateGLTexture filename tag s = Ok (true, s')
    /\ m_loadedTextures s' = m_loadedTextures s + 1
    /\ m_textureIDs s'
       = <[Z.to_nat (m_loadedTextures s) := {| tex_tag := tag; tex_ID := textureID |}]>
           (m_textureIDs s)
    /\ m_pShaderManager s' = m_pShaderManager s
    /\ m_objectMaterials s' = m_objectMaterials s.
Proof.
  unfold loadable, CreateGLTexture. intros Hl Hn.
  destruct (stbi_load filename) as [image|]; [|discriminate].
  destruct (lookup_lt_is_Some_2 (m_textureIDs s) (Z.to_nat (m_loadedTextures s)))
    as [e He]; [lia|].
  assert (H0 : (0 <=? m_loadedTextures s) = true) by (apply Z.leb_le; lia).
  destruct (img_channels image =? 3) eqn:H3;
    [|destruct (img_channels image =? 4) eqn:H4; [|discriminate]].
  all: run; unfold textureIDs_assign, set_loadedTextures; cbn;
    rewrite H0, He; cbn; rewrite H0;
    rewrite list_lookup_insert_eq by (apply lookup_lt_is_Some; eauto);
    cbn; rewrite list_insert_insert_eq;
    do 2 eexists; split; [reflexivity|]; cbn; auto.
Qed.

Lemma CreateGLTexture_out_of_bounds filename tag s :
  loadable filename = true ->
  Z.of_nat (length (m_textureIDs s)) <= m_loadedTextures s ->
  CreateGLTexture filename tag s = Undefined OutOfBounds.
Proof.
  unfold loadable, CreateGLTexture. intros Hl Hn.
  destruct (stbi_load filename) as [image|]; [|discriminate].
  assert (H0 : (0 <=? m_loadedTextures s) = true) by (apply Z.leb_le; lia).
  assert (He : m_textureIDs s !! Z.to_nat (m_loadedTextures s) = None)
    by (apply lookup_ge_None_2; lia).
  destruct (img_channels image =? 3) eqn:H3;
    [|destruct (img_channels image =? 4) eqn:H4; [|discriminate]].
  all: run; unfold textureIDs_assign; cbn; rewrite H0, He; reflexivity.
Qed.

(** What one call of [CreateGLTexture] does to the registry, when the
    count is within the array. *)
Lemma CreateGLTexture_registry filename tag s :
  0 <= m_loadedTextures s < Z.of_nat (length (m_textureIDs s)) ->
  exists s',
    CreateGLTexture filename tag s = Ok (loadable filename, s')
    /\ registry s' = registry s ++ (if loadable filename then [tag] else [])
    /\ m_loadedTextures s' = m_loadedTextures s + (if loadable filename then 1 else 0)
    /\ length (m_textureIDs s') = length (m_textureIDs s)
    /\ m_pShaderManager s' = m_pShaderManager s
    /\ m_objectMaterials s' = m_objectMaterials s.
Proof.
  intros Hn. destruct (loadable filename) eqn:Hl.
  - destruct (CreateGLTexture_loadable filename tag s Hl Hn)
      as (id & s' & -> & Hcnt & Hids & Hsh & Hmat).
    exists s'. split; [reflexivity|].
    split.
    { unfold registry, loaded. rewrite Hcnt, Hids.
      replace (Z.to_nat (m_loadedTextures s + 1))
        with (S (Z.to_nat (m_loadedTextures s))) by lia.
      erewrite take_S_r by (apply list_lookup_insert_eq; lia).
      rewrite take_insert_ge by lia.
      now rewrite fmap_app. }
    rewrite Hids, length_insert. auto.
  - destruct (CreateGLTexture_not_loadable filename tag s Hl)
      as (s' & -> & Hcnt & Hids & Hsh & Hmat).
    exists s'. split; [reflexivity|].
    unfold registry, loaded. rewrite Hcnt, Hids, app_nil_r, Z.add_0_r. auto.
Qed.

Lemma load_in_order_registry loads : forall s,
  0 <= m_loadedTextures s ->
  m_loadedTextures s + Z.of_nat (length loads) <= Z.of_nat (length (m_textureIDs s)) ->
  exists s',
    load_in_order loads s = Ok (tt, s')
    /\ registry s' = registry s ++ (snd <$> List.filter (fun ft => loadable (fst ft)) loads)
    /\ m_loadedTextures s <= m_loadedTextures s'
         <= m_loadedTextures s + Z.of_nat (length loads)
    /\ length (m_textureIDs s') = length (m_textureIDs s)
    /\ m_pShaderManager s' = m_pShaderManager s
    /\ m_objectMaterials s' = m_objectMaterials s.
Proof.
  induction loads as [|[filename tag] loads IH]; intros s H0 Hn.
  - exists s. cbn. rewrite app_nil_r. repeat split; lia.
  - cbn [length] in Hn.
    destruct (CreateGLTexture_registry filename tag s) as (s1 & Hc & Hreg & Hcnt & Hlen & Hsh & Hmat);
      [lia|].
    destruct (IH s1) as (s' & Hl & Hreg' & Hcnt' & Hlen' & Hsh' & Hmat').
    { rewrite Hcnt. destruct (loadable filename); lia. }
    { rewrite Hcnt, Hlen. destruct (loadable filename); lia. }
    exists s'. split.
    { cbn [load_in_order]. unfold mbind, M_bind at 1. now rewrite Hc. }
    split.
    { rewrite Hreg', Hreg. cbn [List.filter fst]. rewrite <- app_assoc.
      destruct (loadable filename); reflexivity. }
    rewrite Hlen', Hlen, Hsh', Hsh, Hmat', Hmat. repeat split; try reflexivity.
    all: cbn [length]; rewrite Hcnt in Hcnt'; destruct (loadable filename); lia.
Qed.

Lemma BindGLTextures_from_says fuel : forall i s,
  0 <= i -> registry_ok s ->
  (Z.to_nat (m_loadedTextures s - i) <= fuel)%nat ->
  exists evs, BindGLTextures_from fuel i s = Ok (tt, emits evs s).
Proof.
  induction fuel as [|fuel IH]; intros i s Hi Hok Hfuel.
  - exists []. cbn. run. rewrite (proj2 (Z.ltb_ge i (m_loadedTextures s))) by lia.
    now rewrite emits_nil.
  - cbn. run. destruct (i <? m_loadedTextures s) eqn:Hlt.
    + apply Z.ltb_lt in Hlt. unfold textureIDs_at. cbn.
      rewrite (proj2 (Z.leb_le 0 i) Hi).
      destruct (m_textureIDs s !! Z.to_nat i) as [e|] eqn:He.
      2:{ apply lookup_ge_None_1 in He. unfold registry_ok in Hok. lia. }
      match goal with
      | |- context [BindGLTextures_from fuel (i + 1) ?s1] =>
          destruct (IH (i + 1) s1) as [evs Hevs]; [lia|exact Hok|cbn; lia|];
          rewrite Hevs
      end.
      exists (evs ++ [GL (glBindTexture GL_TEXTURE_2D (tex_ID e)); GL (glActiveTexture i)]).
      unfold emits. cbn. now rewrite <- app_assoc.
    + exists []. now rewrite emits_nil.
Qed.

Lemma BindGLTextures_says s :
  registry_ok s -> exists evs, BindGLTextures s = Ok (tt, emits evs s).
Proof.
  intros Hok. unfold BindGLTextures, mbind, M_bind, get. cbv beta iota.
  apply BindGLTextures_from_says; [lia|assumption|lia].
Qed.

Lemma LoadSceneTextures_unfold s :
  LoadSceneTextures s = (load_in_order scene_textures ≫= fun _ => BindGLTextures) s.
Proof.
  unfold LoadSceneTextures, scene_textures, load_in_order, mbind, M_bind, mret, M_ret.
  repeat match goal with
         | |- context [match CreateGLTexture ?f ?t ?s with _ => _ end] =>
             destruct (CreateGLTexture f t s) as [[? ?]|]; [|reflexivity]
         end.
  reflexivity.
Qed.

(** Everything about the state that the calls of the jar depend on is
    named before computing: the slots of its two textures, the earlier
    calls, and what the material lookup left. *)
Ltac name_state s :=
  unfold jar_writes, attribute_writes, material_writes, part_writes, texture_writes;
  generalize (slot_of s); intros slot;
  generalize (calls s); intros context;
  destruct (m_objectMaterials s) as [|m0 ms];
  [| generalize (material_from (m0 :: ms) "glass" indeterminate_material); intros m ].

(** For an origin that is not given, the sums stay as they are. *)
Ltac by_table s :=
  name_state s; unfold part_model, place; generalize add32; intros plus;
  vm_compute; reflexivity.

Lemma jar_models s origin :
  drawn_model <$> draws_from (calls s) (jar_writes s origin)
  = part_model (place origin) <$> jar_table.
Proof. by_table s. Qed.

Lemma jar_attributes s origin origin' :
  without_model <$> draws_from (calls s) (jar_writes s origin)
  = without_model <$> draws_from (calls s) (jar_writes s origin').
Proof. by_table s. Qed.

Lemma jar_attributes_after s origin origin' :
  without_model <$> draws_from (reverse (jar_writes s origin) ++ calls s)
                      (jar_writes s origin')
  = without_model <$> draws_from (calls s) (jar_writes s origin').
Proof. by_table s. Qed.

Lemma says_history {A} (m : M A) s a evs :
  says m s a evs -> exists s', m s = Ok (a, s') /\ history s' = history s ++ evs.
Proof.
  intros H. exists (emits (reverse evs) s). split; [exact H|].
  now rewrite history_emits, reverse_involutive.
Qed.

(** *** The claims about the scene manager *)

(** C1. For every scale, rotation in degrees and position, when the
    shader manager is there, [SetTransformations] returns after exactly
    one call: the upload to the uniform "model" of
    Translate(position) * RotateX(x) * RotateY(y) * RotateZ(z) * Scale(scale),
    each rotation built from the angle converted to radians; afterwards
    that matrix is the value of the uniform, and no member has changed. *)
Theorem SetTransformations_uploads_model_matrix
    (scaleXYZ : vec3) (x y z : float) (positionXYZ : vec3) (s : SceneManager) :
  is_Some (m_pShaderManager s) ->
  let model :=
    mat4_mul
      (mat4_mul
         (mat4_mul
            (mat4_mul (glm_translate positionXYZ)
               (glm_rotate (glm_radians x) (Vec3 (lit_f 10 1) (lit_f 0 1) (lit_f 0 1))))
            (glm_rotate (glm_radians y) (Vec3 (lit_f 0 1) (lit_f 10 1) (lit_f 0 1))))
         (glm_rotate (glm_radians z) (Vec3 (lit_f 0 1) (lit_f 0 1) (lit_f 10 1))))
      (glm_scale scaleXYZ) in
  exists s',
    SetTransformations scaleXYZ x y z positionXYZ s = Ok (tt, s')
    /\ history s' = history s ++ [Uniform "model" (UMat4 model)]
    /\ uniform "model" (calls s') = Some (UMat4 model)
    /\ model = model_matrix scaleXYZ (Vec3 x y z) positionXYZ
    /\ s' = emits [Uniform "model" (UMat4 model)] s.
Proof.
  intros Hsh model.
  pose proof (SetTransformations_says scaleXYZ x y z positionXYZ s Hsh) as H.
  exists (emits [Uniform "model" (UMat4 model)] s).
  split; [exact H|]. split; [now rewrite history_emits|].
  split; [reflexivity|]. split; reflexivity.
Qed.

(** Without a shader manager nothing is uploaded. *)
Lemma SetTransformations_null scaleXYZ x y z positionXYZ s :
  m_pShaderManager s = None ->
  SetTransformations scaleXYZ x y z positionXYZ s = Ok (tt, s).
Proof.
  intros H. unfold SetTransformations, mbind, M_bind, get. cbv zeta beta iota.
  now rewrite H.
Qed.

(** C2, as the code has it. Given origin (6.0, 0.0, -6.2), from any state
    that is ready, [DrawJar] returns after issuing exactly 10 draws, in
    the shape order sphere, cylinder, sphere, cylinder, torus, torus,
    sphere, cylinder, torus, sphere; the first is drawn with the model
    matrix of scale (2.0, 0.3, 2.0), no rotation and position
    (6.0, 0.15, -6.2); and the UV scale in force changes to (1.5, 0.3) at
    the fifth draw, the torus after the neck cylinder. *)
Theorem DrawJar_at_scene_origin (s : SceneManager) :
  ready s ->
  exists evs,
    says (DrawJar (lit_f 60 1) (lit_f 0 1) (lit_f (-62) 1)) s tt evs
    /\ let ds := draws_from (calls s) evs in
       length ds = 10%nat
       /\ drawn_shape <$> ds
          = [ DrawSphereMesh; DrawCylinderMesh []; DrawSphereMesh; DrawCylinderMesh [];
              DrawTorusMesh; DrawTorusMesh; DrawSphereMesh; DrawCylinderMesh [];
              DrawTorusMesh; DrawSphereMesh ]
       /\ drawn_model <$> (ds !! 0%nat)
          = Some (Some (UMat4 (model_matrix
                                 (Vec3 (lit_f 20 1) (lit_f 3 1) (lit_f 20 1))
                                 (Vec3 (lit_f 0 1) (lit_f 0 1) (lit_f 0 1))
                                 (Vec3 (lit_f 60 1) (lit_f 15 2) (lit_f (-62) 1)))))
       /\ drawn_UVscale <$> ds
          = (fun uv => Some (UVec2 uv)) <$>
            [ Vec2 (lit_f 10 1) (lit_f 35 2); Vec2 (lit_f 10 1) (lit_f 35 2);
              Vec2 (lit_f 10 1) (lit_f 25 2); Vec2 (lit_f 8 1) (lit_f 1 1);
              Vec2 (lit_f 15 1) (lit_f 3 1); Vec2 (lit_f 20 1) (lit_f 10 1);
              Vec2 (lit_f 20 1) (lit_f 10 1); Vec2 (lit_f 20 1) (lit_f 10 1);
              Vec2 (lit_f 15 1) (lit_f 10 1); Vec2 (lit_f 15 1) (lit_f 10 1) ].
Proof.
  intros Hr. eexists. split; [now apply DrawJar_says|]. cbv zeta.
  name_state s; vm_compute; repeat split; reflexivity.
Qed.

(** C3. [SetShaderAttributes] issues its writes in the fixed order
    color, texture, UV scale, material (texture and material only when
    the tag is not "none"). After applying (red, "none", (1,1), "none"), the
    color uniform is red; a following [SetShaderTexture tag] leaves it red,
    turns texturing on and sets the sampler to the slot of [tag]. *)
Theorem SetShaderAttributes_order_and_texture_override
    (colorRGBA : vec4) (texture : string) (UVscale : vec2) (material : string)
    (tag : string) (s : SceneManager) :
  ready s ->
  says (SetShaderAttributes colorRGBA texture UVscale material) s tt
    (color_writes colorRGBA
     ++ (if decide (texture = "none") then [] else texture_writes s texture)
     ++ uv_writes UVscale
     ++ (if decide (material = "none") then [] else material_writes s material))
  /\ exists s1 s2,
      SetShaderAttributes red "none" ones "none" s = Ok (tt, s1)
      /\ uniform "objectColor" (calls s1) = Some (UVec4 red)
      /\ uniform "bUseTexture" (calls s1) = Some (UInt 0)
      /\ uniform "objectTexture" (calls s1) = uniform "objectTexture" (calls s)
      /\ SetShaderTexture tag s1 = Ok (tt, s2)
      /\ uniform "objectColor" (calls s2) = Some (UVec4 red)
      /\ uniform "bUseTexture" (calls s2) = Some (UInt 1)
      /\ uniform "objectTexture" (calls s2) = Some (USampler2D (slot_of s tag)).
Proof.
  intros Hr. split; [now apply SetShaderAttributes_says|].
  pose proof (SetShaderAttributes_says red "none" ones "none" s Hr) as H1.
  set (s1 := emits (reverse (attribute_writes s red "none" ones "none")) s) in *.
  pose proof (SetShaderTexture_says tag s1 Hr) as H2.
  exists s1, (emits (reverse (texture_writes s1 tag)) s1).
  repeat split; first [exact H1 | exact H2 | reflexivity].
Qed.

(** C4, on the registry [DefineObjectMaterials] builds. The tag "missing"
    is not among its six; yet [SetShaderMaterial "missing"] writes the five
    material uniforms, with the contents of its uninitialised local object:
    [FindMaterial] ends with [return(true)] whether it found the tag or not. *)
Theorem SetShaderMaterial_missing_tag_writes
    (sh : ShaderManager) (loaded0 : Z) (ids0 : nat -> Z) (context : list Event) :
  let s := state_after DefineObjectMaterials
             (new_SceneManager (Some sh) loaded0 ids0 context) in
  ("missing" ∉ (mat_tag <$> m_objectMaterials s))
  /\ FindMaterial "missing" indeterminate_material s = Ok ((true, indeterminate_material), s)
  /\ exists s',
      SetShaderMaterial "missing" s = Ok (tt, s')
      /\ history s' = history s ++ material_uniforms indeterminate_material.
Proof.
  intros s.
  assert (Hnot : "missing" ∉ mat_tag <$> m_objectMaterials s).
  { cbn. intros H. repeat (apply elem_of_cons in H as [H|H]; [discriminate|]).
    now apply elem_of_nil in H. }
  split; [exact Hnot|]. split.
  - rewrite FindMaterial_spec. now rewrite material_from_absent by exact Hnot.
  - apply says_history.
    pose proof (SetShaderMaterial_says "missing" s) as H.
    unfold material_writes in H.
    rewrite material_from_absent in H by exact Hnot.
    apply H. now exists sh.
Qed.

(** The same for any registry that is not empty and lacks the tag; with an
    empty registry nothing is written. *)
Lemma SetShaderMaterial_absent_tag materialTag s :
  is_Some (m_pShaderManager s) ->
  materialTag ∉ mat_tag <$> m_objectMaterials s ->
  says (SetShaderMaterial materialTag) s tt
    (if decide (m_objectMaterials s = []) then []
     else material_uniforms indeterminate_material).
Proof.
  intros Hsh Hnot. pose proof (SetShaderMaterial_says materialTag s Hsh) as H.
  unfold material_writes in H. rewrite material_from_absent in H by exact Hnot.
  destruct (m_objectMaterials s); [exact H|].
  now rewrite decide_False by discriminate.
Qed.

(** C5. Starting from an empty registry, after loading files that all
    decode, with distinct tags and no more of them than the array has
    entries, [FindTextureSlot] of the i-th tag loaded returns i (counting
    from 0) and [FindTextureSlot] of any tag that was not loaded returns
    -1; in both cases it returns normally and changes nothing. *)
Theorem FindTextureSlot_after_loading (loads : list (string * string)) (s0 : SceneManager) :
  m_loadedTextures s0 = 0 ->
  (length loads <= length (m_textureIDs s0))%nat ->
  Forall (fun ft => loadable (fst ft) = true) loads ->
  NoDup (snd <$> loads) ->
  exists s,
    load_in_order loads s0 = Ok (tt, s)
    /\ registry s = snd <$> loads
    /\ (forall (i : nat) (tag : string),
          (snd <$> loads) !! i = Some tag ->
          FindTextureSlot tag s = Ok (Z.of_nat i, s))
    /\ (forall tag : string,
          tag ∉ registry s -> FindTextureSlot tag s = Ok (-1, s)).
Proof.
  intros H0 Hlen Hall Hnd.
  destruct (load_in_order_registry loads s0) as (s & Hl & Hreg & Hcnt & Hlen' & _);
    [lia|lia|].
  assert (Hfilter : List.filter (fun ft => loadable (fst ft)) loads = loads).
  { clear -Hall. induction Hall as [|ft l Hft _ IH]; [reflexivity|].
    cbn. now rewrite Hft, IH. }
  assert (Hempty : registry s0 = []).
  { unfold registry, loaded. now rewrite H0. }
  rewrite Hfilter, Hempty in Hreg. cbn [app] in Hreg.
  assert (Hok : registry_ok s) by (unfold registry_ok; lia).
  exists s. split; [exact Hl|]. split; [exact Hreg|]. split.
  - intros i tag Hi. rewrite FindTextureSlot_spec by exact Hok.
    unfold slot_of. rewrite Hreg.
    rewrite (slot_from_lookup _ _ 0 i Hnd Hi). now rewrite Z.add_0_l.
  - intros tag Hnot. rewrite FindTextureSlot_spec by exact Hok.
    unfold slot_of. now rewrite slot_from_absent.
Qed.

(** C6, as the code has it. For every origin and from any state that is
    ready: [DrawJar] returns after issuing the calls of the table
    [jar_table], each sub-part drawn with the scale and rotation of its
    row and at the position origin + offset of its row, the sum taken
    component by component in [float]; the shapes and every uniform but the
    model matrix are the same for any two origins; an invocation that
    follows another issues exactly the calls it issues alone, and no member
    is changed, and its draws look the same as when it runs alone. Moving
    the origin by a delta moves every position by that
    delta when, for each row, (origin + delta) + offset and
    (origin + offset) + delta are the same [float]s. *)
Theorem DrawJar_positions_are_origin_plus_offset
    (origin origin' delta : vec3) (s : SceneManager) :
  ready s ->
  let run (o : vec3) := DrawJar (vec3_x o) (vec3_y o) (vec3_z o) in
  let seen (o : vec3) := draws_from (calls s) (jar_writes s o) in
  says (run origin) s tt (jar_writes s origin)
  /\ drawn_model <$> seen origin = part_model (place origin) <$> jar_table
  /\ without_model <$> seen origin = without_model <$> seen origin'
  /\ says (run origin') (state_after (run origin) s) tt (jar_writes s origin')
  /\ says (run origin') s tt (jar_writes s origin')
  /\ without_model <$> draws_from (calls (state_after (run origin) s))
                         (jar_writes s origin')
     = without_model <$> seen origin'
  /\ (Forall (fun p => place (place origin delta) (part_offset p)
                       = place (place origin (part_offset p)) delta) jar_table ->
      drawn_model <$> seen (place origin delta)
      = part_model (fun offset => place (place origin offset) delta) <$> jar_table).
Proof.
  intros Hr run seen. subst run seen. cbv beta.
  destruct origin as [x y z], origin' as [x' y' z']. cbn [vec3_x vec3_y vec3_z].
  pose proof (DrawJar_says x y z s Hr) as H1.
  pose proof (DrawJar_says x' y' z' s Hr) as H2.
  split; [exact H1|]. split; [apply jar_models|]. split; [apply jar_attributes|].
  split.
  { unfold state_after. rewrite H1.
    apply (DrawJar_says x' y' z' (emits _ s)). exact Hr. }
  split; [exact H2|].
  split.
  { unfold state_after. rewrite H1. apply jar_attributes_after. }
  intros Hcomm. rewrite jar_models. unfold part_model.
  apply list_eq_Forall2, Forall2_fmap, Forall_Forall2_diag.
  eapply Forall_impl; [exact Hcomm|]. intros p Hp. cbv beta. now rewrite Hp.
Qed.

(** C7. When the file does not decode, or decodes to a channel count other
    than 3 or 4, [CreateGLTexture] returns false and leaves the count and
    the entries as they were, so the registry has the tags it had; and
    [LoadSceneTextures], given room for its ten textures, returns after
    adding to the registry the tags of exactly those of its ten files that
    load, in order: a file that fails keeps no later one out. *)
Theorem texture_load_failure_is_local (filename tag : string) (s : SceneManager) :
  (loadable filename = false ->
   exists s',
     CreateGLTexture filename tag s = Ok (false, s')
     /\ m_loadedTextures s' = m_loadedTextures s
     /\ m_textureIDs s' = m_textureIDs s
     /\ registry s' = registry s)
  /\ (0 <= m_loadedTextures s ->
      m_loadedTextures s + 10 <= Z.of_nat (length (m_textureIDs s)) ->
      exists s',
        LoadSceneTextures s = Ok (tt, s')
        /\ registry s'
           = registry s ++ (snd <$> List.filter (fun ft => loadable (fst ft)) scene_textures)).
Proof.
  split.
  - intros Hl.
    destruct (CreateGLTexture_not_loadable filename tag s Hl) as (s' & Hc & Hcnt & Hids & _).
    exists s'. repeat split; try assumption.
    unfold registry, loaded. now rewrite Hcnt, Hids.
  - intros H0 Hroom.
    destruct (load_in_order_registry scene_textures s) as (s1 & Hl & Hreg & Hcnt & Hlen & _);
      [lia|cbn; lia|].
    destruct (BindGLTextures_says s1) as [evs Hb].
    { unfold registry_ok. cbn in Hcnt. lia. }
    exists (emits evs s1). split; [|exact Hreg].
    rewrite LoadSceneTextures_unfold. unfold mbind, M_bind at 1. now rewrite Hl.
Qed.

(** C9. For a file that loads and an array of 16 entries: with fewer than
    16 textures loaded (and a count that is not negative),
    [CreateGLTexture] returns true, has written the new entry at the index
    the count had, which is inside the array, has left every other entry and
    the size of the array alone, and has raised the count by exactly one,
    to at most 16; with 16 loaded the write falls outside the array, and
    nothing in the method checks for it. *)
Theorem CreateGLTexture_within_capacity (filename tag : string) (s : SceneManager) :
  loadable filename = true ->
  length (m_textureIDs s) = TEXTURE_SLOTS ->
  (0 <= m_loadedTextures s < 16 ->
   exists textureID s',
     CreateGLTexture filename tag s = Ok (true, s')
     /\ m_loadedTextures s' = m_loadedTextures s + 1
     /\ m_loadedTextures s' <= 16
     /\ (Z.to_nat (m_loadedTextures s) < TEXTURE_SLOTS)%nat
     /\ m_textureIDs s' !! Z.to_nat (m_loadedTextures s)
        = Some {| tex_tag := tag; tex_ID := textureID |}
     /\ (forall j : nat, j <> Z.to_nat (m_loadedTextures s) ->
         m_textureIDs s' !! j = m_textureIDs s !! j)
     /\ length (m_textureIDs s') = TEXTURE_SLOTS)
  /\ (m_loadedTextures s = 16 ->
      CreateGLTexture filename tag s = Undefined OutOfBounds).
Proof.
  intros Hl Hlen. unfold TEXTURE_SLOTS in *. split.
  - intros Hn.
    destruct (CreateGLTexture_loadable filename tag s Hl)
      as (id & s' & Hc & Hcnt & Hids & _); [lia|].
    exists id, s'. split; [exact Hc|]. split; [exact Hcnt|].
    split; [lia|]. split; [lia|]. rewrite Hids. split.
    { apply list_lookup_insert_eq. lia. }
    split.
    { intros j Hj. now apply list_lookup_insert_ne. }
    now rewrite length_insert.
  - intros Hn. apply CreateGLTexture_out_of_bounds; [exact Hl|lia].
Qed.

(** C10. For every tag, when the shader manager is there,
    [SetShaderTexture] first sets the use-texture flag to 1 and then sets
    the sampler to what the lookup returned; for a tag that is not in the
    registry that is -1, with the flag left at 1. *)
Theorem SetShaderTexture_enables_before_lookup (textureTag : string) (s : SceneManager) :
  ready s ->
  exists s',
    SetShaderTexture textureTag s = Ok (tt, s')
    /\ history s' = history s ++ [ Uniform "bUseTexture" (UInt 1);
                                   Uniform "objectTexture" (USampler2D (slot_of s textureTag)) ]
    /\ uniform "bUseTexture" (calls s') = Some (UInt 1)
    /\ (textureTag ∉ registry s ->
        uniform "objectTexture" (calls s') = Some (USampler2D (-1))).
Proof.
  intros Hr. pose proof (SetShaderTexture_says textureTag s Hr) as H.
  exists (emits (reverse (texture_writes s textureTag)) s).
  split; [exact H|]. split; [now rewrite history_emits, reverse_involutive|].
  split; [reflexivity|]. intros Hnot. cbn.
  unfold slot_of. now rewrite slot_from_absent.
Qed.

(** *** More of the texture registry *)

Lemma slot_from_found tags tag index :
  0 <= index ->
  slot_from tags tag index <> -1 ->
  exists i : nat,
    slot_from tags tag index = index + Z.of_nat i
    /\ tags !! i = Some tag
    /\ forall j : nat, (j < i)%nat -> tags !! j <> Some tag.
Proof.
  revert index. induction tags as [|t tags IH]; intros index Hidx Hne; [easy|].
  simpl in *. destruct (decide (t = tag)) as [->|Hd].
  - exists 0%nat. split; [lia|]. split; [reflexivity|]. intros j Hj. lia.
  - destruct (IH (index + 1)) as (i & Hi & Hlook & Hfirst); [lia|exact Hne|].
    exists (S i). split; [lia|]. split; [exact Hlook|].
    intros [|j] Hj; simpl; [congruence|]. apply Hfirst. lia.
Qed.

Lemma slot_from_none tags tag index :
  0 <= index -> slot_from tags tag index = -1 -> tag ∉ tags.
Proof.
  revert index. induction tags as [|t tags IH]; intros index Hidx H.
  - apply not_elem_of_nil.
  - simpl in H. destruct (decide (t = tag)); [lia|].
    apply not_elem_of_cons. split; [congruence|]. apply (IH (index + 1)); [lia|exact H].
Qed.

Lemma slot_from_app tags tags' tag index :
  0 <= index ->
  slot_from (tags ++ tags') tag index
  = if decide (slot_from tags tag index = -1)
    then slot_from tags' tag (index + Z.of_nat (length tags))
    else slot_from tags tag index.
Proof.
  revert index. induction tags as [|t tags IH]; intros index Hidx.
  - cbn [app slot_from length]. rewrite decide_True by reflexivity. now rewrite Z.add_0_r.
  - cbn [app slot_from length]. destruct (decide (t = tag)).
    + rewrite decide_False by lia. reflexivity.
    + rewrite IH by lia.
      replace (index + 1 + Z.of_nat (length tags)) with (index + Z.of_nat (S (length tags)))
        by lia.
      reflexivity.
Qed.

Lemma FindTextureID_loop_found fuel tag textureID index s :
  FindTextureID_loop fuel tag textureID index true s = Ok (textureID, s).
Proof. destruct fuel; cbn; run; rewrite andb_false_r; reflexivity. Qed.

Lemma FindTextureID_loop_spec fuel tag : forall index s,
  0 <= index -> registry_ok s ->
  (Z.to_nat (m_loadedTextures s - index) < fuel)%nat ->
  FindTextureID_loop fuel tag (-1) index false s
  = Ok (id_from (drop (Z.to_nat index) (loaded s)) tag, s).
Proof.
  induction fuel as [|fuel IH]; intros index s Hidx Hok Hfuel; [lia|].
  cbn; run. rewrite andb_true_r.
  destruct (index <? m_loadedTextures s) eqn:Hlt.
  - apply Z.ltb_lt in Hlt.
    unfold textureIDs_at. rewrite (proj2 (Z.leb_le 0 index) Hidx).
    destruct (m_textureIDs s !! Z.to_nat index) as [e|] eqn:He.
    2:{ apply lookup_ge_None_1 in He. unfold registry_ok in Hok. lia. }
    assert (Hl : loaded s !! Z.to_nat index = Some e).
    { unfold loaded. rewrite lookup_take_lt by lia. exact He. }
    rewrite (drop_S _ _ _ Hl). simpl.
    destruct (std_compare (tex_tag e) tag =? 0) eqn:Hcmp.
    + apply Z.eqb_eq, std_compare_eq in Hcmp.
      rewrite decide_True by assumption.
      apply FindTextureID_loop_found.
    + apply Z.eqb_neq in Hcmp.
      rewrite decide_False by (intros E; apply Hcmp, std_compare_eq, E).
      rewrite IH by (assumption || lia).
      replace (Z.to_nat (index + 1)) with (S (Z.to_nat index)) by lia.
      reflexivity.
  - apply Z.ltb_ge in Hlt.
    rewrite drop_ge; [reflexivity|].
    unfold loaded, registry_ok in *. rewrite length_take. lia.
Qed.

Lemma id_from_slot entries tag index :
  0 <= index ->
  (slot_from (tex_tag <$> entries) tag index = -1 /\ id_from entries tag = -1)
  \/ (exists e, entries !! Z.to_nat (slot_from (tex_tag <$> entries) tag index - index) = Some e
                /\ index <= slot_from (tex_tag <$> entries) tag index
                /\ id_from entries tag = uint32_to_int (tex_ID e)).
Proof.
  revert index. induction entries as [|e entries IH]; intros index Hidx; [now left|].
  rewrite fmap_cons. cbn [slot_from id_from]. destruct (decide (tex_tag e = tag)).
  - right. exists e. rewrite Z.sub_diag. split; [reflexivity|]. split; [lia|reflexivity].
  - destruct (IH (index + 1)) as [[H1 H2]|(e' & Hl & Hle & Hid)]; [lia|now left|].
    right. exists e'. split; [|split; [lia|exact Hid]].
    replace (Z.to_nat (slot_from (tex_tag <$> entries) tag (index + 1) - index))
      with (S (Z.to_nat (slot_from (tex_tag <$> entries) tag (index + 1) - (index + 1))))
      by lia.
    exact Hl.
Qed.

(** X1. From a state whose count is within the array, [FindTextureSlot]
    returns normally and changes nothing; the result is -1 exactly when no
    entry in use has the tag, and otherwise it is the index, below the
    count, of the first entry in use that has it. *)
Theorem FindTextureSlot_finds_the_first (tag : string) (s : SceneManager) :
  registry_ok s ->
  exists r,
    FindTextureSlot tag s = Ok (r, s)
    /\ ((r = -1 /\ tag ∉ registry s)
        \/ (0 <= r < m_loadedTextures s
            /\ tex_tag <$> (m_textureIDs s !! Z.to_nat r) = Some tag
            /\ forall j : nat, (j < Z.to_nat r)%nat -> registry s !! j <> Some tag)).
Proof.
  intros Hok. exists (slot_of s tag). split; [now apply FindTextureSlot_spec|].
  unfold slot_of. destruct (decide (slot_from (registry s) tag 0 = -1)) as [E|E].
  - left. split; [exact E|]. now apply (slot_from_none _ _ 0).
  - right. destruct (slot_from_found (registry s) tag 0) as (i & Hi & Hlook & Hfirst);
      [lia|exact E|].
    rewrite Hi, Z.add_0_l, Nat2Z.id.
    assert (Hlt : (i < length (registry s))%nat) by (apply lookup_lt_is_Some; eauto).
    rewrite length_registry in Hlt by exact Hok.
    split; [lia|]. split; [|exact Hfirst].
    rewrite <- registry_lookup by lia. exact Hlook.
Qed.

(** X2. [FindTextureID] goes with [FindTextureSlot]: from a state whose
    count is within the array both return normally and change nothing;
    when the slot is -1 the ID is -1, and otherwise the ID is the [ID]
    member of the entry at that slot, read as an [int]. *)
Theorem FindTextureID_is_the_ID_at_the_slot (tag : string) (s : SceneManager) :
  registry_ok s ->
  exists slot id,
    FindTextureSlot tag s = Ok (slot, s)
    /\ FindTextureID tag s = Ok (id, s)
    /\ ((slot = -1 /\ id = -1)
        \/ exists e, m_textureIDs s !! Z.to_nat slot = Some e
                     /\ 0 <= slot < m_loadedTextures s
                     /\ id = uint32_to_int (tex_ID e)).
Proof.
  intros Hok. exists (slot_of s tag), (id_from (loaded s) tag).
  split; [now apply FindTextureSlot_spec|]. split.
  { unfold FindTextureID, mbind, M_bind, get. cbv beta iota.
    rewrite FindTextureID_loop_spec by (assumption || lia). reflexivity. }
  unfold slot_of, registry.
  destruct (id_from_slot (loaded s) tag 0) as [[H1 H2]|(e & Hl & Hle & Hid)]; [lia|now left|].
  right. exists e. rewrite Z.sub_0_r in Hl.
  assert (Hlt : (Z.to_nat (slot_from (tex_tag <$> loaded s) tag 0) < length (loaded s))%nat)
    by (apply lookup_lt_is_Some; eauto).
  unfold loaded in *. rewrite length_take in Hlt.
  rewrite lookup_take_lt in Hl by lia.
  split; [exact Hl|]. split; [|exact Hid]. unfold registry_ok in Hok. lia.
Qed.

(** X3. Loading one more texture, when there is room, leaves every
    earlier lookup as it was: a tag that had a slot keeps it, also when it
    is the tag just loaded again (the new entry is then never found); the
    new tag, when it had none, gets the old count; every other tag still
    has none. *)
Theorem CreateGLTexture_keeps_earlier_slots (filename tag : string) (s : SceneManager) :
  loadable filename = true ->
  0 <= m_loadedTextures s < Z.of_nat (length (m_textureIDs s)) ->
  exists s',
    CreateGLTexture filename tag s = Ok (true, s')
    /\ forall t r,
         FindTextureSlot t s = Ok (r, s) ->
         FindTextureSlot t s'
         = Ok (if decide (r = -1)
               then (if decide (t = tag) then m_loadedTextures s else -1)
               else r, s').
Proof.
  intros Hl Hn.
  destruct (CreateGLTexture_registry filename tag s Hn)
    as (s' & Hc & Hreg & Hcnt & Hlen & _ & _).
  rewrite Hl in *. exists s'. split; [exact Hc|]. intros t r Hr.
  rewrite FindTextureSlot_spec in Hr by (unfold registry_ok; lia).
  injection Hr as <-.
  rewrite FindTextureSlot_spec by (unfold registry_ok; lia).
  f_equal. f_equal. unfold slot_of. rewrite Hreg, slot_from_app by lia.
  rewrite length_registry by (unfold registry_ok; lia).
  destruct (decide (slot_from (registry s) t 0 = -1)); [|reflexivity].
  simpl. destruct (decide (tag = t)) as [->|Hne].
  - rewrite decide_True by reflexivity. lia.
  - rewrite decide_False by congruence. reflexivity.
Qed.

Lemma load_in_order_overflows loads : forall s,
  Forall (fun ft => loadable (fst ft) = true) loads ->
  0 <= m_loadedTextures s <= Z.of_nat (length (m_textureIDs s)) ->
  Z.of_nat (length (m_textureIDs s)) < m_loadedTextures s + Z.of_nat (length loads) ->
  load_in_order loads s = Undefined OutOfBounds.
Proof.
  induction loads as [|[filename tag] loads IH]; intros s Hall Hn Hover.
  - simpl in Hover. lia.
  - apply Forall_cons in Hall as [Hl Hall]. simpl in Hl.
    cbn [load_in_order]. unfold mbind, M_bind at 1.
    destruct (decide (m_loadedTextures s = Z.of_nat (length (m_textureIDs s)))) as [E|E].
    + rewrite CreateGLTexture_out_of_bounds by (assumption || lia). reflexivity.
    + destruct (CreateGLTexture_loadable filename tag s Hl) as (id & s' & -> & Hcnt & Hids & _);
        [lia|].
      apply IH; [exact Hall| |]; rewrite Hcnt, Hids, length_insert; cbn [length] in Hover; lia.
Qed.

(** X4. [LoadSceneTextures] does not test the count: when its ten files
    all load and fewer than ten entries of the array are free, it runs into
    the write outside the array. So it is with a second call on the
    16-entry array. *)
Theorem LoadSceneTextures_overflows (s : SceneManager) :
  Forall (fun ft => loadable (fst ft) = true) scene_textures ->
  0 <= m_loadedTextures s <= Z.of_nat (length (m_textureIDs s)) ->
  Z.of_nat (length (m_textureIDs s)) < m_loadedTextures s + 10 ->
  LoadSceneTextures s = Undefined OutOfBounds.
Proof.
  intros Hall Hn Hover. rewrite LoadSceneTextures_unfold.
  unfold mbind, M_bind. rewrite load_in_order_overflows; [reflexivity|exact Hall|exact Hn|].
  exact Hover.
Qed.

Lemma drop_loaded_ge i s :
  m_loadedTextures s <= i -> drop (Z.to_nat i) (loaded s) = [].
Proof.
  intros H. apply drop_ge. unfold loaded. rewrite length_take. lia.
Qed.

Lemma textureIDs_at_says i e s :
  0 <= i -> m_textureIDs s !! Z.to_nat i = Some e -> says (textureIDs_at i) s e [].
Proof.
  intros Hi He. apply says_silent. unfold textureIDs_at.
  now rewrite (proj2 (Z.leb_le 0 i) Hi), He.
Qed.

Lemma BindGLTextures_from_calls fuel : forall i s,
  0 <= i -> registry_ok s ->
  (Z.to_nat (m_loadedTextures s - i) <= fuel)%nat ->
  says (BindGLTextures_from fuel i) s tt (bind_calls i (drop (Z.to_nat i) (loaded s))).
Proof.
  induction fuel as [|fuel IH]; intros i s Hi Hok Hfuel.
  - cbn [BindGLTextures_from]. eapply says_bind_silent; [apply says_get|]. cbv beta.
    rewrite (proj2 (Z.ltb_ge i (m_loadedTextures s))) by lia.
    rewrite drop_loaded_ge by lia. apply says_ret.
  - cbn [BindGLTextures_from]. eapply says_bind_silent; [apply says_get|]. cbv beta.
    destruct (i <? m_loadedTextures s) eqn:Hlt.
    + apply Z.ltb_lt in Hlt.
      destruct (lookup_lt_is_Some_2 (m_textureIDs s) (Z.to_nat i)) as [e He];
        [unfold registry_ok in Hok; lia|].
      assert (Hl : loaded s !! Z.to_nat i = Some e).
      { unfold loaded. rewrite lookup_take_lt by lia. exact He. }
      rewrite (drop_S _ _ _ Hl). cbn [bind_calls].
      apply (says_bind _ _ _ tt [_] tt (_ :: _)); [apply says_emit|].
      eapply says_bind_silent; [apply textureIDs_at_says; [exact Hi|exact He]|].
      apply (says_bind _ _ _ tt [_] tt _); [apply says_emit|].
      replace (S (Z.to_nat i)) with (Z.to_nat (i + 1)) by lia.
      refine (IH (i + 1) _ _ _ _); [lia|exact Hok|cbn; lia].
    + apply Z.ltb_ge in Hlt.
      rewrite drop_loaded_ge by lia. apply says_ret.
Qed.

Lemma bound_to_bind_calls entries : forall i unit active bound,
  bound_to unit active bound (bind_calls i entries)
  = match (if decide (i <= unit) then entries !! Z.to_nat (unit - i) else None) with
    | Some e => Some (tex_ID e)
    | None => bound
    end.
Proof.
  induction entries as [|e entries IH]; intros i unit active bound.
  - cbn. now destruct (decide (i <= unit)).
  - cbn [bind_calls bound_to]. rewrite IH.
    destruct (decide (i + 1 <= unit)) as [H1|H1].
    + rewrite decide_True by lia.
      replace (Z.to_nat (unit - i)) with (S (Z.to_nat (unit - (i + 1)))) by lia.
      cbn [lookup list_lookup].
      destruct (entries !! Z.to_nat (unit - (i + 1))); [reflexivity|].
      now rewrite (proj2 (Z.eqb_neq i unit)) by lia.
    + destruct (decide (i <= unit)) as [H2|H2].
      * replace unit with i by lia. now rewrite Z.eqb_refl, Z.sub_diag.
      * now rewrite (proj2 (Z.eqb_neq i unit)) by lia.
Qed.

(** X5. [BindGLTextures] issues, for each entry in use in turn, the
    selection of the texture unit with the entry's index and the binding of
    the entry's texture: whatever was active or bound before, afterwards
    unit [i] has the texture of slot [i], for every slot below the count.
    No member changes. *)
Theorem BindGLTextures_binds_unit_to_slot (s : SceneManager) :
  registry_ok s ->
  exists evs,
    says BindGLTextures s tt evs
    /\ forall (i : nat) e,
         Z.of_nat i < m_loadedTextures s ->
         m_textureIDs s !! i = Some e ->
         forall active bound, bound_to (Z.of_nat i) active bound evs = Some (tex_ID e).
Proof.
  intros Hok. exists (bind_calls 0 (loaded s)). split.
  - unfold BindGLTextures. eapply says_bind_silent; [apply says_get|]. cbv beta.
    apply (BindGLTextures_from_calls _ 0 s); [lia|exact Hok|lia].
  - intros i e Hi He active bound. rewrite bound_to_bind_calls.
    rewrite decide_True by lia. rewrite Z.sub_0_r, Nat2Z.id.
    unfold loaded. rewrite lookup_take_lt by lia. now rewrite He.
Qed.

Lemma DestroyGLTextures_from_spec fuel : forall i s,
  0 <= i -> registry_ok s ->
  (Z.to_nat (m_loadedTextures s - i) <= fuel)%nat ->
  exists s',
    DestroyGLTextures_from fuel i s = Ok (tt, s')
    /\ m_loadedTextures s' = m_loadedTextures s
    /\ tex_tag <$> m_textureIDs s' = tex_tag <$> m_textureIDs s
    /\ take (Z.to_nat i) (m_textureIDs s') = take (Z.to_nat i) (m_textureIDs s)
    /\ drop (Z.to_nat (m_loadedTextures s)) (m_textureIDs s')
       = drop (Z.to_nat (m_loadedTextures s)) (m_textureIDs s)
    /\ calls s'
       = reverse ((fun e => GL (glGenTextures (tex_ID e))) <$> drop (Z.to_nat i) (loaded s'))
         ++ calls s
    /\ m_pShaderManager s' = m_pShaderManager s
    /\ m_objectMaterials s' = m_objectMaterials s.
Proof.
  induction fuel as [|fuel IH]; intros i s Hi Hok Hfuel.
  - exists s. rewrite drop_loaded_ge by lia.
    cbn. run. rewrite (proj2 (Z.ltb_ge i (m_loadedTextures s))) by lia.
    repeat split; reflexivity.
  - cbn [DestroyGLTextures_from]. unfold mbind, M_bind at 1. unfold get at 1. cbv beta iota.
    destruct (i <? m_loadedTextures s) eqn:Hlt.
    2:{ apply Z.ltb_ge in Hlt. exists s.
        rewrite drop_loaded_ge by lia.
        repeat split; reflexivity. }
    apply Z.ltb_lt in Hlt.
    destruct (lookup_lt_is_Some_2 (m_textureIDs s) (Z.to_nat i)) as [e He];
      [unfold registry_ok in Hok; lia|].
    unfold mbind, M_bind, textureIDs_at, gen_texture, textureIDs_assign. cbn.
    rewrite (proj2 (Z.leb_le 0 i) Hi), He. cbn. rewrite He.
    match goal with
    | |- context [DestroyGLTextures_from fuel (i + 1) ?s2] =>
        destruct (IH (i + 1) s2) as (s' & Hrun & Hcnt & Htags & Htake & Hdrop & Hcalls & Hsh & Hmat);
        [lia | unfold registry_ok; cbn; rewrite length_insert; exact Hok | cbn; lia |]
    end.
    cbn in Hcnt, Htags, Htake, Hdrop, Hcalls, Hsh, Hmat.
    exists s'. split; [exact Hrun|].
    assert (Hi' : m_textureIDs s' !! Z.to_nat i
                  = Some {| tex_tag := tex_tag e; tex_ID := fresh_texture_name (calls s) |}).
    { rewrite <- (lookup_take_lt _ (Z.to_nat (i + 1))) by lia.
      rewrite Htake, lookup_take_lt by lia.
      apply list_lookup_insert_eq. apply lookup_lt_is_Some. eauto. }
    split; [exact Hcnt|]. split.
    { rewrite Htags, list_fmap_insert. cbn. apply list_insert_id.
      rewrite list_lookup_fmap, He. reflexivity. }
    split.
    { pose proof (f_equal (take (Z.to_nat i)) Htake) as Ht.
      rewrite !take_take, Nat.min_l in Ht by lia.
      rewrite Ht. apply take_insert_ge. lia. }
    split.
    { rewrite Hdrop. apply drop_insert_lt. lia. }
    split; [|auto].
    rewrite Hcalls.
    assert (Hl : loaded s' !! Z.to_nat i
                 = Some {| tex_tag := tex_tag e; tex_ID := fresh_texture_name (calls s) |}).
    { unfold loaded. rewrite lookup_take_lt by lia. exact Hi'. }
    rewrite (drop_S _ _ _ Hl). replace (Z.to_nat (i + 1)) with (S (Z.to_nat i)) by lia.
    rewrite fmap_cons, reverse_cons, <- app_assoc. reflexivity.
Qed.

(** X6. [DestroyGLTextures] deletes nothing: for each entry in use it
    asks for a new texture name and stores it in the entry. From a state
    whose count is within the array it returns normally; the calls it adds
    are one [glGenTextures] per entry in use, in slot order, each with the
    name the entry holds afterwards; the count, every tag, the entries
    beyond the count, the shader manager and the materials stay, so every
    tag is still found at its slot. *)
Theorem DestroyGLTextures_generates_names (s : SceneManager) :
  registry_ok s ->
  exists s',
    DestroyGLTextures s = Ok (tt, s')
    /\ history s' = history s ++ ((fun e => GL (glGenTextures (tex_ID e))) <$> loaded s')
    /\ m_loadedTextures s' = m_loadedTextures s
    /\ tex_tag <$> m_textureIDs s' = tex_tag <$> m_textureIDs s
    /\ drop (Z.to_nat (m_loadedTextures s)) (m_textureIDs s')
       = drop (Z.to_nat (m_loadedTextures s)) (m_textureIDs s)
    /\ m_pShaderManager s' = m_pShaderManager s
    /\ m_objectMaterials s' = m_objectMaterials s
    /\ forall t r, FindTextureSlot t s = Ok (r, s) -> FindTextureSlot t s' = Ok (r, s').
Proof.
  intros Hok. unfold DestroyGLTextures, mbind, M_bind, get. cbv beta iota.
  destruct (DestroyGLTextures_from_spec (Z.to_nat (m_loadedTextures s)) 0 s)
    as (s' & Hrun & Hcnt & Htags & _ & Hdrop & Hcalls & Hsh & Hmat); [lia|exact Hok|lia|].
  exists s'. split; [exact Hrun|]. split.
  { unfold history. rewrite Hcalls, reverse_app, reverse_involutive. reflexivity. }
  do 5 (split; [assumption|]).
  intros t r Hr.
  assert (Hok' : registry_ok s').
  { unfold registry_ok in *. rewrite Hcnt.
    rewrite <- (length_fmap tex_tag (m_textureIDs s')), Htags, length_fmap. exact Hok. }
  rewrite FindTextureSlot_spec in Hr by exact Hok. injection Hr as <-.
  rewrite FindTextureSlot_spec by exact Hok'.
  f_equal. f_equal. unfold slot_of, registry, loaded.
  now rewrite !fmap_take, Htags, Hcnt.
Qed.

(** *** More of the material registry *)

Lemma material_from_first mats tag material (i : nat) m :
  mats !! i = Some m ->
  mat_tag m = tag ->
  (forall (j : nat) m', (j < i)%nat -> mats !! j = Some m' -> mat_tag m' <> tag) ->
  material_from mats tag material = copy_fields m material.
Proof.
  revert i. induction mats as [|m0 mats IH]; intros i Hi Htag Hfirst; [discriminate|].
  cbn [material_from]. destruct i as [|i]; cbn in Hi.
  - injection Hi as ->. now rewrite decide_True.
  - rewrite decide_False by (apply (Hfirst 0%nat); [lia|reflexivity]).
    apply (IH i Hi Htag). intros j m' Hj. apply (Hfirst (S j)). lia.
Qed.

Lemma material_from_tag mats tag material :
  mat_tag (material_from mats tag material) = mat_tag material.
Proof.
  induction mats as [|m mats IH]; [reflexivity|].
  cbn [material_from]. now destruct (decide (mat_tag m = tag)).
Qed.

Lemma material_from_app mats mats' tag material :
  material_from (mats ++ mats') tag material
  = if decide (tag ∈ mat_tag <$> mats)
    then material_from mats tag material
    else material_from mats' tag material.
Proof.
  induction mats as [|m mats IH].
  - cbn. rewrite decide_False by apply not_elem_of_nil. reflexivity.
  - cbn [app material_from]. rewrite fmap_cons.
    destruct (decide (mat_tag m = tag)) as [E|E].
    + rewrite decide_True by (apply elem_of_cons; left; congruence). reflexivity.
    + rewrite IH. destruct (decide (tag ∈ mat_tag <$> mats)) as [Hin|Hin].
      * rewrite decide_True by (apply elem_of_cons; right; assumption). reflexivity.
      * rewrite decide_False; [reflexivity|].
        intros H. apply elem_of_cons in H as [H|H]; [congruence|contradiction].
Qed.

(** X7. [FindMaterial] always returns, changing nothing, and never goes
    outside the vector. Its answer is [false] exactly for an empty
    registry. The caller's object keeps its tag; it receives the five
    fields of the first material with the tag, and stays as it was when no
    material has the tag. *)
Theorem FindMaterial_copies_the_first_match
    (tag : string) (material : OBJECT_MATERIAL) (s : SceneManager) :
  exists material',
    FindMaterial tag material s = Ok ((bool_decide (m_objectMaterials s <> []), material'), s)
    /\ mat_tag material' = mat_tag material
    /\ (tag ∉ mat_tag <$> m_objectMaterials s -> material' = material)
    /\ forall (i : nat) m,
         m_objectMaterials s !! i = Some m ->
         mat_tag m = tag ->
         (forall (j : nat) m', (j < i)%nat -> m_objectMaterials s !! j = Some m' -> mat_tag m' <> tag) ->
         material'
         = {| ambientStrength := ambientStrength m;
              ambientColor := ambientColor m;
              diffuseColor := diffuseColor m;
              specularColor := specularColor m;
              shininess := shininess m;
              mat_tag := mat_tag material |}.
Proof.
  exists (material_from (m_objectMaterials s) tag material).
  split; [apply FindMaterial_spec|].
  split; [apply material_from_tag|].
  split; [apply material_from_absent|].
  intros i m Hi Htag Hfirst. now rewrite (material_from_first _ _ _ i m).
Qed.

(** X8. For a tag that is registered, [SetShaderMaterial] uploads the
    five values of the first material with that tag, in the order ambient
    colour, ambient strength, diffuse colour, specular colour, shininess,
    and nothing else; no member changes. *)
Theorem SetShaderMaterial_uploads_the_first_match
    (materialTag : string) (s : SceneManager) (i : nat) (m : OBJECT_MATERIAL) :
  is_Some (m_pShaderManager s) ->
  m_objectMaterials s !! i = Some m ->
  mat_tag m = materialTag ->
  (forall (j : nat) m', (j < i)%nat -> m_objectMaterials s !! j = Some m' -> mat_tag m' <> materialTag) ->
  SetShaderMaterial materialTag s
  = Ok (tt, emits [ Uniform "material.shininess" (UFloat (shininess m));
                    Uniform "material.specularColor" (UVec3 (specularColor m));
                    Uniform "material.diffuseColor" (UVec3 (diffuseColor m));
                    Uniform "material.ambientStrength" (UFloat (ambientStrength m));
                    Uniform "material.ambientColor" (UVec3 (ambientColor m)) ] s).
Proof.
  intros Hsh Hi Htag Hfirst.
  pose proof (SetShaderMaterial_says materialTag s Hsh) as H.
  unfold says, material_writes in H.
  rewrite (material_from_first _ _ _ i m Hi Htag Hfirst) in H.
  destruct (m_objectMaterials s); [discriminate|]. exact H.
Qed.

(** X9. A colour set after a texture switches texturing off again:
    after [SetShaderTexture] and then [SetShaderColor], [bUseTexture] is 0
    and the colour is the one given, while the sampler still holds the slot
    of the tag. *)
Theorem SetShaderColor_switches_texturing_off
    (textureTag : string) (r g b a : float) (s : SceneManager) :
  ready s ->
  exists s1 s2 slot,
    FindTextureSlot textureTag s = Ok (slot, s)
    /\ SetShaderTexture textureTag s = Ok (tt, s1)
    /\ SetShaderColor r g b a s1 = Ok (tt, s2)
    /\ uniform g_UseTextureName (calls s2) = Some (UInt 0)
    /\ uniform g_ColorValueName (calls s2) = Some (UVec4 (Vec4 r g b a))
    /\ uniform g_TextureValueName (calls s2) = Some (USampler2D slot).
Proof.
  intros Hr. pose proof Hr as [Hsh Hok].
  pose proof (SetShaderTexture_says textureTag s Hr) as H1.
  pose proof (SetShaderColor_says r g b a (emits (reverse (texture_writes s textureTag)) s) Hsh) as H2.
  eexists _, _, _. split; [now apply FindTextureSlot_spec|].
  split; [exact H1|]. split; [exact H2|]. repeat split.
Qed.

Lemma DefineObjectMaterials_appends :
  exists six,
    mat_tag <$> six = ["glass"; "wood"; "plastic"; "stone"; "metal"; "organic"]
    /\ forall s, exists s',
         DefineObjectMaterials s = Ok (tt, s')
         /\ m_objectMaterials s' = m_objectMaterials s ++ six
         /\ m_pShaderManager s' = m_pShaderManager s
         /\ m_loadedTextures s' = m_loadedTextures s
         /\ m_textureIDs s' = m_textureIDs s
         /\ calls s' = calls s.
Proof.
  refine (ex_intro _ [_; _; _; _; _; _] _).
  apply and_comm. split.
  - intros s. eexists. split.
    + unfold DefineObjectMaterials.
      cbv beta iota zeta delta
        [objectMaterials_push_back mbind M_bind m_pShaderManager m_basicMeshes
         m_loadedTextures m_textureIDs m_objectMaterials calls].
      reflexivity.
    + cbv [m_objectMaterials m_pShaderManager m_loadedTextures m_textureIDs calls].
      rewrite <- !app_assoc. cbn [app].
      split; [reflexivity|]. auto.
  - reflexivity.
Qed.

(** X10. [DefineObjectMaterials] appends its six materials each time it
    is called, without looking at what is there: after a second call the
    registry is six entries longer, and every lookup answers as after the
    first, the later copies never being reached. *)
Theorem DefineObjectMaterials_again_changes_no_lookup
    (tag : string) (material : OBJECT_MATERIAL) (s : SceneManager) :
  exists s1 s2 r,
    DefineObjectMaterials s = Ok (tt, s1)
    /\ DefineObjectMaterials s1 = Ok (tt, s2)
    /\ length (m_objectMaterials s1) = (length (m_objectMaterials s) + 6)%nat
    /\ length (m_objectMaterials s2) = (length (m_objectMaterials s) + 12)%nat
    /\ FindMaterial tag material s1 = Ok (r, s1)
    /\ FindMaterial tag material s2 = Ok (r, s2).
Proof.
  destruct DefineObjectMaterials_appends as (six & Htags & Happ).
  destruct (Happ s) as (s1 & H1 & Hm1 & _).
  destruct (Happ s1) as (s2 & H2 & Hm2 & _).
  assert (Hlen : length six = 6%nat)
    by (rewrite <- (length_fmap mat_tag), Htags; reflexivity).
  exists s1, s2. eexists. split; [exact H1|]. split; [exact H2|].
  split; [rewrite Hm1, length_app; lia|].
  split; [rewrite Hm2, Hm1, !length_app; lia|].
  split; [apply FindMaterial_spec|].
  rewrite FindMaterial_spec. f_equal. f_equal. f_equal.
  - rewrite Hm2, Hm1. destruct six; [discriminate|].
    rewrite !bool_decide_true; [reflexivity| |];
      intros E; apply (f_equal length) in E; rewrite !length_app in E; cbn in E; lia.
  - rewrite Hm2, material_from_app.
    destruct (decide (tag ∈ mat_tag <$> m_objectMaterials s1)) as [Hin|Hin]; [reflexivity|].
    rewrite (material_from_absent _ _ _ Hin).
    apply material_from_absent. intros H. apply Hin.
    rewrite Hm1, fmap_app. apply elem_of_app. now right.
Qed.

(** *** The lights and the preparation of the scene *)

Ltac setters H :=
  first [ apply says_setter; exact H
        | eapply says_bind; [apply says_setter; exact H | setters H] ].

(** X11. With a shader manager, [SetupSceneLights] issues nineteen
    uniform writes and changes no member: it switches [bUseLighting] on, and
    it writes none of the uniforms a draw is taken with (model, colour,
    texture flag, sampler, UV scale, material), whatever they held. *)
Theorem SetupSceneLights_leaves_the_draw_uniforms (s : SceneManager) :
  is_Some (m_pShaderManager s) ->
  exists evs,
    says SetupSceneLights s tt evs
    /\ length evs = 19%nat
    /\ forall context,
         uniform g_UseLightingName (reverse evs ++ context) = Some (UInt 1)
         /\ forall shape, snapshot shape (reverse evs ++ context) = snapshot shape context.
Proof.
  intros Hsh. eexists. split.
  - unfold SetupSceneLights. setters Hsh.
  - split; [reflexivity|]. intros context. split; [reflexivity|].
    intros shape. reflexivity.
Qed.

(** X12. [SetupSceneLights] calls through [m_pShaderManager] without a
    test. Without a shader manager it is a null dereference at its first
    statement, and so is [PrepareScene], after the textures and the
    materials have been set up, whatever the mesh library does. *)
Theorem PrepareScene_without_shader_manager
    (load : MeshLoad -> ShapeMeshes -> M unit) (s : SceneManager) :
  m_pShaderManager s = None ->
  0 <= m_loadedTextures s ->
  m_loadedTextures s + 10 <= Z.of_nat (length (m_textureIDs s)) ->
  SetupSceneLights s = Undefined NullPointer
  /\ PrepareScene load s = Undefined NullPointer.
Proof.
  intros Hsh H0 Hroom.
  assert (Hlights : forall s', m_pShaderManager s' = None ->
                               SetupSceneLights s' = Undefined NullPointer).
  { intros s' H. unfold SetupSceneLights, setBoolValue, mbind, M_bind, get.
    now rewrite H. }
  split; [now apply Hlights|].
  unfold PrepareScene. unfold mbind at 1, M_bind at 1.
  rewrite LoadSceneTextures_unfold. unfold mbind at 1, M_bind at 1.
  destruct (load_in_order_registry scene_textures s H0 Hroom)
    as (s1 & -> & _ & Hcnt & Hlen & Hsh1 & _).
  destruct (BindGLTextures_says s1) as [evs ->].
  { unfold registry_ok. rewrite Hlen. cbn [length scene_textures] in Hcnt. lia. }
  unfold mbind at 1, M_bind at 1.
  destruct DefineObjectMaterials_appends as (six & _ & Happ).
  destruct (Happ (emits evs s1)) as (s2 & -> & _ & Hsh2 & _).
  unfold mbind at 1, M_bind at 1.
  rewrite Hlights; [reflexivity|]. rewrite Hsh2. cbn. now rewrite Hsh1.
Qed.

(** *** The frame *)

(** The methods that draw neither change a member nor look at the calls
    made so far: what they issue after some calls [c] is stated from the
    state before those calls. *)
Lemma says_bind_after {A B} (m : M A) (f : A -> M B) s c a e1 b e2 :
  says m (emits c s) a e1 ->
  says (f a) (emits (reverse e1 ++ c) s) b e2 ->
  says (m ≫= f) (emits c s) b (e1 ++ e2).
Proof.
  intros H1 H2. apply (says_bind m f (emits c s) a e1 b e2); [exact H1|].
  now rewrite emits_emits.
Qed.

Lemma says_start {A} (m : M A) s a evs : says m (emits [] s) a evs -> says m s a evs.
Proof. now rewrite emits_nil. Qed.

Lemma attributes_after colorRGBA texture UVscale material c s :
  ready s ->
  says (SetShaderAttributes colorRGBA texture UVscale material) (emits c s) tt
       (attribute_writes s colorRGBA texture UVscale material).
Proof. intros Hr. exact (SetShaderAttributes_says _ _ _ _ (emits c s) Hr). Qed.

Lemma texture_after tag c s :
  ready s -> says (SetShaderTexture tag) (emits c s) tt (texture_writes s tag).
Proof. intros Hr. exact (SetShaderTexture_says tag (emits c s) Hr). Qed.

Lemma uv_after u v c s :
  is_Some (m_pShaderManager s) ->
  says (SetTextureUVScale u v) (emits c s) tt (uv_writes (Vec2 u v)).
Proof. intros H. exact (SetTextureUVScale_says u v (emits c s) H). Qed.

Lemma mesh_after scale rotation position meshObject (drawMeshFunction : MeshDrawFunction)
    c s evs :
  is_Some (m_pShaderManager s) ->
  (forall s', says (drawMeshFunction meshObject) s' tt evs) ->
  says (DrawMeshTransformation scale rotation position meshObject drawMeshFunction)
       (emits c s) tt (model_write scale rotation position ++ evs).
Proof. intros H Hd. exact (DrawMeshTransformation_says _ _ _ _ _ (emits c s) evs H Hd). Qed.

Lemma draws_from_under evs : forall context,
  draws_from context evs = draws_under (fun name => uniform name context) evs.
Proof.
  induction evs as [|ev evs IH]; intros context; [reflexivity|].
  destruct ev; cbn [draws_from draws_under]; try exact (IH _).
  f_equal. exact (IH _).
Qed.

Ltac walk Hr :=
  first
    [ apply attributes_after; exact Hr
    | apply uv_after; exact (proj1 Hr)
    | apply texture_after; exact Hr
    | apply mesh_after; [exact (proj1 Hr) | intros; apply says_emit]
    | apply says_emit
    | eapply says_bind_silent; [apply says_get|]; cbv beta; walk Hr
    | eapply says_bind_after; [walk Hr | walk Hr] ].

Ltac unfold_scene :=
  unfold RenderScene, DrawJar, DrawCup, DrawCucumber, DrawKnife; cbv zeta.

(** What the calls of a frame depend on is named before computing: the
    slots, the materials found, and the earlier calls. *)
Ltac name_scene s :=
  rewrite ?draws_from_under;
  unfold attribute_writes, material_writes, texture_writes, model_write;
  generalize model_matrix; intros model;
  generalize (slot_of s); intros slot;
  generalize (fun name => uniform name (calls s)); intros before.

(** X13. On a scene manager with a shader manager, the count within the
    array and at least one material, [RenderScene] returns normally,
    changes no member and draws 36 meshes; a frame that follows issues
    exactly the same calls; and every draw is taken with uniforms set within
    the frame: the draws are the same whatever calls came before. *)
Theorem RenderScene_frames_are_alike (s : SceneManager) :
  ready s ->
  m_objectMaterials s <> [] ->
  exists evs,
    says RenderScene s tt evs
    /\ says RenderScene (emits (reverse evs) s) tt evs
    /\ length (draws_from (calls s) evs) = 36%nat
    /\ forall context, draws_from context evs = draws_from (calls s) evs.
Proof.
  intros Hr Hm.
  assert (H : exists evs, (forall c, says RenderScene (emits c s) tt evs)
                          /\ length (draws_from (calls s) evs) = 36%nat
                          /\ forall context, draws_from context evs = draws_from (calls s) evs).
  { eexists. split; [intros c; unfold_scene; walk Hr|].
    name_scene s. destruct (m_objectMaterials s) as [|m0 ms]; [contradiction|].
    generalize (material_from (m0 :: ms)); intros found.
    split; [vm_compute; reflexivity|].
    intros context. rewrite draws_from_under.
    generalize (fun name => uniform name context); intros before'.
    vm_compute. reflexivity. }
  destruct H as (evs & Hsays & Hlen & Hdraws).
  exists evs. split; [apply says_start, Hsays|]. split; [apply Hsays|].
  split; assumption.
Qed.

(** *** Without a shader manager *)

Lemma SetShaderMaterial_null materialTag s :
  m_pShaderManager s = None ->
  SetShaderMaterial materialTag s
  = if decide (m_objectMaterials s = []) then Ok (tt, s) else Undefined NullPointer.
Proof.
  intros Hsh. unfold SetShaderMaterial, mbind, M_bind, get. cbv beta iota zeta.
  destruct (m_objectMaterials s) as [|m0 mats] eqn:Hmats.
  - reflexivity.
  - rewrite decide_True by (cbn; lia). rewrite decide_False by discriminate.
    rewrite FindMaterial_spec, Hmats. cbv beta iota.
    rewrite bool_decide_true by discriminate.
    unfold setVec3Value, mbind, M_bind, get. now rewrite Hsh.
Qed.

Lemma SetShaderColor_null r g b a s :
  m_pShaderManager s = None -> SetShaderColor r g b a s = Ok (tt, s).
Proof.
  intros Hsh. unfold SetShaderColor, mbind, M_bind, get. cbv beta iota zeta.
  now rewrite Hsh.
Qed.

Lemma SetShaderTexture_null tag s :
  m_pShaderManager s = None -> SetShaderTexture tag s = Ok (tt, s).
Proof.
  intros Hsh. unfold SetShaderTexture, mbind, M_bind, get. cbv beta iota.
  now rewrite Hsh.
Qed.

Lemma SetTextureUVScale_null u v s :
  m_pShaderManager s = None -> SetTextureUVScale u v s = Ok (tt, s).
Proof.
  intros Hsh. unfold SetTextureUVScale, mbind, M_bind, get. cbv beta iota.
  now rewrite Hsh.
Qed.

Lemma SetTransformations_skipped scale rx ry rz position s :
  m_pShaderManager s = None -> SetTransformations scale rx ry rz position s = Ok (tt, s).
Proof.
  intros Hsh. unfold SetTransformations, mbind, M_bind, get. cbv beta iota zeta.
  now rewrite Hsh.
Qed.

(** X14. Without a shader manager the colour, the texture and the UV
    scale are skipped, but [SetShaderMaterial] has no such test:
    [SetShaderAttributes] returns having done nothing when the material is
    "none" or the registry is empty, and is a null dereference otherwise,
    whatever the tag. *)
Theorem SetShaderAttributes_without_shader_manager
    (colorRGBA : vec4) (texture : string) (UVscale : vec2) (material : string)
    (s : SceneManager) :
  m_pShaderManager s = None ->
  SetShaderAttributes colorRGBA texture UVscale material s
  = if decide (material = "none" \/ m_objectMaterials s = [])
    then Ok (tt, s) else Undefined NullPointer.
Proof.
  intros Hsh. unfold SetShaderAttributes, mbind, M_bind.
  rewrite SetShaderColor_null by exact Hsh.
  assert (Ht : (if decide (texture = "none") then mret tt else SetShaderTexture texture) s
               = Ok (tt, s)).
  { destruct (decide (texture = "none")); [reflexivity|now apply SetShaderTexture_null]. }
  rewrite Ht, SetTextureUVScale_null by exact Hsh.
  destruct (decide (material = "none")).
  - rewrite decide_True by (now left). reflexivity.
  - rewrite SetShaderMaterial_null by exact Hsh.
    destruct (decide (m_objectMaterials s = [])).
    + rewrite decide_True by (now right). reflexivity.
    + rewrite decide_False by tauto. reflexivity.
Qed.

Lemma attributes_skipped colorRGBA texture UVscale s :
  m_pShaderManager s = None ->
  (SetShaderColor (vec4_x colorRGBA) (vec4_y colorRGBA) (vec4_z colorRGBA) (vec4_w colorRGBA);;
   (if decide (texture = "none") then mret tt else SetShaderTexture texture);;
   SetTextureUVScale (vec2_x UVscale) (vec2_y UVscale)) s
  = Ok (tt, s).
Proof.
  intros Hsh. unfold mbind, M_bind. rewrite SetShaderColor_null by exact Hsh.
  destruct (decide (texture = "none")).
  - unfold mret, M_ret. now apply SetTextureUVScale_null.
  - rewrite SetShaderTexture_null by exact Hsh. now apply SetTextureUVScale_null.
Qed.

Lemma attributes_silent colorRGBA texture UVscale material c s :
  m_pShaderManager s = None -> m_objectMaterials s = [] ->
  says (SetShaderAttributes colorRGBA texture UVscale material) (emits c s) tt [].
Proof.
  intros Hsh Hm. apply says_silent.
  pose proof (attributes_skipped colorRGBA texture UVscale (emits c s) Hsh) as H.
  unfold SetShaderAttributes, mbind, M_bind in *.
  destruct (SetShaderColor _ _ _ _ (emits c s)) as [[[] s1]|]; [|discriminate H].
  destruct ((if decide (texture = "none") then mret tt else SetShaderTexture texture) s1)
    as [[[] s2]|]; [|discriminate H].
  rewrite H. destruct (decide (material = "none")); [reflexivity|].
  rewrite SetShaderMaterial_null by exact Hsh.
  now rewrite decide_True by exact Hm.
Qed.

Lemma attributes_undefined colorRGBA texture UVscale material s :
  m_pShaderManager s = None -> material <> "none" -> m_objectMaterials s <> [] ->
  SetShaderAttributes colorRGBA texture UVscale material s = Undefined NullPointer.
Proof.
  intros Hsh Hn Hm.
  pose proof (attributes_skipped colorRGBA texture UVscale s Hsh) as H.
  unfold SetShaderAttributes, mbind, M_bind in *.
  destruct (SetShaderColor _ _ _ _ s) as [[[] s1]|]; [|discriminate H].
  destruct ((if decide (texture = "none") then mret tt else SetShaderTexture texture) s1)
    as [[[] s2]|]; [|discriminate H].
  rewrite H. rewrite decide_False by exact Hn.
  rewrite SetShaderMaterial_null by exact Hsh.
  now rewrite decide_False by exact Hm.
Qed.

Lemma texture_silent tag c s :
  m_pShaderManager s = None -> says (SetShaderTexture tag) (emits c s) tt [].
Proof.
  intros Hsh. apply says_silent. now apply SetShaderTexture_null.
Qed.

Lemma uv_silent u v c s :
  m_pShaderManager s = None -> says (SetTextureUVScale u v) (emits c s) tt [].
Proof.
  intros Hsh. apply says_silent. now apply SetTextureUVScale_null.
Qed.

Lemma mesh_alone scale rotation position meshObject (drawMeshFunction : MeshDrawFunction)
    c s evs :
  m_pShaderManager s = None ->
  (forall s', says (drawMeshFunction meshObject) s' tt evs) ->
  says (DrawMeshTransformation scale rotation position meshObject drawMeshFunction)
       (emits c s) tt evs.
Proof.
  intros Hsh Hd. unfold DrawMeshTransformation.
  eapply says_bind_silent; [|apply Hd].
  apply says_silent. now apply SetTransformations_skipped.
Qed.

Ltac walk_alone Hsh Hm :=
  first
    [ apply attributes_silent; [exact Hsh | exact Hm]
    | apply uv_silent; exact Hsh
    | apply texture_silent; exact Hsh
    | apply mesh_alone; [exact Hsh | intros; apply says_emit]
    | apply says_emit
    | eapply says_bind_silent; [apply says_get|]; cbv beta; walk_alone Hsh Hm
    | eapply says_bind_after; [walk_alone Hsh Hm | walk_alone Hsh Hm] ].

(** X15. Without a shader manager [RenderScene] is a null dereference
    as soon as the registry holds a material: its first statement asks for
    the material "stone". With an empty registry it returns normally and
    issues the 36 mesh draws and nothing else: no transformation and no
    attribute is uploaded for any of them. *)
Theorem RenderScene_without_shader_manager (s : SceneManager) :
  m_pShaderManager s = None ->
  (m_objectMaterials s <> [] -> RenderScene s = Undefined NullPointer)
  /\ (m_objectMaterials s = [] ->
      exists evs,
        says RenderScene s tt evs
        /\ length evs = 36%nat
        /\ Forall (fun ev => exists shape, ev = Draw shape) evs).
Proof.
  intros Hsh. split.
  - intros Hm. unfold RenderScene. unfold mbind at 1, M_bind at 1, get at 1.
    cbv beta iota. unfold mbind at 1, M_bind at 1.
    rewrite attributes_undefined; [reflexivity|exact Hsh|discriminate|exact Hm].
  - intros Hm. eexists. split; [apply says_start; unfold_scene; walk_alone Hsh Hm|].
    split; [reflexivity|].
    cbn [app]. repeat (apply Forall_cons_2; [eexists; reflexivity|]). apply Forall_nil_2.
Qed.

(** *** The cucumber *)

(** X16. [DrawCucumber] draws thirteen meshes: a hollow cylinder and its
    cap, a sphere, and five more hollow cylinders each followed by its cap.
    A cap is drawn by a direct call of the mesh library's
    [DrawCylinderMesh] with three arguments, with no transformation set in
    between: it is taken with the model matrix, colour, UV scale and
    material of the cylinder before it, and differs only in the sampler,
    which is the slot of the inner texture, the cylinders having that of
    the outer one. *)
Theorem DrawCucumber_caps_share_the_transformation
    (x_pos y_pos z_pos : float) (s : SceneManager) :
  ready s ->
  exists evs outer inner,
    says (DrawCucumber x_pos y_pos z_pos) s tt evs
    /\ FindTextureSlot "cucumber_outer" s = Ok (outer, s)
    /\ FindTextureSlot "cucumber_inner" s = Ok (inner, s)
    /\ exists long sphere slices,
         draws_from (calls s) evs
         = [long; cap_on long inner false; sphere]
           ++ flat_map (fun hull => [hull; cap_on hull inner true]) slices
         /\ length slices = 5%nat
         /\ drawn_shape sphere = DrawSphereMesh
         /\ Forall (fun hull => drawn_shape hull = DrawCylinderMesh [false; false]
                                /\ drawn_useTexture hull = Some (UInt 1)
                                /\ drawn_texture hull = Some (USampler2D outer))
                   (long :: slices).
Proof.
  intros Hr. pose proof Hr as [_ Hok].
  eexists. exists (slot_of s "cucumber_outer"), (slot_of s "cucumber_inner").
  split; [apply says_start; unfold DrawCucumber; cbv zeta; walk Hr|].
  split; [now apply FindTextureSlot_spec|].
  split; [now apply FindTextureSlot_spec|].
  name_scene s. generalize add32; intros plus.
  clear Hr Hok.
  destruct (m_objectMaterials s) as [|m0 ms];
    [|generalize (material_from (m0 :: ms)); intros found].
  all: match goal with
       | |- context [draws_under ?c ?e] =>
           remember (draws_under c e) as draws eqn:Hdraws; vm_compute in Hdraws; subst draws
       end.
  all: eexists _, _; refine (ex_intro _ [_; _; _; _; _] _).
  all: split;
         [cbn [app flat_map]; repeat (apply (f_equal2 cons); [reflexivity|]); reflexivity|].
  all: split; [reflexivity|].
  all: split; [reflexivity|].
  all: repeat (apply Forall_cons_2; [repeat split|]); apply Forall_nil_2.
Qed.

(** *** Preparing the scene and drawing it *)

Lemma material_from_elem mats tag material :
  tag ∈ mat_tag <$> mats ->
  exists m, m ∈ mats /\ material_from mats tag material = copy_fields m material.
Proof.
  induction mats as [|m0 mats IH]; intros Hin.
  - now apply elem_of_nil in Hin.
  - cbn [material_from]. destruct (decide (mat_tag m0 = tag)) as [E|E].
    + exists m0. split; [apply elem_of_cons; now left|reflexivity].
    + rewrite fmap_cons in Hin. apply elem_of_cons in Hin as [Hin|Hin]; [congruence|].
      destruct (IH Hin) as (m & Hm & Heq). exists m. split; [|exact Heq].
      apply elem_of_cons. now right.
Qed.

Lemma filter_all {A} (f : A -> bool) (l : list A) :
  Forall (fun x => f x = true) l -> List.filter f l = l.
Proof.
  induction 1 as [|x l Hx _ IH]; [reflexivity|].
  cbn [List.filter]. now rewrite Hx, IH.
Qed.

Lemma SetupSceneLights_returns s :
  is_Some (m_pShaderManager s) -> exists evs, says SetupSceneLights s tt evs.
Proof. intros Hsh. eexists. unfold SetupSceneLights. setters Hsh. Qed.

Ltac load_step Hload :=
  lazymatch goal with
  | |- exists evs, says (?m ≫= ?f) ?s tt evs =>
      let e := fresh "e" in
      let H := fresh "H" in
      destruct (Hload _ _ s : exists evs, says m s tt evs) as [e H];
      cut (exists evs', says (f tt) (emits (reverse e) s) tt evs');
      [ let evs' := fresh "evs" in
        let H' := fresh "H" in
        intros [evs' H']; exists (e ++ evs'); exact (says_bind _ _ _ _ _ _ _ H H')
      | cbv beta ]
  end.

(** [PrepareScene] on a new scene manager whose files all load: it
    returns with ten textures and six materials, whatever the mesh library
    does as long as that returns and changes no member. *)
Lemma PrepareScene_prepares (load : MeshLoad -> ShapeMeshes -> M unit) (s0 : SceneManager) :
  is_Some (m_pShaderManager s0) ->
  m_loadedTextures s0 = 0 ->
  (10 <= length (m_textureIDs s0))%nat ->
  m_objectMaterials s0 = [] ->
  Forall (fun ft => loadable (fst ft) = true) scene_textures ->
  (forall k meshes s, exists evs, says (load k meshes) s tt evs) ->
  exists s1,
    PrepareScene load s0 = Ok (tt, s1)
    /\ ready s1
    /\ m_loadedTextures s1 = 10
    /\ registry s1 = snd <$> scene_textures
    /\ mat_tag <$> m_objectMaterials s1
       = ["glass"; "wood"; "plastic"; "stone"; "metal"; "organic"].
Proof.
  intros Hsh H0 Hlen Hmats Hall Hload.
  destruct (load_in_order_registry scene_textures s0)
    as (sa & Hrun & Hreg & Hcnt & Hlena & Hsha & Hmata);
    [lia | cbn [length scene_textures]; lia |].
  rewrite (filter_all _ _ Hall) in Hreg.
  assert (Hreg0 : registry s0 = []) by (unfold registry, loaded; now rewrite H0).
  rewrite Hreg0, app_nil_l in Hreg.
  assert (Hoka : registry_ok sa).
  { unfold registry_ok. rewrite Hlena. cbn [length scene_textures] in Hcnt. lia. }
  assert (Hcnta : m_loadedTextures sa = 10).
  { pose proof (length_registry sa Hoka) as Hl. rewrite Hreg in Hl.
    cbn in Hl. lia. }
  destruct (BindGLTextures_says sa Hoka) as [eb Hb].
  destruct DefineObjectMaterials_appends as (six & Htags & Happ).
  destruct (Happ (emits eb sa)) as (sb & Hd & Hmatb & Hshb & Hcntb & Hidsb & Hcallsb).
  cbn [emits m_objectMaterials m_pShaderManager m_loadedTextures m_textureIDs calls]
    in Hmatb, Hshb, Hcntb, Hidsb.
  assert (Hshb' : is_Some (m_pShaderManager sb)) by (now rewrite Hshb, Hsha).
  assert (Hrest : exists evs,
             says (SetupSceneLights ≫= fun _ =>
                   get m_basicMeshes ≫= fun meshes =>
                   load LoadPlaneMesh meshes ≫= fun _ =>
                   load LoadCylinderMesh meshes ≫= fun _ =>
                   load LoadSphereMesh meshes ≫= fun _ =>
                   load LoadTorusMesh meshes ≫= fun _ =>
                   load LoadTaperedCylinderMesh meshes ≫= fun _ =>
                   load LoadBoxMesh meshes ≫= fun _ =>
                   load LoadPyramid3Mesh meshes ≫= fun _ =>
                   load LoadPyramid4Mesh meshes ≫= fun _ =>
                   load LoadConeMesh meshes ≫= fun _ =>
                   load LoadPlaneMesh meshes ≫= fun _ =>
                   load LoadPrismMesh meshes) sb tt evs).
  { destruct (SetupSceneLights_returns sb Hshb') as [e0 He0].
    cut (exists evs', says (get m_basicMeshes ≫= fun meshes =>
                   load LoadPlaneMesh meshes ≫= fun _ =>
                   load LoadCylinderMesh meshes ≫= fun _ =>
                   load LoadSphereMesh meshes ≫= fun _ =>
                   load LoadTorusMesh meshes ≫= fun _ =>
                   load LoadTaperedCylinderMesh meshes ≫= fun _ =>
                   load LoadBoxMesh meshes ≫= fun _ =>
                   load LoadPyramid3Mesh meshes ≫= fun _ =>
                   load LoadPyramid4Mesh meshes ≫= fun _ =>
                   load LoadConeMesh meshes ≫= fun _ =>
                   load LoadPlaneMesh meshes ≫= fun _ =>
                   load LoadPrismMesh meshes) (emits (reverse e0) sb) tt evs').
    { intros [evs' H']. exists (e0 ++ evs'). exact (says_bind _ _ _ _ _ _ _ He0 H'). }
    cut (exists evs', says (
                   load LoadPlaneMesh basic_meshes ≫= fun _ =>
                   load LoadCylinderMesh basic_meshes ≫= fun _ =>
                   load LoadSphereMesh basic_meshes ≫= fun _ =>
                   load LoadTorusMesh basic_meshes ≫= fun _ =>
                   load LoadTaperedCylinderMesh basic_meshes ≫= fun _ =>
                   load LoadBoxMesh basic_meshes ≫= fun _ =>
                   load LoadPyramid3Mesh basic_meshes ≫= fun _ =>
                   load LoadPyramid4Mesh basic_meshes ≫= fun _ =>
                   load LoadConeMesh basic_meshes ≫= fun _ =>
                   load LoadPlaneMesh basic_meshes ≫= fun _ =>
                   load LoadPrismMesh basic_meshes) (emits (reverse e0) sb) tt evs').
    { intros [evs' H']. exists evs'.
      eapply says_bind_silent; [apply says_get|]. cbv beta.
      destruct (m_basicMeshes (emits (reverse e0) sb)). exact H'. }
    do 10 load_step Hload. apply Hload. }
  destruct Hrest as [er Hr].
  exists (emits (reverse er) sb). split.
  { unfold PrepareScene. unfold mbind at 1, M_bind at 1.
    rewrite LoadSceneTextures_unfold. unfold mbind at 1, M_bind at 1.
    rewrite Hrun, Hb. unfold mbind at 1, M_bind at 1. rewrite Hd. exact Hr. }
  split.
  { split; [exact Hshb'|]. unfold registry_ok.
    cbn [emits m_loadedTextures m_textureIDs]. rewrite Hcntb, Hidsb. exact Hoka. }
  split; [cbn [emits m_loadedTextures]; now rewrite Hcntb|].
  split.
  { unfold registry, loaded. cbn [emits m_loadedTextures m_textureIDs].
    rewrite Hcntb, Hidsb. exact Hreg. }
  cbn [emits m_objectMaterials]. now rewrite Hmatb, Hmata, Hmats.
Qed.

(** X17. A new scene manager whose ten texture files all load, once
    prepared, draws every mesh of the frame with what was prepared: each
    sampler written holds a slot below the count of ten, never -1, and each
    draw's five material uniforms hold the values of one of the registered
    materials, none being left from the uninitialised local object. The mesh
    library is any that returns and changes no member. *)
Theorem PrepareScene_then_RenderScene
    (load : MeshLoad -> ShapeMeshes -> M unit) (s0 : SceneManager) :
  is_Some (m_pShaderManager s0) ->
  m_loadedTextures s0 = 0 ->
  (10 <= length (m_textureIDs s0))%nat ->
  m_objectMaterials s0 = [] ->
  Forall (fun ft => loadable (fst ft) = true) scene_textures ->
  (forall k meshes s, exists evs, says (load k meshes) s tt evs) ->
  exists s1 evs,
    PrepareScene load s0 = Ok (tt, s1)
    /\ m_loadedTextures s1 = 10
    /\ says RenderScene s1 tt evs
    /\ Forall (fun d =>
                 (exists k, drawn_texture d = Some (USampler2D k) /\ 0 <= k < 10)
                 /\ exists m, m ∈ m_objectMaterials s1
                              /\ drawn_material d = material_values m)
              (draws_from (calls s1) evs).
Proof.
  intros Hsh H0 Hlen Hmats Hall Hload.
  destruct (PrepareScene_prepares load s0 Hsh H0 Hlen Hmats Hall Hload)
    as (s1 & Hrun & Hr & Hcnt & Hreg & Htags).
  exists s1. eexists. split; [exact Hrun|]. split; [exact Hcnt|].
  split; [apply says_start; unfold_scene; walk Hr|].
  assert (Hfound : forall tag, tag ∈ ["glass"; "wood"; "plastic"; "stone"; "metal"; "organic"] ->
            exists m, m ∈ m_objectMaterials s1
                      /\ material_values (material_from (m_objectMaterials s1) tag
                                            indeterminate_material)
                         = material_values m).
  { intros tag Hin. rewrite <- Htags in Hin.
    destruct (material_from_elem _ _ indeterminate_material Hin) as (m & Hm & Heq).
    exists m. split; [exact Hm|]. now rewrite Heq. }
  pose proof (Hfound "glass" ltac:(repeat first [apply list_elem_of_here | apply list_elem_of_further])) as Hglass.
  pose proof (Hfound "wood" ltac:(repeat first [apply list_elem_of_here | apply list_elem_of_further])) as Hwood.
  pose proof (Hfound "plastic" ltac:(repeat first [apply list_elem_of_here | apply list_elem_of_further])) as Hplastic.
  pose proof (Hfound "stone" ltac:(repeat first [apply list_elem_of_here | apply list_elem_of_further])) as Hstone.
  pose proof (Hfound "metal" ltac:(repeat first [apply list_elem_of_here | apply list_elem_of_further])) as Hmetal.
  pose proof (Hfound "organic" ltac:(repeat first [apply list_elem_of_here | apply list_elem_of_further])) as Horganic.
  clear Hfound.
  rewrite draws_from_under.
  unfold attribute_writes, material_writes, texture_writes, model_write, slot_of.
  rewrite Hreg.
  destruct (m_objectMaterials s1) as [|m0 ms] eqn:Hm1; [discriminate Htags|].
  revert Hglass Hwood Hplastic Hstone Hmetal Horganic.
  generalize (m0 :: ms); intros mats.
  generalize (material_from mats); intros found.
  generalize model_matrix; intros model.
  generalize (fun name => uniform name (calls s1)); intros before.
  intros Hglass Hwood Hplastic Hstone Hmetal Horganic.
  match goal with
  | |- Forall _ ?l => remember l as draws eqn:Hdraws; vm_compute in Hdraws; subst draws
  end.
  repeat (apply Forall_cons_2;
          [ split;
            [ eexists; split; [reflexivity|lia]
            | first [ destruct Hglass as (m & Hin & Heq); exists m; split; [exact Hin|exact Heq]
                    | destruct Hwood as (m & Hin & Heq); exists m; split; [exact Hin|exact Heq]
                    | destruct Hplastic as (m & Hin & Heq); exists m; split; [exact Hin|exact Heq]
                    | destruct Hstone as (m & Hin & Heq); exists m; split; [exact Hin|exact Heq]
                    | destruct Hmetal as (m & Hin & Heq); exists m; split; [exact Hin|exact Heq]
                    | destruct Horganic as (m & Hin & Heq); exists m; split; [exact Hin|exact Heq] ] ]
          | ]).
  apply Forall_nil_2.
Qed.

(** *** The cup, the cucumber and the knife, wherever they are placed *)

(** X18. The origin given to [DrawCup], [DrawCucumber] and [DrawKnife]
    reaches the model matrices only: at any two origins each of them draws
    the same meshes in the same order (three, thirteen and five) with the
    same colour, texture flag, sampler, UV scale and material. *)
Theorem compound_objects_differ_in_position_only
    (x y z x' y' z' : float) (s : SceneManager) :
  ready s ->
  exists cup cup' cucumber cucumber' knife knife',
    says (DrawCup x y z) s tt cup
    /\ says (DrawCup x' y' z') s tt cup'
    /\ says (DrawCucumber x y z) s tt cucumber
    /\ says (DrawCucumber x' y' z') s tt cucumber'
    /\ says (DrawKnife x y z) s tt knife
    /\ says (DrawKnife x' y' z') s tt knife'
    /\ without_model <$> draws_from (calls s) cup
       = without_model <$> draws_from (calls s) cup'
    /\ without_model <$> draws_from (calls s) cucumber
       = without_model <$> draws_from (calls s) cucumber'
    /\ without_model <$> draws_from (calls s) knife
       = without_model <$> draws_from (calls s) knife'
    /\ length (draws_from (calls s) cup) = 3%nat
    /\ length (draws_from (calls s) cucumber) = 13%nat
    /\ length (draws_from (calls s) knife) = 5%nat.
Proof.
  intros Hr. eexists _, _, _, _, _, _.
  do 6 (split; [apply says_start; unfold_scene; walk Hr|]).
  name_scene s. generalize add32; intros plus. clear Hr.
  destruct (m_objectMaterials s) as [|m0 ms];
    [|generalize (material_from (m0 :: ms)); intros found].
  all: do 5 (apply conj; [vm_compute; reflexivity|]); vm_compute; reflexivity.
Qed.

End Properties.

(** ** The zoom keys *)

Section Zoom.

Import View.

Variable ProcessKeyboard : Camera_Movement -> float -> Camera -> Camera.

(** C8, at the bounds. A zoom-in request at exactly 10 is accepted and
    leaves 9.99, below 10, where further requests are rejected; a zoom-out
    request at exactly 160 is accepted and leaves 160.01, above 160, where
    further requests are rejected. From the zoom of 60 the constructor sets,
    holding the up key for 5010 frames leaves the zoom below 10, and holding
    the down key for 10100 frames leaves it above 160. *)
Theorem zoom_keys_step_past_the_bounds :
  let ten := int_to_float 10 in
  let limit := int_to_float 160 in
  let after (keys : list (Key -> bool)) (v : ViewState) :=
    zoom_of (frames ProcessKeyboard keys v) in
  after (hold GLFW_KEY_UP 1) (zoomed ten) = Some (lit_f 999 2)
  /\ ltb32 (lit_f 999 2) ten = true
  /\ after (hold GLFW_KEY_UP 100) (zoomed ten) = Some (lit_f 999 2)
  /\ after (hold GLFW_KEY_DOWN 1) (zoomed limit) = Some (lit_f 16001 2)
  /\ ltb32 limit (lit_f 16001 2) = true
  /\ after (hold GLFW_KEY_DOWN 100) (zoomed limit) = Some (lit_f 16001 2)
  /\ (exists z, after (hold GLFW_KEY_UP 5010) new_ViewManager = Some z
                /\ ltb32 z ten = true)
  /\ (exists z, after (hold GLFW_KEY_DOWN 10100) new_ViewManager = Some z
                /\ ltb32 limit z = true).
Proof.
  cbv zeta.
  do 6 (apply conj; [vm_compute; reflexivity|]).
  apply conj; eexists; (apply conj; [vm_compute; reflexivity|]); vm_compute; reflexivity.
Qed.

(** Away from the bounds the keys do what the claim says: a request at a
    zoom below 10 (or above 160) changes nothing. *)
Lemma zoom_in_rejected_below_ten (zoom : float) :
  geb32 zoom (int_to_float 10) = false ->
  zoom_of (ProcessKeyboardEvents ProcessKeyboard (only GLFW_KEY_UP) (zoomed zoom)) = Some zoom.
Proof.
  intros H. unfold ProcessKeyboardEvents, zoomed, zoom_of, on_key, only.
  cbv -[geb32 leb32 int_to_float minus_equals plus_equals lit_f lit_d].
  now rewrite H.
Qed.

Lemma zoom_out_rejected_above_limit (zoom : float) :
  leb32 zoom (int_to_float 160) = false ->
  zoom_of (ProcessKeyboardEvents ProcessKeyboard (only GLFW_KEY_DOWN) (zoomed zoom)) = Some zoom.
Proof.
  intros H. unfold ProcessKeyboardEvents, zoomed, zoom_of, on_key, only.
  cbv -[geb32 leb32 int_to_float minus_equals plus_equals lit_f lit_d].
  now rewrite H.
Qed.

End Zoom.

(** ** The keys, the mouse and the frame *)

Section Callbacks.

Import View.

Context {glm : GLM}.

Variable ProcessKeyboard : Camera_Movement -> float -> Camera -> Camera.
Variable ProcessMouseMovement : float -> float -> Camera -> Camera.
Variable ProcessMouseScroll : float -> Camera -> Camera.
Variable GetViewMatrix : Camera -> mat4.
Variable glm_ortho : float -> float -> float -> float -> float -> float -> mat4.
Variable glm_perspective : float -> float -> float -> float -> mat4.

Lemma ProcessKeyboardEvents_globals (glfwGetKey : Key -> bool) (v : ViewState) :
  windowShouldClose (ProcessKeyboardEvents ProcessKeyboard glfwGetKey v)
  = windowShouldClose v || glfwGetKey GLFW_KEY_ESCAPE
  /\ gDeltaTime (ProcessKeyboardEvents ProcessKeyboard glfwGetKey v) = gDeltaTime v
  /\ (is_Some (g_pCamera (ProcessKeyboardEvents ProcessKeyboard glfwGetKey v))
      <-> is_Some (g_pCamera v)).
Proof.
  unfold ProcessKeyboardEvents.
  destruct (g_pCamera v) as [c|]; cbn [windowShouldClose gDeltaTime g_pCamera].
  - split; [destruct (glfwGetKey GLFW_KEY_ESCAPE), (windowShouldClose v); reflexivity|].
    split; [reflexivity|]. split; intros _; eauto.
  - split; [destruct (glfwGetKey GLFW_KEY_ESCAPE), (windowShouldClose v); reflexivity|].
    split; [reflexivity|]. reflexivity.
Qed.

(** X19. Over any number of frames the keys never clear the request to
    close the window: it is set exactly when it was set before or Escape was
    held in some frame. They never change the frame time, and a camera is
    there afterwards exactly when one was there before. *)
Theorem frames_keep_the_close_request (keys : list (Key -> bool)) (v : ViewState) :
  windowShouldClose (frames ProcessKeyboard keys v)
  = windowShouldClose v || existsb (fun glfwGetKey => glfwGetKey GLFW_KEY_ESCAPE) keys
  /\ gDeltaTime (frames ProcessKeyboard keys v) = gDeltaTime v
  /\ (is_Some (g_pCamera (frames ProcessKeyboard keys v)) <-> is_Some (g_pCamera v)).
Proof.
  revert v. induction keys as [|k keys IH]; intros v.
  - cbn. rewrite orb_false_r. tauto.
  - cbn [frames existsb].
    destruct (IH (ProcessKeyboardEvents ProcessKeyboard k v)) as (Hc & Hd & Hp).
    destruct (ProcessKeyboardEvents_globals k v) as (Hc1 & Hd1 & Hp1).
    rewrite Hc, Hd, Hp, Hc1, Hd1, Hp1, orb_assoc. tauto.
Qed.

(** X20. The projection keys. With a camera, P held makes the
    projection perspective even when O is held in the same frame; O alone
    makes it orthographic; neither leaves it. Without a camera both keys are
    ignored. Whenever O is held the camera ends the frame at the front view
    (0, 2, 10) looking along (0, 0, -1) with up vector (0, 5, 0), whatever
    movement keys are held with it. *)
Theorem projection_keys (glfwGetKey : Key -> bool) (v : ViewState) :
  bOrthographicProjection (ProcessKeyboardEvents ProcessKeyboard glfwGetKey v)
  = match g_pCamera v with
    | None => bOrthographicProjection v
    | Some _ =>
        if glfwGetKey GLFW_KEY_P then false
        else if glfwGetKey GLFW_KEY_O then true
        else bOrthographicProjection v
    end
  /\ (glfwGetKey GLFW_KEY_O = true ->
      forall c, g_pCamera (ProcessKeyboardEvents ProcessKeyboard glfwGetKey v) = Some c ->
        Position c = Vec3 (lit_f 0 1) (lit_f 20 1) (lit_f 100 1)
        /\ Front c = Vec3 (lit_f 0 1) (lit_f 0 1) (lit_f (-10) 1)
        /\ Up c = Vec3 (lit_f 0 1) (lit_f 50 1) (lit_f 0 1)).
Proof.
  unfold ProcessKeyboardEvents. destruct (g_pCamera v) as [c0|].
  - cbn [bOrthographicProjection g_pCamera]. split; [reflexivity|].
    intros HO c Hc. rewrite HO in Hc. cbn [on_key] in Hc.
    injection Hc as <-. cbn [Position Front Up]. auto.
  - cbn [bOrthographicProjection g_pCamera]. split; [reflexivity|].
    intros _ c Hc. discriminate Hc.
Qed.

Lemma sub64_same (x : double) :
  match x with S754_nan | S754_infinity _ => False | _ => True end ->
  sub64 x x = S754_zero false.
Proof.
  destruct x as [s| | |s m e]; intros H; try contradiction.
  - now destruct s.
  - unfold sub64, SFsub. rewrite Z.min_id. unfold shl_align.
    rewrite Z.sub_diag. reflexivity.
Qed.

Lemma float_exact_sub (x : double) :
  float_exact x = true -> sub64 x (to_double (to_float x)) = S754_zero false.
Proof.
  unfold float_exact. intros H.
  assert (E : to_double (to_float x) = x).
  { destruct x; try discriminate H; now apply bool_decide_eq_true in H. }
  rewrite E. apply sub64_same. destruct x; try discriminate H; exact I.
Qed.

(** X21. The first mouse event, and any event at the position of the
    one before, moves the camera by nothing: when the position is finite and
    held exactly by a [float], [ProcessMouseMovement] is called with both
    offsets +0, whatever [gLastX] and [gLastY] held at a first event; the
    position is recorded and [gFirstMouse] is off afterwards. *)
Theorem Mouse_Position_Callback_first_event
    (xMousePos yMousePos : double) (p : Pointer) (v : ViewState) (c : Camera) :
  float_exact xMousePos = true ->
  float_exact yMousePos = true ->
  g_pCamera v = Some c ->
  gFirstMouse p = true
  \/ (gLastX p = to_float xMousePos /\ gLastY p = to_float yMousePos) ->
  Mouse_Position_Callback ProcessMouseMovement xMousePos yMousePos p v
  = Ok ({| gLastX := to_float xMousePos; gLastY := to_float yMousePos; gFirstMouse := false |},
        set_camera v (ProcessMouseMovement (S754_zero false) (S754_zero false) c)).
Proof.
  intros Hx Hy Hc Hp. unfold Mouse_Position_Callback. rewrite Hc. cbv zeta.
  assert (Hlast : (if gFirstMouse p
                   then {| gLastX := to_float xMousePos; gLastY := to_float yMousePos;
                           gFirstMouse := false |}
                   else p)
                  = {| gLastX := to_float xMousePos; gLastY := to_float yMousePos;
                       gFirstMouse := false |}).
  { destruct p as [lx ly first]. cbn in *. destruct first; [reflexivity|].
    destruct Hp as [Hp|[-> ->]]; [discriminate|reflexivity]. }
  rewrite Hlast. cbn [gLastX gLastY gFirstMouse].
  rewrite (float_exact_sub _ Hx).
  assert (Ey : to_double (to_float yMousePos) = yMousePos).
  { unfold float_exact in Hy.
    destruct yMousePos; try discriminate Hy; now apply bool_decide_eq_true in Hy. }
  rewrite Ey, sub64_same
    by (unfold float_exact in Hy; destruct yMousePos; try discriminate Hy; exact I).
  reflexivity.
Qed.

(** X22. Only the keys test the camera pointer. Without a camera
    [ProcessKeyboardEvents] returns, having looked at Escape alone, but the
    two mouse callbacks dereference the null pointer, and so does
    [PrepareSceneView] right after the keys have been processed, whatever
    the time and the keys. *)
Theorem callbacks_without_camera
    (glfwGetTime : double) (glfwGetKey : Key -> bool) (x y : double)
    (p : Pointer) (vm : ViewManager) :
  g_pCamera (globals vm) = None ->
  ProcessKeyboardEvents ProcessKeyboard glfwGetKey (globals vm)
  = {| g_pCamera := None;
       gDeltaTime := gDeltaTime (globals vm);
       bOrthographicProjection := bOrthographicProjection (globals vm);
       windowShouldClose := windowShouldClose (globals vm) || glfwGetKey GLFW_KEY_ESCAPE |}
  /\ Mouse_Position_Callback ProcessMouseMovement x y p (globals vm) = Undefined NullPointer
  /\ Mouse_Scroll_Wheel_Callback ProcessMouseScroll x y (globals vm) = Undefined NullPointer
  /\ PrepareSceneView ProcessKeyboard GetViewMatrix glm_ortho glm_perspective
       glfwGetTime glfwGetKey vm
     = Undefined NullPointer.
Proof.
  intros Hc. split.
  { unfold ProcessKeyboardEvents. rewrite Hc. f_equal.
    destruct (glfwGetKey GLFW_KEY_ESCAPE), (windowShouldClose (globals vm)); reflexivity. }
  split; [unfold Mouse_Position_Callback; now rewrite Hc|].
  split; [unfold Mouse_Scroll_Wheel_Callback; now rewrite Hc|].
  unfold PrepareSceneView, ProcessKeyboardEvents. cbn [g_pCamera]. now rewrite Hc.
Qed.

(** X23. One frame of the view. With a camera, [PrepareSceneView]
    returns; the frame time it stores is the clock minus the time of the
    frame before, and the keys are processed with that new frame time; the
    projection is chosen by the flag as the keys of this same frame leave
    it, and the view matrix, the perspective angle and the view position
    are those of the camera as the keys leave it. With a shader manager
    exactly the three uniforms view, projection and viewPosition are
    uploaded, in this order; without one nothing is uploaded, the state
    being updated all the same. *)
Theorem PrepareSceneView_uses_the_keys_of_the_frame
    (glfwGetTime : double) (glfwGetKey : Key -> bool) (vm : ViewManager) (c : Camera) :
  g_pCamera (globals vm) = Some c ->
  let timed :=
    {| g_pCamera := Some c;
       gDeltaTime := sub32 (to_float glfwGetTime) (gLastFrame vm);
       bOrthographicProjection := bOrthographicProjection (globals vm);
       windowShouldClose := windowShouldClose (globals vm) |} in
  let v' := ProcessKeyboardEvents ProcessKeyboard glfwGetKey timed in
  exists c',
    g_pCamera v' = Some c'
    /\ PrepareSceneView ProcessKeyboard GetViewMatrix glm_ortho glm_perspective
         glfwGetTime glfwGetKey vm
       = Ok ({| view_pShaderManager := view_pShaderManager vm;
                globals := v';
                gLastFrame := to_float glfwGetTime |},
             match view_pShaderManager vm with
             | None => []
             | Some _ =>
                  [ Uniform "view" (UMat4 (GetViewMatrix c'));
                    Uniform "projection"
                      (UMat4 (if glfwGetKey GLFW_KEY_P
                                 || negb (glfwGetKey GLFW_KEY_O
                                          || bOrthographicProjection (globals vm))
                              then glm_perspective (glm_radians (Zoom c'))
                                     (div32 (int_to_float 1000) (int_to_float 800))
                                     (lit_f 1 1) (lit_f 1000 1)
                              else glm_ortho (lit_f (-90) 1) (lit_f 90 1) (lit_f (-70) 1)
                                     (lit_f 70 1) (lit_f (-10) 1) (lit_f 300 1)));
                    Uniform "viewPosition" (UVec3 (Position c')) ]
             end).
Proof.
  intros Hc timed v'.
  destruct (g_pCamera v') as [c'|] eqn:Hc'.
  2:{ exfalso. pose proof (ProcessKeyboardEvents_globals glfwGetKey timed) as (_ & _ & Hp).
      fold v' in Hp. rewrite Hc' in Hp. destruct Hp as [_ Hp].
      destruct Hp as [? Hp]; [now eexists|discriminate Hp]. }
  exists c'. split; [reflexivity|].
  unfold PrepareSceneView. rewrite Hc. fold timed. fold v'. rewrite Hc'.
  f_equal. f_equal.
  assert (Hflag : bOrthographicProjection v'
                  = negb (glfwGetKey GLFW_KEY_P
                          || negb (glfwGetKey GLFW_KEY_O
                                   || bOrthographicProjection (globals vm)))).
  { subst v'. unfold ProcessKeyboardEvents. cbn.
    destruct (glfwGetKey GLFW_KEY_P), (glfwGetKey GLFW_KEY_O),
      (bOrthographicProjection (globals vm)); reflexivity. }
  rewrite Hflag.
  destruct (view_pShaderManager vm); [|reflexivity].
  destruct (glfwGetKey GLFW_KEY_P
            || negb (glfwGetKey GLFW_KEY_O || bOrthographicProjection (globals vm)));
    reflexivity.
Qed.

End Callbacks.

(** ** The theorems at work on the demonstration scene *)

Section Examples.

#[local] Existing Instance Demo.glm.
#[local] Existing Instance Demo.platform.

Ltac ready_by_computation :=
  split; [eexists; vm_compute; reflexivity | vm_compute; discriminate].

(** C1 at work: one sub-part of the jar on the prepared scene. *)
Lemma SetTransformations_on_prepared_scene :
  exists s',
    SetTransformations (Vec3 (lit_f 20 1) (lit_f 3 1) (lit_f 20 1))
      (lit_f 0 1) (lit_f 900 1) (lit_f 0 1)
      (Vec3 (lit_f 60 1) (lit_f 15 2) (lit_f (-62) 1)) Demo.prepared = Ok (tt, s')
    /\ uniform "model" (calls s')
       = Some (UMat4 (model_matrix (Vec3 (lit_f 20 1) (lit_f 3 1) (lit_f 20 1))
                        (Vec3 (lit_f 0 1) (lit_f 900 1) (lit_f 0 1))
                        (Vec3 (lit_f 60 1) (lit_f 15 2) (lit_f (-62) 1)))).
Proof.
  destruct (SetTransformations_uploads_model_matrix
              (Vec3 (lit_f 20 1) (lit_f 3 1) (lit_f 20 1))
              (lit_f 0 1) (lit_f 900 1) (lit_f 0 1)
              (Vec3 (lit_f 60 1) (lit_f 15 2) (lit_f (-62) 1)) Demo.prepared)
    as (s' & Hrun & _ & Hmodel & Heq & _).
  - eexists. vm_compute. reflexivity.
  - exists s'. split; [exact Hrun|]. rewrite Hmodel. now rewrite Heq.
Defined.

(** C2 as stated fails: the jar of the scene has ten draws, not nine. *)
Lemma scene_jar_is_not_nine_draws : length scene_jar <> 9%nat.
Proof. vm_compute. discriminate. Qed.

Lemma scene_jar_shapes :
  drawn_shape <$> scene_jar
  = [ DrawSphereMesh; DrawCylinderMesh []; DrawSphereMesh; DrawCylinderMesh [];
      DrawTorusMesh; DrawTorusMesh; DrawSphereMesh; DrawCylinderMesh [];
      DrawTorusMesh; DrawSphereMesh ].
Proof. vm_compute. reflexivity. Qed.

(** C2 as amended, at work on the prepared scene. *)
Lemma DrawJar_on_prepared_scene :
  exists evs,
    says (DrawJar (lit_f 60 1) (lit_f 0 1) (lit_f (-62) 1)) Demo.prepared tt evs
    /\ length (draws_from (calls Demo.prepared) evs) = 10%nat.
Proof.
  destruct (DrawJar_at_scene_origin Demo.prepared) as (evs & Hsays & Hlen & _).
  - ready_by_computation.
  - exists evs. split; [exact Hsays | exact Hlen].
Defined.

(** C3 at work: after red and no texture, the tag "wood" alone. *)
Lemma texture_override_on_prepared_scene :
  exists s1 s2,
    SetShaderAttributes red "none" ones "none" Demo.prepared = Ok (tt, s1)
    /\ SetShaderTexture "wood" s1 = Ok (tt, s2)
    /\ uniform "objectColor" (calls s2) = Some (UVec4 red)
    /\ uniform "objectTexture" (calls s2) = Some (USampler2D 2).
Proof.
  destruct (SetShaderAttributes_order_and_texture_override
              red "none" ones "none" "wood" Demo.prepared)
    as (_ & s1 & s2 & H1 & _ & _ & _ & H2 & Hcolor & _ & Htex).
  - ready_by_computation.
  - exists s1, s2. repeat (split; [assumption|]). rewrite Htex. vm_compute. reflexivity.
Defined.

(** C5 at work: "a", "b", "c" loaded in that order. *)
Lemma slots_of_a_b_c :
  exists s,
    load_in_order [("a.png", "a"); ("b.png", "b"); ("c.png", "c")] Demo.fresh = Ok (tt, s)
    /\ FindTextureSlot "b" s = Ok (1, s)
    /\ FindTextureSlot "missing" s = Ok (-1, s).
Proof.
  destruct (FindTextureSlot_after_loading
              [("a.png", "a"); ("b.png", "b"); ("c.png", "c")] Demo.fresh)
    as (s & Hload & Hreg & Hfound & Hmissing).
  - reflexivity.
  - vm_compute. lia.
  - repeat constructor.
  - vm_compute. repeat constructor; intros H;
      repeat (apply elem_of_cons in H as [H|H]; [discriminate|]);
      now apply elem_of_nil in H.
  - exists s. split; [exact Hload|]. split.
    + apply (Hfound 1%nat). reflexivity.
    + apply Hmissing. rewrite Hreg. cbn. intros H.
      repeat (apply elem_of_cons in H as [H|H]; [discriminate|]).
      now apply elem_of_nil in H.
Defined.

(** C6 as stated fails: with the origin at height 0.3 and a delta of 1.0
    upwards, the positions at the moved origin are not the positions moved. *)
Lemma jar_positions_do_not_move_uniformly :
  let origin := Vec3 (lit_f 0 1) (lit_f 3 1) (lit_f 0 1) in
  let delta := Vec3 (lit_f 0 1) (lit_f 10 1) (lit_f 0 1) in
  jar_positions (place origin delta) <> moved delta (jar_positions origin).
Proof. vm_compute. discriminate. Qed.

(** C6 as amended, at work: the origin of the scene and a delta of 2.0
    along x, for which the sums agree. *)
Lemma DrawJar_twice_on_prepared_scene :
  let origin := Vec3 (lit_f 60 1) (lit_f 0 1) (lit_f (-62) 1) in
  let delta := Vec3 (lit_f 20 1) (lit_f 0 1) (lit_f 0 1) in
  says (DrawJar (lit_f 60 1) (lit_f 0 1) (lit_f (-62) 1)) Demo.prepared tt
       (jar_writes Demo.prepared origin)
  /\ drawn_model <$> draws_from (calls Demo.prepared)
                       (jar_writes Demo.prepared (place origin delta))
     = part_model (fun offset => place (place origin offset) delta) <$> jar_table.
Proof.
  intros origin delta.
  destruct (DrawJar_positions_are_origin_plus_offset origin origin delta Demo.prepared)
    as (Hsays & _ & _ & _ & _ & _ & Hmoved).
  - ready_by_computation.
  - split; [exact Hsays|]. apply Hmoved.
    repeat constructor; vm_compute; reflexivity.
Defined.

(** C7 at work: the metal image is missing and the marble image has one
    channel; the other eight textures are loaded, in order. *)
Lemma scene_setup_survives_two_failures :
  let platform := Demo.platform_with ["../../Utilities/textures/metal.jpg"]
                                     ["../../Utilities/textures/marble.jpg"] in
  (exists s',
     CreateGLTexture (platform := platform) "../../Utilities/textures/metal.jpg" "metal"
       Demo.fresh = Ok (false, s')
     /\ m_loadedTextures s' = 0)
  /\ exists s',
      LoadSceneTextures (platform := platform) Demo.fresh = Ok (tt, s')
      /\ registry s'
         = [ "backdrop"; "counter"; "wood"; "plastic"; "cucumber_outer"; "cucumber_inner";
             "glass10"; "glass13" ].
Proof.
  intros platform.
  destruct (texture_load_failure_is_local (platform := platform)
              "../../Utilities/textures/metal.jpg" "metal" Demo.fresh) as [Hfail Hall].
  split.
  - destruct Hfail as (s' & Hrun & Hcount & _); [vm_compute; reflexivity|].
    exists s'. split; [exact Hrun | exact Hcount].
  - destruct Hall as (s' & Hrun & Hreg); [vm_compute; discriminate.. |].
    exists s'. split; [exact Hrun|]. rewrite Hreg. vm_compute. reflexivity.
Defined.

(** C9 at work: the first texture of a fresh scene manager, and a load
    when the count is already 16. *)
Lemma first_texture_goes_to_slot_zero :
  (exists textureID s',
     CreateGLTexture "a.png" "a" Demo.fresh = Ok (true, s')
     /\ m_loadedTextures s' = 1
     /\ m_textureIDs s' !! 0%nat = Some {| tex_tag := "a"; tex_ID := textureID |})
  /\ CreateGLTexture "q.png" "q"
       (new_SceneManager (Some (shader_program 1)) 16 (fun _ => 0) [])
     = Undefined OutOfBounds.
Proof.
  split.
  - destruct (CreateGLTexture_within_capacity "a.png" "a" Demo.fresh) as [Hroom _].
    + vm_compute. reflexivity.
    + reflexivity.
    + destruct Hroom as (id & s' & Hrun & Hcount & _ & _ & Hentry & _);
        [vm_compute; split; [discriminate | reflexivity]|].
      exists id, s'. split; [exact Hrun|]. split; [exact Hcount | exact Hentry].
  - destruct (CreateGLTexture_within_capacity "q.png" "q"
                (new_SceneManager (Some (shader_program 1)) 16 (fun _ => 0) []))
      as [_ Hfull].
    + vm_compute. reflexivity.
    + reflexivity.
    + apply Hfull. reflexivity.
Defined.

(** C10 at work: a tag that is not in the registry of the prepared scene. *)
Lemma missing_texture_leaves_texturing_on :
  exists s',
    SetShaderTexture "missing" Demo.prepared = Ok (tt, s')
    /\ uniform "bUseTexture" (calls s') = Some (UInt 1)
    /\ uniform "objectTexture" (calls s') = Some (USampler2D (-1)).
Proof.
  destruct (SetShaderTexture_enables_before_lookup "missing" Demo.prepared)
    as (s' & Hrun & _ & Hflag & Hsampler).
  - ready_by_computation.
  - exists s'. split; [exact Hrun|]. split; [exact Hflag|]. apply Hsampler.
    vm_compute. intros H.
    repeat (apply elem_of_cons in H as [H|H]; [discriminate|]).
    now apply elem_of_nil in H.
Defined.

(** X1 at work: the tag "wood" on the prepared scene. *)
Lemma wood_is_found_on_the_prepared_scene :
  exists r, FindTextureSlot "wood" Demo.prepared = Ok (r, Demo.prepared).
Proof.
  destruct (FindTextureSlot_finds_the_first "wood" Demo.prepared) as (r & Hr & _);
    [vm_compute; discriminate|].
  exists r. exact Hr.
Defined.

(** X2 at work. *)
Lemma metal_has_slot_and_ID_on_the_prepared_scene :
  exists slot id,
    FindTextureSlot "metal" Demo.prepared = Ok (slot, Demo.prepared)
    /\ FindTextureID "metal" Demo.prepared = Ok (id, Demo.prepared).
Proof.
  destruct (FindTextureID_is_the_ID_at_the_slot "metal" Demo.prepared)
    as (slot & id & Hs & Hi & _); [vm_compute; discriminate|].
  exists slot, id. split; [exact Hs|exact Hi].
Defined.

(** X3 at work: a second texture tagged "wood" is never found. *)
Lemma a_second_wood_is_never_found :
  exists s',
    CreateGLTexture "planks.jpg" "wood" Demo.prepared = Ok (true, s')
    /\ FindTextureSlot "wood" s' = Ok (2, s').
Proof.
  destruct (CreateGLTexture_keeps_earlier_slots "planks.jpg" "wood" Demo.prepared)
    as (s' & Hc & Hfind).
  - reflexivity.
  - vm_compute. split; [discriminate|reflexivity].
  - exists s'. split; [exact Hc|].
    apply (Hfind "wood" 2).
    rewrite FindTextureSlot_spec by (vm_compute; discriminate).
    apply (f_equal (fun r => Ok (r, Demo.prepared))). vm_compute. reflexivity.
Defined.

(** X4 at work: the textures of the scene loaded a second time. *)
Lemma LoadSceneTextures_twice_is_undefined :
  LoadSceneTextures Demo.prepared = Undefined OutOfBounds.
Proof.
  apply LoadSceneTextures_overflows.
  - repeat (apply Forall_cons_2; [reflexivity|]). apply Forall_nil_2.
  - vm_compute. split; discriminate.
  - vm_compute. reflexivity.
Defined.

(** X5 at work: unit 2 gets the texture of "wood", the third name handed out. *)
Lemma unit_two_is_bound_to_wood :
  exists evs,
    says BindGLTextures Demo.prepared tt evs
    /\ bound_to 2 0 None evs = Some 3.
Proof.
  destruct (BindGLTextures_binds_unit_to_slot Demo.prepared) as (evs & Hsays & Hbound);
    [vm_compute; discriminate|].
  exists evs. split; [exact Hsays|].
  apply (Hbound 2%nat {| tex_tag := "wood"; tex_ID := 3 |}); vm_compute; reflexivity.
Defined.

(** X6 at work. *)
Lemma DestroyGLTextures_on_the_prepared_scene :
  exists s',
    DestroyGLTextures Demo.prepared = Ok (tt, s')
    /\ m_loadedTextures s' = 10
    /\ tex_tag <$> m_textureIDs s' = tex_tag <$> m_textureIDs Demo.prepared.
Proof.
  destruct (DestroyGLTextures_generates_names Demo.prepared)
    as (s' & Hrun & _ & Hcnt & Htags & _); [vm_compute; discriminate|].
  exists s'. split; [exact Hrun|]. split; [rewrite Hcnt; vm_compute; reflexivity|exact Htags].
Defined.

(** X8 at work: the material "wood" of the prepared scene. *)
Lemma wood_material_is_uploaded :
  exists m s',
    m_objectMaterials Demo.prepared !! 1%nat = Some m
    /\ shininess m = lit_f 50 1
    /\ SetShaderMaterial "wood" Demo.prepared = Ok (tt, s')
    /\ uniform "material.shininess" (calls s') = Some (UFloat (shininess m)).
Proof.
  eexists _, _. split; [vm_compute; reflexivity|]. split; [vm_compute; reflexivity|]. split.
  - apply (SetShaderMaterial_uploads_the_first_match "wood" Demo.prepared 1%nat).
    + eexists. vm_compute. reflexivity.
    + vm_compute. reflexivity.
    + reflexivity.
    + intros [|[|j]] m' Hj Hm'; [|lia|lia].
      vm_compute in Hm'. injection Hm' as <-. discriminate.
  - reflexivity.
Defined.

(** X14 at work: a material asked for without a shader manager. *)
Lemma material_without_shader_manager_is_undefined :
  SetShaderAttributes red "none" ones "wood" headless_with_materials = Undefined NullPointer
  /\ SetShaderAttributes red "wood" ones "none" headless_with_materials
     = Ok (tt, headless_with_materials).
Proof.
  split; rewrite SetShaderAttributes_without_shader_manager by reflexivity; reflexivity.
Defined.

(** X15 at work. *)
Lemma RenderScene_on_the_headless_scene :
  RenderScene headless_with_materials = Undefined NullPointer
  /\ exists evs, says RenderScene headless tt evs /\ length evs = 36%nat.
Proof.
  split.
  - apply (RenderScene_without_shader_manager headless_with_materials); [reflexivity|].
    vm_compute. discriminate.
  - destruct (RenderScene_without_shader_manager headless) as [_ H]; [reflexivity|].
    destruct H as (evs & Hsays & Hlen & _); [reflexivity|].
    exists evs. split; assumption.
Defined.

(** X9 at work. *)
Lemma colour_after_texture_on_the_prepared_scene :
  exists s1 s2,
    SetShaderTexture "marble" Demo.prepared = Ok (tt, s1)
    /\ SetShaderColor (lit_f 10 1) (lit_f 0 1) (lit_f 0 1) (lit_f 10 1) s1 = Ok (tt, s2)
    /\ uniform g_UseTextureName (calls s2) = Some (UInt 0)
    /\ uniform g_TextureValueName (calls s2) = Some (USampler2D 4).
Proof.
  destruct (SetShaderColor_switches_texturing_off "marble"
              (lit_f 10 1) (lit_f 0 1) (lit_f 0 1) (lit_f 10 1) Demo.prepared)
    as (s1 & s2 & slot & Hslot & H1 & H2 & Hflag & _ & Htex).
  - ready_by_computation.
  - exists s1, s2. split; [exact H1|]. split; [exact H2|]. split; [exact Hflag|].
    rewrite Htex. rewrite FindTextureSlot_spec in Hslot by (vm_compute; discriminate).
    apply (f_equal (fun r => match r with Ok (k, _) => k | Undefined _ => 0 end)) in Hslot.
    cbv beta iota in Hslot. rewrite <- Hslot.
    apply (f_equal (fun k => Some (USampler2D k))). vm_compute. reflexivity.
Defined.

(** X13 at work: two frames of the prepared scene. *)
Lemma two_frames_of_the_prepared_scene :
  exists evs,
    says RenderScene Demo.prepared tt evs
    /\ says RenderScene (emits (reverse evs) Demo.prepared) tt evs
    /\ length (draws_from (calls Demo.prepared) evs) = 36%nat.
Proof.
  destruct (RenderScene_frames_are_alike Demo.prepared) as (evs & H1 & H2 & Hlen & _).
  - ready_by_computation.
  - vm_compute. discriminate.
  - exists evs. split; [exact H1|]. split; [exact H2|exact Hlen].
Defined.

(** X17 at work: the scene prepared from the constructor's state and drawn. *)
Lemma the_scene_prepared_and_drawn :
  exists s1 evs,
    PrepareScene silent_loads Demo.fresh = Ok (tt, s1)
    /\ says RenderScene s1 tt evs
    /\ Forall (fun d => exists k, drawn_texture d = Some (USampler2D k) /\ 0 <= k < 10)
              (draws_from (calls s1) evs).
Proof.
  destruct (PrepareScene_then_RenderScene silent_loads Demo.fresh)
    as (s1 & evs & Hrun & _ & Hsays & Hall).
  - eexists. vm_compute. reflexivity.
  - reflexivity.
  - vm_compute. lia.
  - reflexivity.
  - repeat (apply Forall_cons_2; [reflexivity|]). apply Forall_nil_2.
  - intros k meshes s. exists []. apply says_ret.
  - exists s1, evs. split; [exact Hrun|]. split; [exact Hsays|].
    eapply Forall_impl; [exact Hall|]. intros d [Hk _]. exact Hk.
Defined.

(** X16 at work: the cucumber of the scene. *)
Lemma the_cucumber_of_the_scene :
  exists evs,
    says (DrawCucumber (lit_f 38 1) (lit_f 3 1) (lit_f (-30) 1)) Demo.prepared tt evs
    /\ length (draws_from (calls Demo.prepared) evs) = 13%nat.
Proof.
  destruct (DrawCucumber_caps_share_the_transformation
              (lit_f 38 1) (lit_f 3 1) (lit_f (-30) 1) Demo.prepared)
    as (evs & outer & inner & Hsays & _ & _ & long & sphere & slices & Hdraws & Hlen & _).
  - ready_by_computation.
  - exists evs. split; [exact Hsays|].
    rewrite Hdraws, length_app, length_flat_map.
    destruct slices as [|? [|? [|? [|? [|? [|? ?]]]]]]; try discriminate Hlen. reflexivity.
Defined.

(** X11 at work. *)
Lemma lights_on_the_new_scene :
  exists evs, says SetupSceneLights Demo.fresh tt evs /\ length evs = 19%nat.
Proof.
  destruct (SetupSceneLights_leaves_the_draw_uniforms Demo.fresh) as (evs & Hsays & Hlen & _).
  - eexists. vm_compute. reflexivity.
  - exists evs. split; assumption.
Defined.

(** X12 at work. *)
Lemma PrepareScene_on_the_headless_scene :
  PrepareScene silent_loads headless = Undefined NullPointer.
Proof.
  apply (PrepareScene_without_shader_manager silent_loads headless).
  - reflexivity.
  - vm_compute. discriminate.
  - vm_compute. discriminate.
Defined.

(** X18 at work: the cup, the cucumber and the knife moved. *)
Lemma the_objects_of_the_scene_moved :
  exists cup cup',
    says (DrawCup (lit_f (-30) 1) (lit_f 0 1) (lit_f (-42) 1)) Demo.prepared tt cup
    /\ says (DrawCup (lit_f 10 1) (lit_f 20 1) (lit_f 30 1)) Demo.prepared tt cup'
    /\ without_model <$> draws_from (calls Demo.prepared) cup
       = without_model <$> draws_from (calls Demo.prepared) cup'.
Proof.
  destruct (compound_objects_differ_in_position_only
              (lit_f (-30) 1) (lit_f 0 1) (lit_f (-42) 1)
              (lit_f 10 1) (lit_f 20 1) (lit_f 30 1) Demo.prepared)
    as (cup & cup' & _ & _ & _ & _ & H1 & H2 & _ & _ & _ & _ & H & _).
  - ready_by_computation.
  - exists cup, cup'. split; [exact H1|]. split; [exact H2|exact H].
Defined.

(** X21 at work: the first mouse event, at the middle of the window. *)
Lemma the_first_mouse_event_does_not_pan :
  exists p v,
    View.Mouse_Position_Callback pan (lit_d 5000 1) (lit_d 4000 1)
      View.new_Pointer View.new_ViewManager = Ok (p, v)
    /\ View.g_pCamera v = View.g_pCamera View.new_ViewManager
    /\ View.gFirstMouse p = false.
Proof.
  eexists _, _. split.
  - apply (Mouse_Position_Callback_first_event pan (lit_d 5000 1) (lit_d 4000 1)
             View.new_Pointer View.new_ViewManager).
    + vm_compute. reflexivity.
    + vm_compute. reflexivity.
    + reflexivity.
    + left. reflexivity.
  - split; [vm_compute; reflexivity|reflexivity].
Defined.

(** X22 at work. *)
Lemma a_frame_without_camera_is_undefined :
  View.PrepareSceneView stay view_of ortho perspective (lit_d 16 3) (View.only View.GLFW_KEY_W)
    view_without_camera
  = Undefined NullPointer.
Proof.
  apply (callbacks_without_camera stay pan wheel view_of ortho perspective
           (lit_d 16 3) (View.only View.GLFW_KEY_W) (lit_d 0 1) (lit_d 0 1)
           View.new_Pointer view_without_camera).
  reflexivity.
Defined.

(** X23 at work: O and P held together in the first frame. *)
Lemma O_and_P_held_together :
  exists vm',
    View.PrepareSceneView stay view_of ortho perspective (lit_d 16 3)
      (fun k => bool_decide (k = View.GLFW_KEY_O \/ k = View.GLFW_KEY_P)) first_view
    = Ok (vm',
          [ Uniform "view" (UMat4 (view_of
              {| View.Position := Vec3 (lit_f 0 1) (lit_f 20 1) (lit_f 100 1);
                 View.Front := Vec3 (lit_f 0 1) (lit_f 0 1) (lit_f (-10) 1);
                 View.Up := Vec3 (lit_f 0 1) (lit_f 50 1) (lit_f 0 1);
                 View.Zoom := View.int_to_float 60 |}));
            Uniform "projection"
              (UMat4 (perspective (Demo.radians (View.int_to_float 60))
                        (View.div32 (View.int_to_float 1000) (View.int_to_float 800))
                        (lit_f 1 1) (lit_f 1000 1)));
            Uniform "viewPosition" (UVec3 (Vec3 (lit_f 0 1) (lit_f 20 1) (lit_f 100 1))) ]).
Proof.
  destruct (PrepareSceneView_uses_the_keys_of_the_frame stay view_of ortho perspective
              (lit_d 16 3) (fun k => bool_decide (k = View.GLFW_KEY_O \/ k = View.GLFW_KEY_P))
              first_view
              {| View.Position := Vec3 (lit_f 20 1) (lit_f 55 1) (lit_f 90 1);
                 View.Front := Vec3 (lit_f 0 1) (lit_f (-9) 1) (lit_f (-40) 1);
                 View.Up := Vec3 (lit_f 0 1) (lit_f 10 1) (lit_f 0 1);
                 View.Zoom := View.int_to_float 60 |})
    as (c' & Hc' & Hrun).
  - reflexivity.
  - eexists. rewrite Hrun. vm_compute in Hc'. injection Hc' as <-.
    apply f_equal. apply (f_equal2 pair); reflexivity.
Defined.

End Examples.
